(** * mcp-shrimp-task-manager: complexity routing, anti-obfuscation scoring,
      debate-protocol configuration and the task store

    A shallow embedding of
      - [src/tools/cognitiveRouter.ts]   (CognitiveRouter.assessTaskComplexity),
      - [src/utils/antiObfuscation.ts]   (evidence validation, pattern
        detection, honest incentives),
      - [src/config/debateProtocol.ts]   (validator, loader and analyzer),
      - [src/models/taskModel.ts]        (updateTask and the operations built
        on it, deleteTask, canExecuteTask, assessTaskComplexity),
      - the verify-task tool             (the configuration it hands on, the
        debate score, the adjustment and the confidence),
      - [src/tools/mcpIntegration.ts]    (the operation routed, the retry
        loop, the window of response times),
    followed by the properties established about them.

    Conventions of the embedding.
      - A JavaScript string is a Rocq [string]: a sequence of code units, each
        below 256.  [toLowerCase], [\w], [\s] and [trim] are given for that
        range.
      - A JavaScript [number] that only ever holds a length, a count or a sum
        of integer constants is a [Z]; a number that may hold a fraction is a
        [Q], with exact arithmetic.
      - An optional field ([notes?: string]) is an [option]; JavaScript
        truthiness of an optional string is [truthy] below.
      - An asynchronous operation on the tasks file is a function from the
        file read to its answer and the file written.  A request to an MCP
        server is not part of the embedding: of [routeOperation] the
        operation handed over is given, of [executeWithRetry] the loop over
        the outcomes of the attempts. *)

From Stdlib Require Import String Ascii List ZArith NArith QArith Qround Qminmax Qabs.
From Stdlib Require Import Lia Lqa Bool DecimalString.
From stdpp Require Import base gmap strings list fin_maps.

Local Open Scope string_scope.
Local Open Scope Z_scope.

(** ** JavaScript string primitives *)

Module Js.

Definition code (c : ascii) : N := N_of_ascii c.

Definition between (lo hi n : N) : bool := ((lo <=? n) && (n <=? hi))%N.

(** [String.prototype.toLowerCase] on code units below 256: A-Z, and the
    accented capitals U+00C0..U+00DE except the multiplication sign U+00D7. *)
Definition isUpper (c : ascii) : bool :=
  between 65 90 (code c) || (between 192 222 (code c) && negb (code c =? 215)%N).

Definition toLowerCaseChar (c : ascii) : ascii :=
  if isUpper c then ascii_of_N (code c + 32) else c.

Fixpoint toLowerCase (s : string) : string :=
  match s with
  | EmptyString => EmptyString
  | String c r => String (toLowerCaseChar c) (toLowerCase r)
  end.

(** The regular-expression class [\s] (also the set removed by [trim]). *)
Definition isSpace (c : ascii) : bool :=
  between 9 13 (code c) || (code c =? 32)%N || (code c =? 160)%N.

(** The regular-expression class [\w] = [[A-Za-z0-9_]]. *)
Definition isWordChar (c : ascii) : bool :=
  between 48 57 (code c) || between 65 90 (code c) || (code c =? 95)%N
  || between 97 122 (code c).

(** [s.includes(sub)]: [sub] occurs in [s] as a contiguous substring. *)
Fixpoint includes (s sub : string) : bool :=
  String.prefix sub s ||
  match s with
  | EmptyString => false
  | String _ r => includes r sub
  end.

(** [arr.includes(x)] on an array of strings. *)
Definition arrayIncludes (arr : list string) (x : string) : bool :=
  existsb (String.eqb x) arr.

(** [s.split(/[class]+/)]: cut at every maximal run of separator characters.
    [cur] is the piece being read, [inSep] tells that the previous character
    was a separator.  As in JavaScript, a separator run at either end of the
    text yields an empty first or last piece. *)
Fixpoint splitRuns (sep : ascii -> bool) (s cur : string) (inSep : bool)
  : list string :=
  match s with
  | EmptyString => [cur]
  | String c r =>
      if sep c
      then (if inSep then splitRuns sep r EmptyString true
            else cur :: splitRuns sep r EmptyString true)
      else splitRuns sep r (cur +:+ String c EmptyString) false
  end.

Definition split (sep : ascii -> bool) (s : string) : list string :=
  splitRuns sep s EmptyString false.

Fixpoint trimStart (s : string) : string :=
  match s with
  | EmptyString => EmptyString
  | String c r => if isSpace c then trimStart r else s
  end.

Fixpoint trimEnd (s : string) : string :=
  match s with
  | EmptyString => EmptyString
  | String c r =>
      match trimEnd r with
      | EmptyString => if isSpace c then EmptyString else String c EmptyString
      | t => String c t
      end
  end.

Definition trim (s : string) : string := trimEnd (trimStart s).

(** [s.substring(0, n)]. *)
Definition substring0 (n : nat) (s : string) : string := String.substring 0 n s.

(** [[...new Set(words)]]: the distinct elements in order of first occurrence. *)
Fixpoint dedupeInto (seen words : list string) : list string :=
  match words with
  | [] => seen
  | w :: ws =>
      if arrayIncludes seen w then dedupeInto seen ws
      else dedupeInto (seen ++ [w])%list ws
  end.

Definition dedupe (words : list string) : list string := dedupeInto [] words.

(** Truthiness of an optional string: [undefined] and the empty string are
    falsy. *)
Definition truthy (o : option string) : bool :=
  match o with
  | Some s => negb (String.eqb s EmptyString)
  | None => false
  end.

(** Decimal rendering of an integer, as in a template literal. *)
Definition showZ (z : Z) : string := NilZero.string_of_int (Z.to_int z).

(** [Math.round] on an exact rational: the nearest integer, halves upwards. *)
Definition mathRound (x : Q) : Z := Qfloor (x + (1 # 2)).

(** [x.toFixed(1)] for a non-negative [x]: one decimal, halves upwards. *)
Definition toFixed1 (x : Q) : string :=
  let tenths := Qfloor (x * 10 + (1 # 2)) in
  showZ (tenths / 10) +:+ "." +:+ showZ (tenths mod 10).

Definition strlen (s : string) : Z := Z.of_nat (String.length s).
Definition arrlen {A} (l : list A) : Z := Z.of_nat (List.length l).

End Js.

(** ** Types of [src/types/index.ts] *)

Inductive TaskStatus := PENDING | IN_PROGRESS | COMPLETED | BLOCKED.

Record TaskDependency := { taskId : string }.

(** The fields of [Task] read by the scorers; dates are millisecond stamps. *)
Record Task := {
  id : string;
  name : string;
  description : string;
  notes : option string;
  status : TaskStatus;
  dependencies : list TaskDependency;
  createdAt : Z;
  updatedAt : Z;
  summary : option string;
  analysisResult : option string;
  implementationGuide : option string;
  verificationCriteria : option string
}.

Inductive TaskComplexityLevel := LOW | MEDIUM | HIGH | VERY_HIGH.

Module TaskComplexityThresholds.
Module DESCRIPTION_LENGTH.
Definition MEDIUM : Z := 500.
Definition HIGH : Z := 1000.
Definition VERY_HIGH : Z := 2000.
End DESCRIPTION_LENGTH.
Module DEPENDENCIES_COUNT.
Definition MEDIUM : Z := 2.
Definition HIGH : Z := 5.
Definition VERY_HIGH : Z := 10.
End DEPENDENCIES_COUNT.
Module NOTES_LENGTH.
Definition MEDIUM : Z := 200.
Definition HIGH : Z := 500.
Definition VERY_HIGH : Z := 1000.
End NOTES_LENGTH.
End TaskComplexityThresholds.

Record ComplexityMetrics := {
  descriptionLength : Z;
  dependenciesCount : Z;
  notesLength : Z;
  hasNotes : bool
}.

Inductive SystemRecommendation := SYSTEM_1 | SYSTEM_2 | HYBRID.
Inductive McpServerTarget := supabase | graphiti | hybrid.

Record CognitiveRoutingAssessment := {
  level : TaskComplexityLevel;
  metrics : ComplexityMetrics;
  recommendations : list string;
  systemRecommendation : SystemRecommendation;
  mcpServerTarget : McpServerTarget;
  routingJustification : list string;
  episodicMemoryRequired : bool;
  temporalContextRequired : bool;
  complexityScore : Z
}.

(** ** [src/tools/cognitiveRouter.ts] *)

Module CognitiveRouter.

Definition supabaseThreshold : Z := TaskComplexityThresholds.DESCRIPTION_LENGTH.MEDIUM.
Definition graphitiThreshold : Z := TaskComplexityThresholds.DESCRIPTION_LENGTH.HIGH.
Definition dependencyThresholdMedium : Z := TaskComplexityThresholds.DEPENDENCIES_COUNT.MEDIUM.
Definition dependencyThresholdHigh : Z := TaskComplexityThresholds.DEPENDENCIES_COUNT.HIGH.

Definition temporalKeywords : list string :=
  ["temporal"; "time"; "sequence"; "history"; "memory"; "context"; "knowledge"].

(** [temporalKeywords.some(keyword => description.toLowerCase().includes(keyword)
     || (task.notes && task.notes.toLowerCase().includes(keyword)))] *)
Definition hasTemporalContext (task : Task) : bool :=
  existsb (fun keyword =>
    Js.includes (Js.toLowerCase (description task)) keyword
    || (Js.truthy (notes task)
        && match notes task with
           | Some n => Js.includes (Js.toLowerCase n) keyword
           | None => false
           end))
    temporalKeywords.

(** The three ladders of [assessTaskComplexity]: description length (40%),
    dependencies (30%), notes (20%). *)
Definition descriptionPoints (descriptionLength : Z) : Z :=
  if descriptionLength <? supabaseThreshold then 10
  else if descriptionLength <? graphitiThreshold then 30
  else 40.

Definition dependencyPoints (dependenciesCount : Z) : Z :=
  if dependenciesCount <? dependencyThresholdMedium then 5
  else if dependenciesCount <? dependencyThresholdHigh then 15
  else 30.

Definition notesPoints (notesLength : Z) : Z :=
  if TaskComplexityThresholds.NOTES_LENGTH.HIGH <? notesLength then 20
  else if TaskComplexityThresholds.NOTES_LENGTH.MEDIUM <? notesLength then 10
  else 0.

(** "Determine complexity level". *)
Definition levelOfScore (complexityScore : Z) : TaskComplexityLevel :=
  if complexityScore <=? 25 then LOW
  else if complexityScore <=? 50 then MEDIUM
  else if complexityScore <=? 75 then HIGH
  else VERY_HIGH.

Definition temporalLine : string :=
  "Temporal context detected - enhanced memory capabilities required".

Definition assessTaskComplexity (task : Task) : CognitiveRoutingAssessment :=
  let descriptionLength := Js.strlen (description task) in
  let dependenciesCount := Js.arrlen (dependencies task) in
  let notesLength :=
    match notes task with Some n => Js.strlen n | None => 0 end in
  let hasNotes := Js.truthy (notes task) in
  let complexityScore := 0 in
  let complexityScore := complexityScore + descriptionPoints descriptionLength in
  let complexityScore := complexityScore + dependencyPoints dependenciesCount in
  let complexityScore := complexityScore + notesPoints notesLength in
  let hasTemporal := hasTemporalContext task in
  let complexityScore :=
    if hasTemporal then complexityScore + 10 else complexityScore in
  let level := levelOfScore complexityScore in
  let '(systemRecommendation, mcpServerTarget, episodic, justification) :=
    match level with
    | LOW =>
        (SYSTEM_1, supabase, false,
         ["Low complexity task suitable for fast System 1 processing";
          "High-throughput database operations via Supabase MCP"])
    | MEDIUM =>
        (HYBRID, hybrid, false,
         ["Medium complexity requires hybrid System 1/System 2 coordination";
          "Initial processing via Supabase, complex analysis via Graphiti"])
    | _ =>
        (SYSTEM_2, graphiti, true,
         (["High complexity requires deliberative System 2 processing";
           "Episodic memory storage and temporal knowledge graphs via Graphiti MCP"]
          ++ (if hasTemporal then [temporalLine] else []))%list)
    end in
  {| level := level;
     metrics := {| descriptionLength := descriptionLength;
                   dependenciesCount := dependenciesCount;
                   notesLength := notesLength;
                   hasNotes := hasNotes |};
     recommendations := justification;
     systemRecommendation := systemRecommendation;
     mcpServerTarget := mcpServerTarget;
     routingJustification := justification;
     episodicMemoryRequired := episodic;
     temporalContextRequired := hasTemporal;
     complexityScore := complexityScore |}.

End CognitiveRouter.

(** ** [src/utils/antiObfuscation.ts] *)

Inductive Sensitivity := SENS_LOW | SENS_MEDIUM | SENS_HIGH.

Inductive ManipulationRisk := RISK_LOW | RISK_MEDIUM | RISK_HIGH.

Record AntiObfuscationResult := {
  evidenceConsistency : Z;
  manipulationRisk : ManipulationRisk;
  truthfulnessIndicators : list string;
  suspiciousPatterns : list string
}.

Record TruthfulnessWeights := {
  consistencyWeight : Q;
  evidenceWeight : Q;
  implementationWeight : Q
}.

Module AntiObfuscation.

Record AntiObfuscationConfig := {
  evidenceThreshold : Q;
  manipulationDetectionSensitivity : Sensitivity;
  maxScoreDifference : Q;
  suspiciousPatternKeywords : list string;
  truthfulnessWeights : TruthfulnessWeights
}.

Definition DEFAULT_ANTI_OBFUSCATION_CONFIG : AntiObfuscationConfig := {|
  evidenceThreshold := 70;
  manipulationDetectionSensitivity := SENS_MEDIUM;
  maxScoreDifference := 25;
  suspiciousPatternKeywords :=
    ["fake"; "mock"; "placeholder"; "todo"; "fixme"; "hack";
     "temporary"; "incomplete"; "unfinished"; "broken";
     "inconsistent"; "contradictory"; "misleading"];
  truthfulnessWeights := {|
    consistencyWeight := 4 # 10;
    evidenceWeight := 35 # 100;
    implementationWeight := 25 # 100 |}
|}.

Definition Qltb (x y : Q) : bool := negb (Qle_bool y x).

Definition dq : string := String (ascii_of_N 34) EmptyString.

Definition stopWords : list string :=
  ["the"; "and"; "or"; "but"; "in"; "on"; "at"; "to"; "for"; "of"; "with"; "by";
   "this"; "that"; "these"; "those"; "is"; "are"; "was"; "were"; "be"; "been";
   "have"; "has"; "had"; "do"; "does"; "did"; "will"; "would"; "could"; "should";
   "may"; "might"; "can"; "must"; "shall"; "need"; "use"; "used"; "using";
   "make"; "made"; "get"; "got"; "take"; "took"; "come"; "came"; "go"; "went"].

Definition isCommonWord (word : string) : bool := Js.arrayIncludes stopWords word.

(** [text.replace(/[^\w\s]/g, ' ')] *)
Fixpoint replacePunctuation (text : string) : string :=
  match text with
  | EmptyString => EmptyString
  | String c r =>
      String (if Js.isWordChar c || Js.isSpace c then c else " "%char)
             (replacePunctuation r)
  end.

Definition extractKeywords (text : string) : list string :=
  let cleaned := replacePunctuation (Js.toLowerCase text) in
  let words :=
    List.filter (fun word => (2 <? Js.strlen word) && negb (isCommonWord word))
                (Js.split Js.isSpace cleaned) in
  Js.dedupe words.

Record EvidenceValidation := {
  score : Z;
  issues : list string
}.

(** [required.filter(k => summaryKeywords.includes(k)).length
     / Math.max(required.length, 1)] *)
Definition alignment (required summaryKeywords : list string) : Q :=
  (inject_Z (Js.arrlen (List.filter (Js.arrayIncludes summaryKeywords) required))
   / inject_Z (Z.max (Js.arrlen required) 1))%Q.

Definition validateTaskEvidence (task : Task) (summary : string)
    (config : AntiObfuscationConfig) : EvidenceValidation :=
  let issues : list string := [] in
  let consistencyScore := 100 in
  let descriptionKeywords := extractKeywords (description task) in
  let summaryKeywords := extractKeywords summary in
  let descriptionCoverage := alignment descriptionKeywords summaryKeywords in
  let '(issues, consistencyScore) :=
    if Qltb descriptionCoverage (3 # 10)
    then ((issues ++ ["摘要與任務描述關聯性不足"])%list, consistencyScore - 20)
    else (issues, consistencyScore) in
  let '(issues, consistencyScore) :=
    match verificationCriteria task with
    | Some criteria =>
        if Js.truthy (Some criteria) then
          let criteriaKeywords := extractKeywords criteria in
          let criteriaAlignment := alignment criteriaKeywords summaryKeywords in
          if Qltb criteriaAlignment (4 # 10)
          then ((issues ++ ["未充分滿足驗證標準要求"])%list, consistencyScore - 15)
          else (issues, consistencyScore)
        else (issues, consistencyScore)
    | None => (issues, consistencyScore)
    end in
  let '(issues, consistencyScore) :=
    match implementationGuide task with
    | Some guide =>
        if Js.truthy (Some guide) then
          let guideKeywords := extractKeywords guide in
          let implementationAlignment := alignment guideKeywords summaryKeywords in
          if Qltb implementationAlignment (3 # 10)
          then ((issues ++ ["實施過程與指南偏差較大"])%list, consistencyScore - 10)
          else (issues, consistencyScore)
        else (issues, consistencyScore)
    | None => (issues, consistencyScore)
    end in
  {| score := Z.max 0 consistencyScore; issues := issues |}.

(** The [Map<string, number>] of [detectInconsistencies], in insertion order. *)
Fixpoint mapGet (m : list (string * Z)) (k : string) : option Z :=
  match m with
  | [] => None
  | (k', v) :: r => if String.eqb k' k then Some v else mapGet r k
  end.

Fixpoint mapSet (m : list (string * Z)) (k : string) (v : Z) : list (string * Z) :=
  match m with
  | [] => [(k, v)]
  | (k', v') :: r =>
      if String.eqb k' k then (k', v) :: r else (k', v') :: mapSet r k v
  end.

(** The class [[.!?]]. *)
Definition isTerminator (c : ascii) : bool :=
  (Js.code c =? 46)%N || (Js.code c =? 33)%N || (Js.code c =? 63)%N.

(** One round of the [forEach] that fills [phraseFreq]. *)
Definition countStep (phraseFreq : list (string * Z)) (phrase : string)
  : list (string * Z) :=
  let normalized := Js.toLowerCase (Js.trim phrase) in
  mapSet phraseFreq normalized
         (match mapGet phraseFreq normalized with
          | Some n => n
          | None => 0
          end + 1).

Definition countPhrases (phrases : list string) : list (string * Z) :=
  fold_left countStep phrases [].

(** [text.split(/[.!?]+/).filter(p => p.trim().length > 0)] *)
Definition phrasesOf (text : string) : list string :=
  List.filter (fun p => 0 <? Js.strlen (Js.trim p)) (Js.split isTerminator text).

Definition contradictoryPairs : list (string * string) :=
  [("completed", "incomplete");
   ("finished", "unfinished");
   ("working", "broken");
   ("implemented", "not implemented");
   ("successful", "failed")].

Definition keywordHits (lowercaseText : string) (keywords : list string)
  : list string :=
  flat_map
    (fun keyword =>
       if Js.includes lowercaseText (Js.toLowerCase keyword)
       then ["包含可疑關鍵字: " +:+ keyword] else [])
    keywords.

(** The loop over the entries of [phraseFreq]. *)
Definition flagRepeated (phraseFreq : list (string * Z)) : list string :=
  flat_map
    (fun '(phrase, count) =>
       if (3 <? count) && (10 <? Js.strlen phrase)
       then ["過度重複的表述: " +:+ dq +:+ Js.substring0 50 phrase +:+ "..." +:+ dq]
       else [])
    phraseFreq.

Definition repeatedPhrases (text : string) : list string :=
  flagRepeated (countPhrases (phrasesOf text)).

Definition contradictions (lowercaseText : string) : list string :=
  flat_map
    (fun '(positive, negative) =>
       if Js.includes lowercaseText positive && Js.includes lowercaseText negative
       then ["矛盾陳述: 同時包含 " +:+ dq +:+ positive +:+ dq +:+ " 和 "
             +:+ dq +:+ negative +:+ dq]
       else [])
    contradictoryPairs.

Definition detectInconsistencies (text : string) (config : AntiObfuscationConfig)
  : list string :=
  let lowercaseText := Js.toLowerCase text in
  (keywordHits lowercaseText (suspiciousPatternKeywords config)
   ++ repeatedPhrases text
   ++ contradictions lowercaseText)%list.

Record IncentiveResult := {
  adjustedScore : Z;
  incentiveAnalysis : list string
}.

Definition applyHonestIncentives (baseScore evidenceScore : Q)
    (suspiciousPatterns : list string) (config : AntiObfuscationConfig)
  : IncentiveResult :=
  let incentiveAnalysis : list string := [] in
  let adjustedScore := baseScore in
  let '(adjustedScore, incentiveAnalysis) :=
    if Qle_bool (evidenceThreshold config) evidenceScore then
      let bonus := Qmin 5 ((evidenceScore - evidenceThreshold config) / 6)%Q in
      ((adjustedScore + bonus)%Q,
       (incentiveAnalysis
        ++ ["證據一致性良好，獲得 " +:+ Js.toFixed1 bonus +:+ " 分獎勵"])%list)
    else
      let penalty := Qmin 15 ((evidenceThreshold config - evidenceScore) / 3)%Q in
      ((adjustedScore - penalty)%Q,
       (incentiveAnalysis
        ++ ["證據一致性不足，扣除 " +:+ Js.toFixed1 penalty +:+ " 分"])%list) in
  let '(adjustedScore, incentiveAnalysis) :=
    if (0 <? Js.arrlen suspiciousPatterns)%Z then
      let penalty := Z.min 20 (Js.arrlen suspiciousPatterns * 4) in
      ((adjustedScore - inject_Z penalty)%Q,
       (incentiveAnalysis
        ++ ["檢測到 " +:+ Js.showZ (Js.arrlen suspiciousPatterns)
            +:+ " 個可疑模式，扣除 " +:+ Js.showZ penalty +:+ " 分"])%list)
    else
      ((adjustedScore + 2)%Q,
       (incentiveAnalysis ++ ["未檢測到可疑模式，獲得 2 分誠實獎勵"])%list) in
  let adjustedScore := Qmax 0 (Qmin 100 adjustedScore) in
  {| adjustedScore := Js.mathRound adjustedScore;
     incentiveAnalysis := incentiveAnalysis |}.

(** The local [incentiveResult] of [performAntiObfuscationValidation]. *)
Definition incentiveResultOf (task : Task) (summary : string) (baseScore : Q)
    (config : AntiObfuscationConfig) : IncentiveResult :=
  let evidenceValidation := validateTaskEvidence task summary config in
  let suspiciousPatterns := detectInconsistencies summary config in
  applyHonestIncentives baseScore (inject_Z (score evidenceValidation))
                        suspiciousPatterns config.

Definition performAntiObfuscationValidation (task : Task) (summary : string)
    (baseScore : Q) (config : AntiObfuscationConfig) : AntiObfuscationResult :=
  let evidenceValidation := validateTaskEvidence task summary config in
  let suspiciousPatterns := detectInconsistencies summary config in
  let incentiveResult :=
    applyHonestIncentives baseScore (inject_Z (score evidenceValidation))
                          suspiciousPatterns config in
  let manipulationRisk :=
    if (3 <=? Js.arrlen suspiciousPatterns) || (score evidenceValidation <? 50)
    then RISK_HIGH
    else if (1 <=? Js.arrlen suspiciousPatterns)
            || Qltb (inject_Z (score evidenceValidation)) (evidenceThreshold config)
    then RISK_MEDIUM
    else RISK_LOW in
  let truthfulnessIndicators : list string := [] in
  let truthfulnessIndicators :=
    if Qle_bool (evidenceThreshold config) (inject_Z (score evidenceValidation))
    then (truthfulnessIndicators ++ ["證據一致性達標"])%list
    else truthfulnessIndicators in
  let truthfulnessIndicators :=
    if (Js.arrlen suspiciousPatterns =? 0)
    then (truthfulnessIndicators ++ ["無可疑模式"])%list
    else truthfulnessIndicators in
  let truthfulnessIndicators :=
    if Qle_bool baseScore (inject_Z (adjustedScore incentiveResult))
    then (truthfulnessIndicators ++ ["誠實激勵評分提升"])%list
    else truthfulnessIndicators in
  {| evidenceConsistency := score evidenceValidation;
     manipulationRisk := manipulationRisk;
     truthfulnessIndicators :=
       (truthfulnessIndicators ++ incentiveAnalysis incentiveResult)%list;
     suspiciousPatterns :=
       (suspiciousPatterns ++ issues evidenceValidation)%list |}.

End AntiObfuscation.

(** ** [src/config/debateProtocol.ts] *)

(** A call either returns a value or throws (a [TypeError] when a property of
    [undefined] is read). *)
Inductive Outcome (A : Type) :=
| Returned (a : A)
| Threw (error : string).
Arguments Returned {A} a.
Arguments Threw {A} error.

Module DebateProtocol.

Record Weights := {
  prover : Q;
  estimator : Q;
  synthesis : Q
}.

Record Incentives := {
  consensusBonus : Q;
  conflictPenalty : Q;
  scoreDiscrepancyPenalty : Q;
  maxScoreDiscrepancy : Q
}.

Inductive EvidenceRequirement := MINIMAL | MODERATE | COMPREHENSIVE.

Record Processing := {
  requiredConsensusPoints : Z;
  maxAllowedConflicts : Z;
  evidenceRequirement : EvidenceRequirement
}.

(** An intensity profile as the object found at run time: [updateConfig]
    stores whatever object the caller supplies for a profile, so each of the
    three parts may be missing. *)
Record DebateIntensityConfig := {
  weights : option Weights;
  incentives : option Incentives;
  processing : option Processing
}.

Record IntensitySettings := {
  light : DebateIntensityConfig;
  moderate : DebateIntensityConfig;
  rigorous : DebateIntensityConfig
}.

Record AntiObfuscationSettings := {
  enabled : bool;
  evidenceThreshold : Q;
  manipulationSensitivity : Sensitivity;
  suspiciousPatternKeywords : list string;
  truthfulnessWeights : TruthfulnessWeights
}.

Inductive LogLevel := ERROR | WARN | INFO | DEBUG.

Record Performance := {
  maxProcessingTimeMs : Q;
  maxRecommendations : Q;
  enableAnalytics : bool;
  logLevel : LogLevel
}.

Record ConfidenceThresholds := {
  low : Q;
  medium : Q;
  high : Q
}.

Record Scoring := {
  completionThreshold : Q;
  confidenceThresholds : ConfidenceThresholds;
  scoringPrecision : Z
}.

Record DebateProtocolConfig := {
  intensitySettings : IntensitySettings;
  antiObfuscation : AntiObfuscationSettings;
  performance : Performance;
  scoring : Scoring
}.

Definition DEFAULT_DEBATE_CONFIG : DebateProtocolConfig := {|
  intensitySettings := {|
    light := {|
      weights := Some {| prover := 4 # 10; estimator := 3 # 10; synthesis := 3 # 10 |};
      incentives := Some {| consensusBonus := 15 # 10; conflictPenalty := 1;
                            scoreDiscrepancyPenalty := 5; maxScoreDiscrepancy := 35 |};
      processing := Some {| requiredConsensusPoints := 1; maxAllowedConflicts := 3;
                            evidenceRequirement := MINIMAL |} |};
    moderate := {|
      weights := Some {| prover := 35 # 100; estimator := 35 # 100; synthesis := 3 # 10 |};
      incentives := Some {| consensusBonus := 2; conflictPenalty := 15 # 10;
                            scoreDiscrepancyPenalty := 10; maxScoreDiscrepancy := 25 |};
      processing := Some {| requiredConsensusPoints := 2; maxAllowedConflicts := 2;
                            evidenceRequirement := MODERATE |} |};
    rigorous := {|
      weights := Some {| prover := 3 # 10; estimator := 4 # 10; synthesis := 3 # 10 |};
      incentives := Some {| consensusBonus := 3; conflictPenalty := 2;
                            scoreDiscrepancyPenalty := 15; maxScoreDiscrepancy := 20 |};
      processing := Some {| requiredConsensusPoints := 3; maxAllowedConflicts := 1;
                            evidenceRequirement := COMPREHENSIVE |} |}
  |};
  antiObfuscation := {|
    enabled := true;
    evidenceThreshold := 70;
    manipulationSensitivity := SENS_MEDIUM;
    suspiciousPatternKeywords :=
      ["fake"; "mock"; "placeholder"; "todo"; "fixme"; "hack";
       "temporary"; "incomplete"; "unfinished"; "broken";
       "inconsistent"; "contradictory"; "misleading"; "test";
       "dummy"; "stub"; "not implemented"; "coming soon"];
    truthfulnessWeights := {|
      consistencyWeight := 4 # 10;
      evidenceWeight := 35 # 100;
      implementationWeight := 25 # 100 |}
  |};
  performance := {|
    maxProcessingTimeMs := 5000;
    maxRecommendations := 5;
    enableAnalytics := true;
    logLevel := INFO
  |};
  scoring := {|
    completionThreshold := 80;
    confidenceThresholds := {| low := 75; medium := 85; high := 95 |};
    scoringPrecision := 2
  |}
|}.

(** [Partial<DebateProtocolConfig>] as callers use it: any section, and any
    key of a section, may be left out. *)
Record IntensitySettingsUpdate := {
  light' : option DebateIntensityConfig;
  moderate' : option DebateIntensityConfig;
  rigorous' : option DebateIntensityConfig
}.

Record AntiObfuscationUpdate := {
  enabled' : option bool;
  evidenceThreshold' : option Q;
  manipulationSensitivity' : option Sensitivity;
  suspiciousPatternKeywords' : option (list string);
  truthfulnessWeights' : option TruthfulnessWeights
}.

Record PerformanceUpdate := {
  maxProcessingTimeMs' : option Q;
  maxRecommendations' : option Q;
  enableAnalytics' : option bool;
  logLevel' : option LogLevel
}.

Record ScoringUpdate := {
  completionThreshold' : option Q;
  confidenceThresholds' : option ConfidenceThresholds;
  scoringPrecision' : option Z
}.

Record ConfigUpdate := {
  intensitySettings' : option IntensitySettingsUpdate;
  antiObfuscation' : option AntiObfuscationUpdate;
  performance' : option PerformanceUpdate;
  scoring' : option ScoringUpdate
}.

(** One key of an object spread [{...base, ...updates}]: the update's value
    when the key is there, the base's otherwise. *)
Definition spread {A} (base : A) (update : option A) : A :=
  match update with
  | Some v => v
  | None => base
  end.

Definition mergeConfig (base : DebateProtocolConfig) (updates : ConfigUpdate)
  : DebateProtocolConfig :=
  {| intensitySettings :=
       let b := intensitySettings base in
       match intensitySettings' updates with
       | Some u => {| light := spread (light b) (light' u);
                      moderate := spread (moderate b) (moderate' u);
                      rigorous := spread (rigorous b) (rigorous' u) |}
       | None => b
       end;
     antiObfuscation :=
       let b := antiObfuscation base in
       match antiObfuscation' updates with
       | Some u =>
           {| enabled := spread (enabled b) (enabled' u);
              evidenceThreshold := spread (evidenceThreshold b) (evidenceThreshold' u);
              manipulationSensitivity :=
                spread (manipulationSensitivity b) (manipulationSensitivity' u);
              suspiciousPatternKeywords :=
                spread (suspiciousPatternKeywords b) (suspiciousPatternKeywords' u);
              truthfulnessWeights :=
                spread (truthfulnessWeights b) (truthfulnessWeights' u) |}
       | None => b
       end;
     performance :=
       let b := performance base in
       match performance' updates with
       | Some u =>
           {| maxProcessingTimeMs := spread (maxProcessingTimeMs b) (maxProcessingTimeMs' u);
              maxRecommendations := spread (maxRecommendations b) (maxRecommendations' u);
              enableAnalytics := spread (enableAnalytics b) (enableAnalytics' u);
              logLevel := spread (logLevel b) (logLevel' u) |}
       | None => b
       end;
     scoring :=
       let b := scoring base in
       match scoring' updates with
       | Some u =>
           {| completionThreshold := spread (completionThreshold b) (completionThreshold' u);
              confidenceThresholds :=
                spread (confidenceThresholds b) (confidenceThresholds' u);
              scoringPrecision := spread (scoringPrecision b) (scoringPrecision' u) |}
       | None => b
       end |}.

Record Validation := {
  isValid : bool;
  errors : list string
}.

(** The result of [updateConfig]; its [errors] field is [updateErrors] here. *)
Record UpdateResult := {
  success : bool;
  updateErrors : list string
}.

(** [Object.entries(config.intensitySettings)] *)
Definition entries (s : IntensitySettings) : list (string * DebateIntensityConfig) :=
  [("light", light s); ("moderate", moderate s); ("rigorous", rigorous s)].

Definition weightSumOf (w : Weights) : Q := (prover w + estimator w + synthesis w)%Q.

(** [Math.abs(weightSum - 1.0) > 0.01] *)
Definition sumOff (weightSum : Q) : bool :=
  AntiObfuscation.Qltb (1 # 100) (Qabs (weightSum - 1)).

Definition Qgtb (x y : Q) : bool := AntiObfuscation.Qltb y x.
Definition Qgeb (x y : Q) : bool := Qle_bool y x.

Section Validator.

(** How a number is printed inside an error message ([`${weightSum}`]). *)
Variable numberToString : Q -> string.

Definition weightMessage (intensity : string) (weightSum : Q) : string :=
  intensity +:+ " intensity weights do not sum to 1.0 (sum: "
  +:+ numberToString weightSum +:+ ")".

(** The [forEach] over the profiles: reading [settings.weights.prover] of a
    profile without weights throws. *)
Fixpoint checkWeights (profiles : list (string * DebateIntensityConfig))
    (errors : list string) : Outcome (list string) :=
  match profiles with
  | [] => Returned errors
  | (intensity, settings) :: rest =>
      match weights settings with
      | None => Threw "TypeError: Cannot read properties of undefined (reading 'prover')"
      | Some w =>
          let weightSum := weightSumOf w in
          if sumOff weightSum
          then checkWeights rest (errors ++ [weightMessage intensity weightSum])%list
          else checkWeights rest errors
      end
  end.

Definition validate (config : DebateProtocolConfig) : Outcome Validation :=
  let errors : list string := [] in
  match checkWeights (entries (intensitySettings config)) errors with
  | Threw e => Threw e
  | Returned errors =>
      let errors :=
        if AntiObfuscation.Qltb (completionThreshold (scoring config)) 0
           || Qgtb (completionThreshold (scoring config)) 100
        then (errors ++ ["Completion threshold must be between 0 and 100"])%list
        else errors in
      let errors :=
        if AntiObfuscation.Qltb (evidenceThreshold (antiObfuscation config)) 0
           || Qgtb (evidenceThreshold (antiObfuscation config)) 100
        then (errors ++ ["Evidence threshold must be between 0 and 100"])%list
        else errors in
      let '(Build_ConfidenceThresholds low medium high) :=
        confidenceThresholds (scoring config) in
      let errors :=
        if Qgeb low medium || Qgeb medium high
        then (errors ++ ["Confidence thresholds must be in ascending order (low < medium < high)"])%list
        else errors in
      let errors :=
        if Qle_bool (maxProcessingTimeMs (performance config)) 0
        then (errors ++ ["Max processing time must be positive"])%list
        else errors in
      let errors :=
        if Qle_bool (maxRecommendations (performance config)) 0
        then (errors ++ ["Max recommendations must be positive"])%list
        else errors in
      Returned {| isValid := (Js.arrlen errors =? 0); errors := errors |}
  end.

(** The loader: the singleton's only field is the active configuration. *)
Record DebateConfigLoader := {
  config : DebateProtocolConfig
}.

Definition newLoader : DebateConfigLoader := {| config := DEFAULT_DEBATE_CONFIG |}.

Definition getConfig (this : DebateConfigLoader) : DebateProtocolConfig := config this.

Definition updateConfig (updates : ConfigUpdate) (this : DebateConfigLoader)
  : Outcome UpdateResult * DebateConfigLoader :=
  let newConfig := mergeConfig (config this) updates in
  match validate newConfig with
  | Threw e => (Threw e, this)
  | Returned validation =>
      if isValid validation
      then (Returned {| success := true; updateErrors := [] |},
            {| config := newConfig |})
      else (Returned {| success := false; updateErrors := errors validation |},
            this)
  end.


End Validator.

End DebateProtocol.

(** ** [src/config/debateProtocol.ts]: the analyzer *)

Module DebateConfigAnalyzer.
Import DebateProtocol.

Inductive MemoryUsage := MEMORY_LOW | MEMORY_MEDIUM | MEMORY_HIGH.

Record PerformanceImpact := {
  estimatedProcessingTime : Z;
  memoryUsage : MemoryUsage;
  recommendations : list string
}.

Definition keywordsAdvice : string := "考慮減少可疑模式關鍵字數量以提升性能".
Definition timeAdvice : string := "預估處理時間接近限制，建議調整配置參數".
Definition recommendationsAdvice : string := "建議限制推薦數量以提升性能".

Definition analyzePerformanceImpact (config : DebateProtocolConfig)
  : PerformanceImpact :=
  let recommendations : list string := [] in
  let estimatedTime := 100%Q in
  let memoryUsage := MEMORY_LOW in
  let avgImpact := (((12 # 10) + (15 # 10) + 2) / 3)%Q in
  let estimatedTime := (estimatedTime * avgImpact)%Q in
  let '(estimatedTime, memoryUsage, recommendations) :=
    if enabled (antiObfuscation config) then
      let estimatedTime := (estimatedTime * (13 # 10))%Q in
      let memoryUsage := MEMORY_MEDIUM in
      if 20 <? Js.arrlen (suspiciousPatternKeywords (antiObfuscation config))
      then ((estimatedTime * (12 # 10))%Q, memoryUsage,
            (recommendations ++ [keywordsAdvice])%list)
      else (estimatedTime, memoryUsage, recommendations)
    else (estimatedTime, memoryUsage, recommendations) in
  let '(estimatedTime, memoryUsage) :=
    if enableAnalytics (performance config) then
      ((estimatedTime * (11 # 10))%Q,
       match memoryUsage with
       | MEMORY_LOW => MEMORY_MEDIUM
       | _ => MEMORY_HIGH
       end)
    else (estimatedTime, memoryUsage) in
  let recommendations :=
    if Qgtb estimatedTime (maxProcessingTimeMs (performance config) * (8 # 10))%Q
    then (recommendations ++ [timeAdvice])%list
    else recommendations in
  let recommendations :=
    if Qgtb (maxRecommendations (performance config)) 10
    then (recommendations ++ [recommendationsAdvice])%list
    else recommendations in
  {| estimatedProcessingTime := Js.mathRound estimatedTime;
     memoryUsage := memoryUsage;
     recommendations := recommendations |}.

End DebateConfigAnalyzer.

(** ** [src/models/taskModel.ts]: the task store *)

Module TaskModel.

(** A value held by a task object.  [updateTask] treats a task as a plain
    object (it spreads it and lists the keys of the update), so here a task is
    a finite map from field names to values. *)
#[local] Unset Elimination Schemes.
Inductive JsValue :=
| JUndefined
| JNull
| JBool (b : bool)
| JNumber (n : Z)
| JString (s : string)
| JDate (ms : Z)
| JArray (items : list JsValue)
| JObject (fields : list (string * JsValue)).
#[local] Set Elimination Schemes.

Abbreviation TaskObject := (gmap string JsValue).

(** The content of [tasks.json]: the array under its ["tasks"] key.  A date is
    kept as a [JDate] in the file as well: its ISO string is read back by
    [new Date(...)] to the same instant. *)
Abbreviation Store := (list (gmap string JsValue)).

Definition statusString (s : TaskStatus) : string :=
  match s with
  | PENDING => "pending"
  | IN_PROGRESS => "in_progress"
  | COMPLETED => "completed"
  | BLOCKED => "blocked"
  end.

(** JavaScript truthiness. *)
Definition jsTruthy (v : option JsValue) : bool :=
  match v with
  | None | Some JUndefined | Some JNull => false
  | Some (JBool b) => b
  | Some (JNumber n) => negb (n =? 0)
  | Some (JString s) => negb (String.eqb s EmptyString)
  | Some (JDate _) | Some (JArray _) | Some (JObject _) => true
  end.

(** [x === "literal"] for a field that may be missing. *)
Definition strictEqString (v : option JsValue) (s : string) : bool :=
  match v with
  | Some (JString s') => String.eqb s' s
  | _ => false
  end.

(** [new Date(v)] for a stored date. *)
Definition toDate (v : JsValue) : JsValue :=
  match v with
  | JNumber n => JDate n
  | other => other
  end.

Section Clock.

(** The instant returned by [new Date()] during the call. *)
Variable now : Z.

(** [readTasks]: parse the file and convert the date fields. *)
Definition reviveDates (task : TaskObject) : TaskObject :=
  <["completedAt" :=
      if jsTruthy (task !! "completedAt")
      then toDate (default JUndefined (task !! "completedAt")) else JUndefined]>
  (<["updatedAt" :=
      if jsTruthy (task !! "updatedAt")
      then toDate (default JUndefined (task !! "updatedAt")) else JDate now]>
  (<["createdAt" :=
      if jsTruthy (task !! "createdAt")
      then toDate (default JUndefined (task !! "createdAt")) else JDate now]>
   task)).

Definition readTasks (file : Store) : Store := reviveDates <$> file.

Definition isUndefined (v : JsValue) : bool :=
  match v with
  | JUndefined => true
  | _ => false
  end.

(** [writeTasks]: [JSON.stringify] leaves out the keys whose value is
    [undefined]. *)
Definition stringifyTask (task : TaskObject) : TaskObject :=
  filter (fun kv => isUndefined kv.2 = false) task.

Definition writeTasks (tasks : Store) : Store := stringifyTask <$> tasks.

(** [tasks.findIndex(pred)], [None] standing for [-1]. *)
Fixpoint findIndex {A} (pred : A -> bool) (l : list A) : option nat :=
  match l with
  | [] => None
  | x :: r => if pred x then Some O else S <$> findIndex pred r
  end.

Definition allowedFields : list string := ["summary"; "relatedFiles"].

(** [Object.keys(updates)] *)
Definition keys (o : TaskObject) : list string := (map_to_list o).*1.

Definition updateTask (taskId : string) (updates : TaskObject) (file : Store)
  : option TaskObject * Store :=
  let tasks := readTasks file in
  match findIndex (fun task => strictEqString (task !! "id") taskId) tasks with
  | None => (None, file)
  | Some taskIndex =>
      match tasks !! taskIndex with
      | None => (None, file)
      | Some stored =>
          let attemptedFields := keys updates in
          let disallowedFields :=
            List.filter (fun field => negb (Js.arrayIncludes allowedFields field))
                        attemptedFields in
          if strictEqString (stored !! "status") (statusString COMPLETED)
             && (0 <? Js.arrlen disallowedFields)
          then (None, file)
          else
            let updated := <["updatedAt" := JDate now]> (updates ∪ stored) in
            let tasks := <[taskIndex := updated]> tasks in
            (Some updated, writeTasks tasks)
      end
  end.

End Clock.

End TaskModel.

(** ** [src/models/taskModel.ts]: the operations built on the store *)

Module TaskStore.
Import TaskModel.

(** The value under a key of an object literal. *)
Fixpoint assoc (fields : list (string * JsValue)) (key : string) : option JsValue :=
  match fields with
  | [] => None
  | (k, v) :: rest => if String.eqb k key then Some v else assoc rest key
  end.

(** [v.key] for a value found inside a parsed task and a key that names no
    built-in property (as [taskId]): reading a property of [null] or
    [undefined] throws, an object gives the value under the key, and any
    other value has no such property. *)
Definition getProp (v : JsValue) (key : string) : Outcome JsValue :=
  match v with
  | JUndefined | JNull =>
      Threw ("TypeError: Cannot read properties of undefined (reading '"
             +:+ key +:+ "')")
  | JObject fields => Returned (default JUndefined (assoc fields key))
  | _ => Returned JUndefined
  end.

(** The result of the operations that answer with a message. *)
Record Result := {
  success : bool;
  message : string;
  task : option TaskObject
}.

(** The [updates] of [updateTaskContent]. *)
Record ContentUpdates := {
  name' : option string;
  description' : option string;
  notes' : option string;
  relatedFiles' : option (list JsValue);
  dependencies' : option (list string);
  implementationGuide' : option string;
  verificationCriteria' : option string
}.

(** [updateObj.key = value] when [value !== undefined]. *)
Definition assign (key : string) (value : option JsValue) (o : TaskObject)
  : TaskObject :=
  match value with
  | Some v => <[key := v]> o
  | None => o
  end.

(** [task.dependencies.some(dep => dep.taskId === taskId)] on the array. *)
Fixpoint someDependsOn (items : list JsValue) (taskId : string) : Outcome bool :=
  match items with
  | [] => Returned false
  | dep :: rest =>
      match getProp dep "taskId" with
      | Threw e => Threw e
      | Returned v =>
          if strictEqString (Some v) taskId then Returned true
          else someDependsOn rest taskId
      end
  end.

(** Calling [some] on anything but an array throws. *)
Definition dependsOn (task : TaskObject) (taskId : string) : Outcome bool :=
  match task !! "dependencies" with
  | Some (JArray items) => someDependsOn items taskId
  | None | Some JUndefined | Some JNull =>
      Threw "TypeError: Cannot read properties of undefined (reading 'some')"
  | Some _ => Threw "TypeError: task.dependencies.some is not a function"
  end.

(** [allTasks.filter(task => task.dependencies.some(...))] *)
Fixpoint dependentsOf (allTasks : list TaskObject) (taskId : string)
  : Outcome (list TaskObject) :=
  match allTasks with
  | [] => Returned []
  | task :: rest =>
      match dependsOn task taskId with
      | Threw e => Threw e
      | Returned depends =>
          match dependentsOf rest taskId with
          | Threw e => Threw e
          | Returned found => Returned (if depends then task :: found else found)
          end
      end
  end.

(** [names.join(", ")] *)
Fixpoint join (sep : string) (pieces : list string) : string :=
  match pieces with
  | [] => EmptyString
  | [p] => p
  | p :: rest => p +:+ sep +:+ join sep rest
  end.

Section Clock.

(** The instant returned by [new Date()] during the call. *)
Variable now : Z.

(** How a value prints inside a template literal. *)
Variable show : option JsValue -> string.

(** [tasks.find(task => task.id === taskId) || null] *)
Definition getTaskById (taskId : string) (file : Store) : option TaskObject :=
  List.find (fun task => strictEqString (task !! "id") taskId) (readTasks now file).

Definition updateTaskStatus (taskId : string) (status : TaskStatus) (file : Store)
  : option TaskObject * Store :=
  let updates : TaskObject := {["status" := JString (statusString status)]} in
  let updates :=
    match status with
    | COMPLETED => <["completedAt" := JDate now]> updates
    | _ => updates
    end in
  updateTask now taskId updates file.

Definition updateTaskSummary (taskId : string) (summary : string) (file : Store)
  : option TaskObject * Store :=
  updateTask now taskId {["summary" := JString summary]} file.

Definition updateTaskCompletionMetadata (taskId : string) (metadata : JsValue)
    (file : Store) : option TaskObject * Store :=
  updateTask now taskId {["completionMetadata" := metadata]} file.

Definition updateTaskWithDebateResults (taskId : string) (summary : string)
    (metadata : JsValue) (file : Store) : option TaskObject * Store :=
  updateTask now taskId
    (<["status" := JString (statusString COMPLETED)]>
     (<["summary" := JString summary]>
      (<["completionMetadata" := metadata]>
       {["completedAt" := JDate now]})))
    file.

Definition updateTaskContent (taskId : string) (updates : ContentUpdates)
    (file : Store) : Result * Store :=
  match getTaskById taskId file with
  | None => ({| success := false; message := "找不到指定任務"; task := None |}, file)
  | Some found =>
      if strictEqString (found !! "status") (statusString COMPLETED)
      then ({| success := false; message := "無法更新已完成的任務"; task := None |},
            file)
      else
        let updateObj : TaskObject := ∅ in
        let updateObj := assign "name" (JString <$> name' updates) updateObj in
        let updateObj :=
          assign "description" (JString <$> description' updates) updateObj in
        let updateObj := assign "notes" (JString <$> notes' updates) updateObj in
        let updateObj :=
          assign "relatedFiles" (JArray <$> relatedFiles' updates) updateObj in
        let updateObj :=
          assign "dependencies"
            ((fun deps =>
                JArray ((fun dep => JObject [("taskId", JString dep)]) <$> deps))
               <$> dependencies' updates)
            updateObj in
        let updateObj :=
          assign "implementationGuide"
                 (JString <$> implementationGuide' updates) updateObj in
        let updateObj :=
          assign "verificationCriteria"
                 (JString <$> verificationCriteria' updates) updateObj in
        if Js.arrlen (keys updateObj) =? 0
        then ({| success := true; message := "沒有提供需要更新的內容";
                 task := Some found |}, file)
        else
          match updateTask now taskId updateObj file with
          | (None, file') =>
              ({| success := false; message := "更新任務時發生錯誤"; task := None |},
               file')
          | (Some updatedTask, file') =>
              ({| success := true; message := "任務內容已成功更新";
                  task := Some updatedTask |}, file')
          end
  end.

Definition updateTaskRelatedFiles (taskId : string) (relatedFiles : list JsValue)
    (file : Store) : Result * Store :=
  match getTaskById taskId file with
  | None => ({| success := false; message := "找不到指定任務"; task := None |}, file)
  | Some found =>
      if strictEqString (found !! "status") (statusString COMPLETED)
      then ({| success := false; message := "無法更新已完成的任務"; task := None |},
            file)
      else
        match updateTask now taskId {["relatedFiles" := JArray relatedFiles]} file with
        | (None, file') =>
            ({| success := false; message := "更新任務相關文件時發生錯誤";
                task := None |}, file')
        | (Some updatedTask, file') =>
            ({| success := true;
                message := "已成功更新任務相關文件，共 "
                           +:+ Js.showZ (Js.arrlen relatedFiles) +:+ " 個文件";
                task := Some updatedTask |}, file')
        end
  end.

Definition deleteTask (taskId : string) (file : Store) : Outcome Result * Store :=
  let tasks := readTasks now file in
  match findIndex (fun task => strictEqString (task !! "id") taskId) tasks with
  | None =>
      (Returned {| success := false; message := "找不到指定任務"; task := None |},
       file)
  | Some taskIndex =>
      match tasks !! taskIndex with
      | None =>
          (Returned {| success := false; message := "找不到指定任務"; task := None |},
           file)
      | Some stored =>
          if strictEqString (stored !! "status") (statusString COMPLETED)
          then (Returned {| success := false; message := "無法刪除已完成的任務";
                            task := None |}, file)
          else
            let allTasks := delete taskIndex tasks in
            match dependentsOf allTasks taskId with
            | Threw e => (Threw e, file)
            | Returned dependentTasks =>
                if 0 <? Js.arrlen dependentTasks
                then
                  let dependentTaskNames :=
                    join ", "
                      ((fun task =>
                          AntiObfuscation.dq +:+ show (task !! "name")
                          +:+ AntiObfuscation.dq +:+ " (ID: "
                          +:+ show (task !! "id") +:+ ")")
                         <$> dependentTasks) in
                  (Returned {| success := false;
                               message := "無法刪除此任務，因為以下任務依賴於它: "
                                          +:+ dependentTaskNames;
                               task := None |}, file)
                else
                  (Returned {| success := true; message := "任務刪除成功";
                               task := None |},
                   writeTasks (delete taskIndex tasks))
            end
      end
  end.

End Clock.

End TaskStore.

(** ** [src/models/taskModel.ts]: the queries on the stored tasks *)

Module TaskQueries.

(** [a === b] on the two enumerations. *)
Definition statusEqb (a b : TaskStatus) : bool :=
  match a, b with
  | PENDING, PENDING | IN_PROGRESS, IN_PROGRESS
  | COMPLETED, COMPLETED | BLOCKED, BLOCKED => true
  | _, _ => false
  end.

Definition levelEqb (a b : TaskComplexityLevel) : bool :=
  match a, b with
  | LOW, LOW | MEDIUM, MEDIUM | HIGH, HIGH | VERY_HIGH, VERY_HIGH => true
  | _, _ => false
  end.

Record ExecutionCheck := {
  canExecute : bool;
  blockedBy : option (list string)
}.

Record TaskComplexityAssessment := {
  level : TaskComplexityLevel;
  metrics : ComplexityMetrics;
  recommendations : list string
}.

Section Stored.

(** The tasks that [readTasks] returns during the call, typed as [Task[]]. *)
Variable tasks : list Task.

(** [tasks.find(task => task.id === taskId) || null] *)
Definition getTaskById (taskId : string) : option Task :=
  List.find (fun task => String.eqb (id task) taskId) tasks.

(** One round of the loop over the dependencies. *)
Definition blockStep (allTasks : list Task) (blockedBy : list string)
    (dependency : TaskDependency) : list string :=
  let dependencyTask :=
    List.find (fun t => String.eqb (id t) (taskId dependency)) allTasks in
  match dependencyTask with
  | None => (blockedBy ++ [taskId dependency])%list
  | Some dependencyTask =>
      if negb (statusEqb (status dependencyTask) COMPLETED)
      then (blockedBy ++ [taskId dependency])%list
      else blockedBy
  end.

Definition canExecuteTask (taskId : string) : ExecutionCheck :=
  match getTaskById taskId with
  | None => {| canExecute := false; blockedBy := None |}
  | Some task =>
      if statusEqb (status task) COMPLETED
      then {| canExecute := false; blockedBy := None |}
      else if Js.arrlen (dependencies task) =? 0
      then {| canExecute := true; blockedBy := None |}
      else
        let allTasks := tasks in
        let blockedBy := fold_left (blockStep allTasks) (dependencies task) [] in
        {| canExecute := (Js.arrlen blockedBy =? 0);
           blockedBy := if 0 <? Js.arrlen blockedBy then Some blockedBy else None |}
  end.

Definition assessTaskComplexity (taskId : string)
  : option TaskComplexityAssessment :=
  match getTaskById taskId with
  | None => None
  | Some task =>
      let descriptionLength := Js.strlen (description task) in
      let dependenciesCount := Js.arrlen (dependencies task) in
      let notesLength :=
        match notes task with
        | Some n => if Js.truthy (Some n) then Js.strlen n else 0
        | None => 0
        end in
      let hasNotes := Js.truthy (notes task) in
      let level := LOW in
      let level :=
        if TaskComplexityThresholds.DESCRIPTION_LENGTH.VERY_HIGH <=? descriptionLength
        then VERY_HIGH
        else if TaskComplexityThresholds.DESCRIPTION_LENGTH.HIGH <=? descriptionLength
        then HIGH
        else if TaskComplexityThresholds.DESCRIPTION_LENGTH.MEDIUM <=? descriptionLength
        then MEDIUM
        else level in
      let level :=
        if TaskComplexityThresholds.DEPENDENCIES_COUNT.VERY_HIGH <=? dependenciesCount
        then VERY_HIGH
        else if (TaskComplexityThresholds.DEPENDENCIES_COUNT.HIGH <=? dependenciesCount)
                && negb (levelEqb level VERY_HIGH)
        then HIGH
        else if (TaskComplexityThresholds.DEPENDENCIES_COUNT.MEDIUM <=? dependenciesCount)
                && negb (levelEqb level HIGH)
                && negb (levelEqb level VERY_HIGH)
        then MEDIUM
        else level in
      let level :=
        if TaskComplexityThresholds.NOTES_LENGTH.VERY_HIGH <=? notesLength
        then VERY_HIGH
        else if (TaskComplexityThresholds.NOTES_LENGTH.HIGH <=? notesLength)
                && negb (levelEqb level VERY_HIGH)
        then HIGH
        else if (TaskComplexityThresholds.NOTES_LENGTH.MEDIUM <=? notesLength)
                && negb (levelEqb level HIGH)
                && negb (levelEqb level VERY_HIGH)
        then MEDIUM
        else level in
      let recommendations : list string :=
        match level with
        | LOW =>
            ["此任務複雜度較低，可直接執行";
             "建議設定清晰的完成標準，確保驗收有明確依據"]
        | MEDIUM =>
            (["此任務具有一定複雜性，建議詳細規劃執行步驟";
              "可分階段執行並定期檢查進度，確保理解準確且實施完整"]
             ++ (if 0 <? dependenciesCount
                 then ["注意檢查所有依賴任務的完成狀態和輸出質量"] else []))%list
        | HIGH =>
            (["此任務複雜度較高，建議先進行充分的分析和規劃";
              "考慮將任務拆分為較小的、可獨立執行的子任務";
              "建立清晰的里程碑和檢查點，便於追蹤進度和品質"]
             ++ (if TaskComplexityThresholds.DEPENDENCIES_COUNT.MEDIUM <? dependenciesCount
                 then ["依賴任務較多，建議製作依賴關係圖，確保執行順序正確"]
                 else []))%list
        | VERY_HIGH =>
            (["⚠️ 此任務複雜度極高，強烈建議拆分為多個獨立任務";
              "在執行前進行詳盡的分析和規劃，明確定義各子任務的範圍和介面";
              "對任務進行風險評估，識別可能的阻礙因素並制定應對策略";
              "建立具體的測試和驗證標準，確保每個子任務的輸出質量"]
             ++ (if TaskComplexityThresholds.DESCRIPTION_LENGTH.VERY_HIGH
                    <=? descriptionLength
                 then ["任務描述非常長，建議整理關鍵點並建立結構化的執行清單"]
                 else [])
             ++ (if TaskComplexityThresholds.DEPENDENCIES_COUNT.HIGH <=? dependenciesCount
                 then ["依賴任務數量過多，建議重新評估任務邊界，確保任務切分合理"]
                 else []))%list
        end in
      Some {| level := level;
              metrics := {| descriptionLength := descriptionLength;
                            dependenciesCount := dependenciesCount;
                            notesLength := notesLength;
                            hasNotes := hasNotes |};
              recommendations := recommendations |}
  end.

End Stored.

End TaskQueries.

(** ** [src/tools/mcpIntegration.ts]: routing, retries and response times *)

Module McpIntegration.

Record RetryConfiguration := {
  maxRetries : Z;
  baseDelay : Q;
  backoffMultiplier : Q;
  maxDelay : Q
}.

Definition DEFAULT_RETRY_CONFIG : RetryConfiguration := {|
  maxRetries := 3;
  baseDelay := 1000;
  backoffMultiplier := 2;
  maxDelay := 10000
|}.

(** The fields of an [MCPOperation] that the routing reads. *)
Record MCPOperation := {
  type : string;
  operation : string;
  parameters : gmap string TaskModel.JsValue
}.

Inductive Priority := PRIORITY_LOW | PRIORITY_MEDIUM | PRIORITY_HIGH.

Inductive Complexity := COMPLEXITY_HIGH | COMPLEXITY_VERY_HIGH.

(** The call that [routeOperation] makes, with the operation it has built
    for it. *)
Inductive RoutedCall :=
| callSupabaseMCP (type : string) (parameters : gmap string TaskModel.JsValue)
    (priority : Priority)
| callGraphitiMCP (type : string) (parameters : gmap string TaskModel.JsValue)
    (complexity : Complexity) (requiresEpisodicMemory temporalContext : bool)
| executeHybridOperation (query : TaskModel.JsValue).

(** [a || b] on a property that may be missing. *)
Definition orElse (value : option TaskModel.JsValue) (fallback : TaskModel.JsValue)
  : TaskModel.JsValue :=
  if TaskModel.jsTruthy value then default fallback value else fallback.

Definition routeOperation (assessment : CognitiveRoutingAssessment)
    (operation : MCPOperation) : RoutedCall :=
  match mcpServerTarget assessment with
  | supabase =>
      let supabaseParams :=
        parameters operation
        ∪ {["table_name" :=
              orElse (parameters operation !! "table_name")
                     (TaskModel.JString "tasks")]} in
      callSupabaseMCP (McpIntegration.operation operation) supabaseParams
        (if complexityScore assessment <? 15 then PRIORITY_HIGH else PRIORITY_MEDIUM)
  | graphiti =>
      callGraphitiMCP (McpIntegration.operation operation) (parameters operation)
        (if 75 <? complexityScore assessment
         then COMPLEXITY_VERY_HIGH else COMPLEXITY_HIGH)
        (episodicMemoryRequired assessment)
        (temporalContextRequired assessment)
  | hybrid =>
      executeHybridOperation
        (orElse (parameters operation !! "query") (TaskModel.JString "task analysis"))
  end.

Section Retry.

Context {T : Type}.

Variable retryConfig : RetryConfiguration.

(** The outcome of the call of [operation()] made at each attempt; [Threw e]
    stands for an [Error] whose message is [e]. *)
Variable operation : nat -> Outcome T.

(** The delay slept after a failed attempt (exponential backoff). *)
Definition delayAfter (attempt : nat) : Q :=
  Qmin (baseDelay retryConfig
        * Qpower (backoffMultiplier retryConfig) (Z.of_nat attempt))
       (maxDelay retryConfig).

(** The [for] loop from [attempt] on, with [remaining] rounds to go;
    [delays] collects the delays slept so far. *)
Fixpoint retryLoop (remaining attempt : nat) (lastError : string)
    (delays : list Q) : Outcome T * list Q :=
  match remaining with
  | O => (Threw lastError, delays)
  | S remaining =>
      match operation attempt with
      | Returned result => (Returned result, delays)
      | Threw error =>
          let lastError := error in
          if Z.of_nat attempt =? maxRetries retryConfig
          then (Threw lastError, delays)
          else retryLoop remaining (S attempt) lastError
                         (delays ++ [delayAfter attempt])%list
      end
  end.

Definition executeWithRetry : Outcome T * list Q :=
  retryLoop (Z.to_nat (maxRetries retryConfig + 1)) 0 "undefined" [].

End Retry.

(** [recordPerformanceMetric] on the map of response times. *)
Definition recordPerformanceMetric (operation : string) (responseTime : Q)
    (performanceMetrics : gmap string (list Q)) : gmap string (list Q) :=
  let performanceMetrics :=
    if bool_decide (is_Some (performanceMetrics !! operation))
    then performanceMetrics
    else <[operation := []]> performanceMetrics in
  let metrics := default [] (performanceMetrics !! operation) in
  let metrics := (metrics ++ [responseTime])%list in
  let metrics := if 100 <? Js.arrlen metrics then List.tl metrics else metrics in
  <[operation := metrics]> performanceMetrics.

End McpIntegration.

(** ** The verify-task tool: how the scorer's configuration is built *)

Module VerifyTask.

(** The [antiObfuscationConfig] that [calculateDebateScore] hands to
    [performAntiObfuscationValidation]. *)
Definition antiObfuscationConfigOf (config : DebateProtocol.DebateProtocolConfig)
  : AntiObfuscation.AntiObfuscationConfig :=
  {| AntiObfuscation.evidenceThreshold :=
       DebateProtocol.evidenceThreshold (DebateProtocol.antiObfuscation config);
     AntiObfuscation.manipulationDetectionSensitivity :=
       DebateProtocol.manipulationSensitivity (DebateProtocol.antiObfuscation config);
     AntiObfuscation.maxScoreDifference := 25;
     AntiObfuscation.suspiciousPatternKeywords :=
       DebateProtocol.suspiciousPatternKeywords (DebateProtocol.antiObfuscation config);
     AntiObfuscation.truthfulnessWeights :=
       DebateProtocol.truthfulnessWeights (DebateProtocol.antiObfuscation config) |}.

End VerifyTask.

(** ** The verify-task tool: scoring *)

Module VerifyTool.

Inductive DebateIntensity := LIGHT | MODERATE | RIGOROUS.

Definition intensityName (i : DebateIntensity) : string :=
  match i with
  | LIGHT => "LIGHT"
  | MODERATE => "MODERATE"
  | RIGOROUS => "RIGOROUS"
  end.

(** The [debateParams] of the tool's schema; the keys the schema marks
    optional are primed. *)
Record DebateParams := {
  enableDebateProtocol : bool;
  debateIntensity : option DebateIntensity;
  antiObfuscationEnabled : bool;
  proverScore' : option Q;
  estimatorScore' : option Q;
  consensusPoints' : option (list string);
  conflicts' : option (list string);
  resolutionJustification' : option string
}.

Record DebateScoreBreakdown := {
  proverScore : Q;
  estimatorScore : Q;
  consensusPoints : list string;
  conflicts : list string;
  resolutionJustification : string;
  honestEquilibriumScore : Q
}.

Record DebateResult := {
  finalScore : Z;
  debateBreakdown : option DebateScoreBreakdown;
  antiObfuscationResult : option AntiObfuscationResult
}.

Inductive Confidence := CONFIDENCE_LOW | CONFIDENCE_MEDIUM | CONFIDENCE_HIGH.

(** [a === b] on risk levels. *)
Definition riskEqb (a b : ManipulationRisk) : bool :=
  match a, b with
  | RISK_LOW, RISK_LOW | RISK_MEDIUM, RISK_MEDIUM | RISK_HIGH, RISK_HIGH => true
  | _, _ => false
  end.

Definition applyAntiObfuscationAdjustment (score : Q)
    (antiObfuscationResult : AntiObfuscationResult) : Z :=
  let adjustedScore :=
    match manipulationRisk antiObfuscationResult with
    | RISK_HIGH => Qmin (score * (7 # 10)) (score - 15)
    | RISK_MEDIUM => Qmin (score * (85 # 100)) (score - 8)
    | RISK_LOW => Qmin 100 (score + 2)
    end in
  let evidenceBonus :=
    Qmax (-10)
         (Qmin 5 ((inject_Z (evidenceConsistency antiObfuscationResult) - 70) / 6)) in
  let adjustedScore := (adjustedScore + evidenceBonus)%Q in
  Z.max 0 (Z.min 100 (Js.mathRound adjustedScore)).

(** [config.intensitySettings[intensityKey]] *)
Definition profileAt (settings : DebateProtocol.IntensitySettings) (key : string)
  : option DebateProtocol.DebateIntensityConfig :=
  if String.eqb key "light" then Some (DebateProtocol.light settings)
  else if String.eqb key "moderate" then Some (DebateProtocol.moderate settings)
  else if String.eqb key "rigorous" then Some (DebateProtocol.rigorous settings)
  else None.

(** [calculateDebateScore], [config] being what [debateConfig.getConfig()]
    returns at the call. *)
Definition calculateDebateScore (config : DebateProtocol.DebateProtocolConfig)
    (task : Task) (summary : string) (baseScore : Q)
    (debateParams : option DebateParams) : Outcome DebateResult :=
  let antiObfuscationConfig := VerifyTask.antiObfuscationConfigOf config in
  let antiObfuscationResult :=
    AntiObfuscation.performAntiObfuscationValidation
      task summary baseScore antiObfuscationConfig in
  let withoutDebate :=
    Returned {| finalScore :=
                  applyAntiObfuscationAdjustment baseScore antiObfuscationResult;
                debateBreakdown := None;
                antiObfuscationResult := Some antiObfuscationResult |} in
  match debateParams with
  | None => withoutDebate
  | Some debateParams =>
      if negb (enableDebateProtocol debateParams) then withoutDebate
      else
        match proverScore' debateParams, estimatorScore' debateParams with
        | Some proverScore, Some estimatorScore =>
            let consensusPoints := default [] (consensusPoints' debateParams) in
            let conflicts := default [] (conflicts' debateParams) in
            let resolutionJustification :=
              default EmptyString (resolutionJustification' debateParams) in
            let lowered :=
              option_map (fun i => Js.toLowerCase (intensityName i))
                         (debateIntensity debateParams) in
            let intensityKey :=
              if Js.truthy lowered then default EmptyString lowered
              else "moderate" in
            match profileAt (DebateProtocol.intensitySettings config) intensityKey with
            | None =>
                Threw "TypeError: Cannot read properties of undefined (reading 'weights')"
            | Some intensityConfig =>
                let weights := DebateProtocol.weights intensityConfig in
                let incentives := DebateProtocol.incentives intensityConfig in
                let scoreDiff := Qabs (proverScore - estimatorScore) in
                match incentives with
                | None =>
                    Threw "TypeError: Cannot read properties of undefined (reading 'consensusBonus')"
                | Some incentives =>
                    let consensusBonus :=
                      (inject_Z (Js.arrlen consensusPoints)
                       * DebateProtocol.consensusBonus incentives)%Q in
                    let conflictPenalty :=
                      (inject_Z (Js.arrlen conflicts)
                       * DebateProtocol.conflictPenalty incentives)%Q in
                    let discrepancyPenalty :=
                      if DebateProtocol.Qgtb scoreDiff
                           (DebateProtocol.maxScoreDiscrepancy incentives)
                      then DebateProtocol.scoreDiscrepancyPenalty incentives
                      else 0%Q in
                    match weights with
                    | None =>
                        Threw "TypeError: Cannot read properties of undefined (reading 'prover')"
                    | Some weights =>
                        let honestEquilibriumScore :=
                          Qmax 0 (Qmin 100
                            ((proverScore * DebateProtocol.prover weights
                              + estimatorScore * DebateProtocol.estimator weights
                              + baseScore * DebateProtocol.synthesis weights)
                             + consensusBonus - conflictPenalty
                             - discrepancyPenalty))%Q in
                        let honestEquilibriumScore :=
                          if antiObfuscationEnabled debateParams
                          then inject_Z (applyAntiObfuscationAdjustment
                                           honestEquilibriumScore antiObfuscationResult)
                          else honestEquilibriumScore in
                        Returned
                          {| finalScore := Js.mathRound honestEquilibriumScore;
                             debateBreakdown :=
                               Some {| proverScore := proverScore;
                                       estimatorScore := estimatorScore;
                                       consensusPoints := consensusPoints;
                                       conflicts := conflicts;
                                       resolutionJustification := resolutionJustification;
                                       honestEquilibriumScore := honestEquilibriumScore |};
                             antiObfuscationResult := Some antiObfuscationResult |}
                    end
                end
            end
        | _, _ => withoutDebate
        end
  end.

Definition calculateCompletionConfidence (finalScore : Z)
    (debateResult : DebateResult) : Confidence :=
  let confidenceScore := finalScore in
  let confidenceScore :=
    match debateBreakdown debateResult with
    | Some breakdown =>
        let scoreDifference :=
          Qabs (proverScore breakdown - estimatorScore breakdown) in
        if AntiObfuscation.Qltb scoreDifference 15
           && (Js.arrlen (conflicts breakdown) <? Js.arrlen (consensusPoints breakdown))
        then confidenceScore + 5
        else if DebateProtocol.Qgtb scoreDifference 30
                || (Js.arrlen (consensusPoints breakdown)
                    <? Js.arrlen (conflicts breakdown))
        then confidenceScore - 10
        else confidenceScore
    | None => confidenceScore
    end in
  let confidenceScore :=
    match antiObfuscationResult debateResult with
    | Some result =>
        if riskEqb (manipulationRisk result) RISK_LOW
           && (80 <? evidenceConsistency result)
        then confidenceScore + 3
        else if riskEqb (manipulationRisk result) RISK_HIGH
                || (evidenceConsistency result <? 50)
        then confidenceScore - 15
        else confidenceScore
    | None => confidenceScore
    end in
  if 90 <=? confidenceScore then CONFIDENCE_HIGH
  else if 75 <=? confidenceScore then CONFIDENCE_MEDIUM
  else CONFIDENCE_LOW.

End VerifyTool.

(** ** Helpers for statements about the verify-task tool *)

(** The profile that [calculateDebateScore] reads for an intensity. *)
Definition selectedProfile (config : DebateProtocol.DebateProtocolConfig)
    (intensity : option VerifyTool.DebateIntensity)
  : DebateProtocol.DebateIntensityConfig :=
  match intensity with
  | Some VerifyTool.LIGHT => DebateProtocol.light (DebateProtocol.intensitySettings config)
  | Some VerifyTool.RIGOROUS =>
      DebateProtocol.rigorous (DebateProtocol.intensitySettings config)
  | Some VerifyTool.MODERATE | None =>
      DebateProtocol.moderate (DebateProtocol.intensitySettings config)
  end.

(** The intensity named by the parameters, if any. *)
Definition requestedIntensity (params : option VerifyTool.DebateParams)
  : option VerifyTool.DebateIntensity :=
  match params with
  | Some p => VerifyTool.debateIntensity p
  | None => None
  end.

(** Parameters that request a debate between a prover at 90 and an estimator
    at 85 under the light profile. *)
Definition lightDebate : VerifyTool.DebateParams := {|
  VerifyTool.enableDebateProtocol := true;
  VerifyTool.debateIntensity := Some VerifyTool.LIGHT;
  VerifyTool.antiObfuscationEnabled := true;
  VerifyTool.proverScore' := Some 90%Q;
  VerifyTool.estimatorScore' := Some 85%Q;
  VerifyTool.consensusPoints' := None;
  VerifyTool.conflicts' := None;
  VerifyTool.resolutionJustification' := None
|}.

(** The debate protocol is enabled and both scores are supplied. *)
Definition debateRequested (params : option VerifyTool.DebateParams) : bool :=
  match params with
  | Some p =>
      VerifyTool.enableDebateProtocol p
      && bool_decide (is_Some (VerifyTool.proverScore' p))
      && bool_decide (is_Some (VerifyTool.estimatorScore' p))
  | None => false
  end.


(** ** Reference definitions, worded as the specification words them *)

Module Reference.


(** Section 4.5, core arithmetic: a bonus for the excess of evidence over the
    threshold capped at 5, or a penalty for the deficit capped at 15; then
    min(20, 4 x count) off when there are issues, 2 on otherwise; clamped to
    [0,100]. *)
Definition honestAdjustment (threshold baseScore evidenceScore : Q)
    (count : Z) : Q :=
  let afterEvidence :=
    if Qle_bool threshold evidenceScore
    then (baseScore + Qmin 5 ((evidenceScore - threshold) / 6))%Q
    else (baseScore - Qmin 15 ((threshold - evidenceScore) / 3))%Q in
  let afterPatterns :=
    if 0 <? count
    then (afterEvidence - inject_Z (Z.min 20 (4 * count)))%Q
    else (afterEvidence + 2)%Q in
  Qmax 0 (Qmin 100 afterPatterns).


(** Section 4.3: the words of a text are its maximal runs of letters, digits
    and underscores. *)
Fixpoint words (text : string) : list string :=
  match text with
  | EmptyString => []
  | String c rest =>
      if Js.isWordChar c then
        match rest with
        | String d _ =>
            if Js.isWordChar d then
              match words rest with
              | w :: ws => String c w :: ws
              | [] => [String c EmptyString]
              end
            else String c EmptyString :: words rest
        | EmptyString => [String c EmptyString]
        end
      else words rest
  end.

(** The words of [text] when the characters before it have left the word
    [cur] unfinished. *)
Definition wordsAfter (cur text : string) : list string :=
  match text with
  | String d _ =>
      if Js.isWordChar d then
        match words text with
        | w :: ws => (cur +:+ w) :: ws
        | [] => [cur]
        end
      else if String.eqb cur EmptyString then words text else cur :: words text
  | EmptyString => if String.eqb cur EmptyString then [] else [cur]
  end.

(** The tokens of a text: the words of its lowercase form. *)
Definition tokens (text : string) : list string := words (Js.toLowerCase text).

(** The keyword set of a text: tokens of length at most 2 and stopwords are
    dropped. *)
Definition keywordSet (text : string) : gset string :=
  list_to_set
    (List.filter
       (fun token => negb (Js.strlen token <=? 2)
                     && negb (AntiObfuscation.isCommonWord token))
       (tokens text)).

(** The fraction of the required keywords that the summary holds; 0 when
    nothing is required. *)
Definition coverage (required present : gset string) : Q :=
  if decide (size required = 0%nat) then 0%Q
  else (inject_Z (Z.of_nat (size (required ∩ present)))
        / inject_Z (Z.of_nat (size required)))%Q.

(** When an optional field counts as given: whenever it is there, or only when
    it also holds some text. *)
Definition fieldPresent (field : option string) : bool :=
  match field with
  | Some _ => true
  | None => false
  end.

Definition fieldNonEmpty (field : option string) : bool :=
  match field with
  | Some text => negb (String.eqb text EmptyString)
  | None => false
  end.

(** One coverage check: [penalty] points off when the field is given and
    fewer than [threshold] of its keywords are in the summary. *)
Definition fieldPenalty (given : option string -> bool) (field : option string)
    (summaryKeywords : gset string) (threshold : Q) (penalty : Z) : Z :=
  match field with
  | Some text =>
      if given field && AntiObfuscation.Qltb (coverage (keywordSet text) summaryKeywords) threshold
      then penalty else 0
  | None => 0
  end.

(** Section 4.3: start at 100, apply the three checks (description at 0.3
    for 20, verification criteria at 0.4 for 15, implementation guide at 0.3
    for 10), never go below 0. *)
Definition evidenceScore (given : option string -> bool) (task : Task)
    (summary : string) : Z :=
  let summaryKeywords := keywordSet summary in
  Z.max 0
    (100
     - fieldPenalty fieldPresent (Some (description task)) summaryKeywords (3 # 10) 20
     - fieldPenalty given (verificationCriteria task) summaryKeywords (4 # 10) 15
     - fieldPenalty given (implementationGuide task) summaryKeywords (3 # 10) 10).

(** The description check records its issue exactly when its penalty
    applies. *)
Definition descriptionIssueRecorded (task : Task) (summary : string) : bool :=
  AntiObfuscation.Qltb
    (coverage (keywordSet (description task)) (keywordSet summary)) (3 # 10).

(** Section 8, monotonicity: a summary with one more suspicious keyword. *)
Definition addKeyword (summary keyword : string) : string :=
  summary +:+ " " +:+ keyword.

End Reference.

(** ** Inputs of the scenarios *)

(** The complex task of [test_cognitive_routing.js], its description reworded
    to hold the word "architecture" at the same length of 343. *)
Definition scenarioB : Task := {|
  id := "test-2";
  name := "Complex System Integration Task";
  description :=
    "This is a very complex task that involves multiple systems, requires extensive analysis, temporal knowledge management, and sophisticated coordination between different architecture components. It includes multiple dependencies, requires episodic memory storage, and involves complex reasoning patterns that exceed simpler database operations.";
  notes := Some "Additional notes about temporal context and knowledge management requirements";
  status := PENDING;
  dependencies := [];
  createdAt := 0;
  updatedAt := 0;
  summary := None;
  analysisResult := None;
  implementationGuide := None;
  verificationCriteria := None
|}.


(** An update that supplies only the weights of one profile. *)
Definition onlyLightWeights (w : DebateProtocol.Weights) : DebateProtocol.ConfigUpdate := {|
  DebateProtocol.intensitySettings' := Some {|
    DebateProtocol.light' := Some {|
      DebateProtocol.weights := Some w;
      DebateProtocol.incentives := None;
      DebateProtocol.processing := None |};
    DebateProtocol.moderate' := None;
    DebateProtocol.rigorous' := None |};
  DebateProtocol.antiObfuscation' := None;
  DebateProtocol.performance' := None;
  DebateProtocol.scoring' := None
|}.

(** A number printer for the examples: the integer part only. *)
Definition showFloor (x : Q) : string := Js.showZ (Qfloor x).

(** A file with one completed task. *)
Definition completedExample : gmap string TaskModel.JsValue :=
  <["id" := TaskModel.JString "t1"]>
  (<["name" := TaskModel.JString "Write the report"]>
  (<["status" := TaskModel.JString "completed"]>
  (<["createdAt" := TaskModel.JDate 10]>
  (<["updatedAt" := TaskModel.JDate 20]>
  (<["completedAt" := TaskModel.JDate 20]> ∅))))).

Definition summaryUpdate : gmap string TaskModel.JsValue :=
  {["summary" := TaskModel.JString "Report written and reviewed"]}.

Definition renameUpdate : gmap string TaskModel.JsValue :=
  <["name" := TaskModel.JString "Another name"]> summaryUpdate.

(** A task in progress, as stored. *)
Definition inProgressExample : gmap string TaskModel.JsValue :=
  <["id" := TaskModel.JString "t2"]>
  (<["name" := TaskModel.JString "Review the report"]>
  (<["status" := TaskModel.JString "in_progress"]>
  (<["dependencies" :=
       TaskModel.JArray
         [TaskModel.JObject [("taskId", TaskModel.JString "t1")]]]>
  (<["createdAt" := TaskModel.JDate 10]>
  (<["updatedAt" := TaskModel.JDate 20]> ∅))))).

(** A pending task without dependencies, as stored. *)
Definition pendingExample : gmap string TaskModel.JsValue :=
  <["id" := TaskModel.JString "t3"]>
  (<["name" := TaskModel.JString "Publish the report"]>
  (<["status" := TaskModel.JString "pending"]>
  (<["dependencies" := TaskModel.JArray []]>
  (<["createdAt" := TaskModel.JDate 10]>
  (<["updatedAt" := TaskModel.JDate 20]> ∅))))).

(** A task whose verification criteria are the empty string. *)
Definition emptyCriteriaTask : Task := {|
  id := "t-empty-criteria";
  name := "Authentication";
  description := "Implement user authentication system";
  notes := None;
  status := IN_PROGRESS;
  dependencies := [];
  createdAt := 0;
  updatedAt := 0;
  summary := None;
  analysisResult := None;
  implementationGuide := None;
  verificationCriteria := Some EmptyString
|}.

Definition emptyCriteriaSummary : string :=
  "Implemented the user authentication system".

(** A task whose three texts all speak of incomplete uploads. *)
Definition uploadsTask : Task := {|
  id := "t-uploads";
  name := "Uploads";
  description := "Handle incomplete uploads";
  notes := None;
  status := IN_PROGRESS;
  dependencies := [];
  createdAt := 0;
  updatedAt := 0;
  summary := None;
  analysisResult := None;
  implementationGuide := Some "Detect incomplete uploads";
  verificationCriteria := Some "Incomplete uploads"
|}.

Definition uploadsSummary : string := "Everything was done".

(** A summary that says the same sentence four times. *)
Definition repeatedSummary : string :=
  "mock data is used here! mock data is used here! mock data is used here! mock data is used here".

(** ** Helpers for statements about the configuration loader *)



(** An update that raises the completion threshold to 90. *)
Definition raiseThreshold : DebateProtocol.ConfigUpdate := {|
  DebateProtocol.intensitySettings' := None;
  DebateProtocol.antiObfuscation' := None;
  DebateProtocol.performance' := None;
  DebateProtocol.scoring' := Some {|
    DebateProtocol.completionThreshold' := Some 90%Q;
    DebateProtocol.confidenceThresholds' := None;
    DebateProtocol.scoringPrecision' := None |}
|}.

(** ** Helpers for statements about the cognitive router *)

(** A task with text appended to its description and to its notes, and with
    further dependencies. *)
Definition extendTask (task : Task) (moreDescription moreNotes : string)
    (moreDependencies : list TaskDependency) : Task :=
  {| id := id task;
     name := name task;
     description := description task +:+ moreDescription;
     notes := match notes task with
              | Some n => Some (n +:+ moreNotes)
              | None => Some moreNotes
              end;
     status := status task;
     dependencies := (dependencies task ++ moreDependencies)%list;
     createdAt := createdAt task;
     updatedAt := updatedAt task;
     summary := summary task;
     analysisResult := analysisResult task;
     implementationGuide := implementationGuide task;
     verificationCriteria := verificationCriteria task |}.

(** ** Helpers for statements about the task store *)

(** A stored value that is a date. *)
Definition storedDate (v : option TaskModel.JsValue) : Prop :=
  exists ms, v = Some (TaskModel.JDate ms).

(** A task as [writeTasks] leaves it: no key holds [undefined], the two
    dates of creation and update are there, and the date of completion is
    there or the key is missing. *)
Definition wellStored (task : gmap string TaskModel.JsValue) : Prop :=
  (forall key, task !! key <> Some TaskModel.JUndefined)
  /\ storedDate (task !! "createdAt")
  /\ storedDate (task !! "updatedAt")
  /\ (task !! "completedAt" = None \/ storedDate (task !! "completedAt")).

(** The fields that [updateTaskContent] can set. *)
Definition contentFields : list string :=
  ["name"; "description"; "notes"; "relatedFiles"; "dependencies";
   "implementationGuide"; "verificationCriteria"].

(** An update of content that supplies nothing. *)
Definition noContent (updates : TaskStore.ContentUpdates) : Prop :=
  TaskStore.name' updates = None
  /\ TaskStore.description' updates = None
  /\ TaskStore.notes' updates = None
  /\ TaskStore.relatedFiles' updates = None
  /\ TaskStore.dependencies' updates = None
  /\ TaskStore.implementationGuide' updates = None
  /\ TaskStore.verificationCriteria' updates = None.

(** The object that [updateTaskContent] builds from its updates. *)
Definition updateObjOf (updates : TaskStore.ContentUpdates)
  : gmap string TaskModel.JsValue :=
  TaskStore.assign "verificationCriteria"
    (TaskModel.JString <$> TaskStore.verificationCriteria' updates)
    (TaskStore.assign "implementationGuide"
       (TaskModel.JString <$> TaskStore.implementationGuide' updates)
       (TaskStore.assign "dependencies"
          ((fun deps =>
              TaskModel.JArray
                ((fun dep => TaskModel.JObject [("taskId", TaskModel.JString dep)])
                   <$> deps))
             <$> TaskStore.dependencies' updates)
          (TaskStore.assign "relatedFiles"
             (TaskModel.JArray <$> TaskStore.relatedFiles' updates)
             (TaskStore.assign "notes"
                (TaskModel.JString <$> TaskStore.notes' updates)
                (TaskStore.assign "description"
                   (TaskModel.JString <$> TaskStore.description' updates)
                   (TaskStore.assign "name"
                      (TaskModel.JString <$> TaskStore.name' updates) ∅)))))).

(** An update of content that renames the task. *)
Definition renameTo (newName : string) : TaskStore.ContentUpdates := {|
  TaskStore.name' := Some newName;
  TaskStore.description' := None;
  TaskStore.notes' := None;
  TaskStore.relatedFiles' := None;
  TaskStore.dependencies' := None;
  TaskStore.implementationGuide' := None;
  TaskStore.verificationCriteria' := None
|}.

(** ** Helpers for statements about the complexity of a task *)

(** The levels in ascending order. *)
Definition levelRank (l : TaskComplexityLevel) : Z :=
  match l with
  | LOW => 0
  | MEDIUM => 1
  | HIGH => 2
  | VERY_HIGH => 3
  end.

(** The level that one metric asks for, given its three thresholds. *)
Definition levelFor (medium high veryHigh value : Z) : TaskComplexityLevel :=
  if veryHigh <=? value then VERY_HIGH
  else if high <=? value then HIGH
  else if medium <=? value then MEDIUM
  else LOW.

(** A dependency that blocks: its task is missing or not completed. *)
Definition unmet (tasks : list Task) (dependency : TaskDependency) : bool :=
  match TaskQueries.getTaskById tasks (taskId dependency) with
  | Some dependencyTask =>
      negb (TaskQueries.statusEqb (status dependencyTask) COMPLETED)
  | None => true
  end.

(** A file of three typed tasks: the second depends on the first, which is
    completed, the third on itself. *)
Definition typedTask (taskId : string) (taskStatus : TaskStatus)
    (dependsOn : list string) : Task := {|
  id := taskId;
  name := "Task " +:+ taskId;
  description := "Describe " +:+ taskId;
  notes := None;
  status := taskStatus;
  dependencies := List.map (fun d => {| taskId := d |}) dependsOn;
  createdAt := 0;
  updatedAt := 0;
  summary := None;
  analysisResult := None;
  implementationGuide := None;
  verificationCriteria := None
|}.

Definition typedFile : list Task :=
  [typedTask "a" COMPLETED []; typedTask "b" PENDING ["a"];
   typedTask "c" PENDING ["c"]].

(** ** Helpers for statements about the MCP integration layer *)

(** The last [n] elements of a list. *)
Definition lastN {A} (n : nat) (l : list A) : list A :=
  skipn (List.length l - n) l.

(** The response times recorded for one operation, in order. *)
Definition timesOf (operation : string) (events : list (string * Q)) : list Q :=
  List.map snd (List.filter (fun event => String.eqb (fst event) operation) events).

(** The window kept for an operation: its last 100 response times, if any. *)
Definition windowOf (operation : string) (events : list (string * Q))
  : option (list Q) :=
  match timesOf operation events with
  | [] => None
  | times => Some (lastN 100 times)
  end.

(** The map after recording a sequence of response times. *)
Definition recordAll (events : list (string * Q))
    (performanceMetrics : gmap string (list Q)) : gmap string (list Q) :=
  fold_left
    (fun metrics event =>
       McpIntegration.recordPerformanceMetric (fst event) (snd event) metrics)
    events performanceMetrics.

(** An operation that fails twice and then answers. *)
Definition failsTwice (attempt : nat) : Outcome string :=
  match attempt with
  | O => Threw "timeout"
  | S O => Threw "busy"
  | _ => Returned "done"
  end.

(** ** Helpers for statements about texts *)

(** Every character of [s] satisfies [p]. *)
Fixpoint allChars (p : ascii -> bool) (s : string) : bool :=
  match s with
  | EmptyString => true
  | String c r => p c && allChars p r
  end.

(** The class [[a-z0-9_]]. *)
Definition isLowerWordChar (c : ascii) : bool :=
  Js.isWordChar c && negb (Js.isUpper c).

(** A summary that repeats the task's own words. *)
Definition echoTask : Task := {|
  id := "t-echo";
  name := "Login";
  description := "Implement secure login";
  notes := None;
  status := IN_PROGRESS;
  dependencies := [];
  createdAt := 0;
  updatedAt := 0;
  summary := None;
  analysisResult := None;
  implementationGuide := Some "Hash every password";
  verificationCriteria := Some "Login rejects wrong password"
|}.

Definition echoSummary : string :=
  "Implement secure login. Login rejects wrong password. Hash every password.".

(** * Properties *)

(** ** Strings *)

Module JsFacts.
Import Js.

Lemma toLowerCase_app (s t : string) :
  toLowerCase (s +:+ t) = toLowerCase s +:+ toLowerCase t.
Proof.
  induction s as [|c s IH]; simpl; [reflexivity|]. now rewrite IH.
Qed.

Lemma prefix_toLowerCase (sub s : string) :
  String.prefix sub s = true ->
  String.prefix (toLowerCase sub) (toLowerCase s) = true.
Proof.
  revert s. induction sub as [|c sub IH]; intros [|d s]; simpl; try easy.
  destruct (Ascii.ascii_dec c d) as [->|]; [|easy].
  intros H. destruct (Ascii.ascii_dec _ _); [now apply IH|congruence].
Qed.

Lemma includes_toLowerCase (s sub : string) :
  includes s sub = true ->
  includes (toLowerCase s) (toLowerCase sub) = true.
Proof.
  induction s as [|c s IH]; simpl; rewrite !orb_true_iff.
  - intros [H|H]; [|easy]. left. now apply (prefix_toLowerCase sub EmptyString).
  - intros [H|H].
    + left. now apply (prefix_toLowerCase sub (String c s)).
    + right. now apply IH.
Qed.

Lemma prefix_app_r (sub s t : string) :
  String.prefix sub s = true -> String.prefix sub (s +:+ t) = true.
Proof.
  revert s. induction sub as [|c sub IH]; intros s.
  - intros _. now destruct (s +:+ t).
  - destruct s as [|d s]; simpl; [easy|].
    destruct (Ascii.ascii_dec c d); [apply IH|easy].
Qed.

Lemma includes_app_l (s t sub : string) :
  includes s sub = true -> includes (s +:+ t) sub = true.
Proof.
  induction s as [|c s IH]; simpl.
  - rewrite orb_false_r. destruct sub; [|easy]. intros _. now destruct t.
  - rewrite !orb_true_iff. intros [H|H].
    + left. now apply (prefix_app_r sub (String c s)).
    + right. now apply IH.
Qed.

Lemma includes_app_r (s t sub : string) :
  includes t sub = true -> includes (s +:+ t) sub = true.
Proof.
  induction s as [|c s IH]; simpl; [easy|].
  intros H. rewrite (IH H). apply orb_true_r.
Qed.

Lemma mathRound_mono (x y : Q) : (x <= y)%Q -> mathRound x <= mathRound y.
Proof.
  intros H. unfold mathRound. apply Qfloor_resp_le. lra.
Qed.

Lemma mathRound_inject (n : Z) : mathRound (inject_Z n) = n.
Proof.
  unfold mathRound.
  assert (Hlo : n <= Qfloor (inject_Z n + (1 # 2))).
  { rewrite <- (Qfloor_Z n) at 1. apply Qfloor_resp_le. lra. }
  assert (Hhi : Qfloor (inject_Z n + (1 # 2)) < n + 1).
  { rewrite Zlt_Qlt. eapply Qle_lt_trans; [apply Qfloor_le|].
    rewrite inject_Z_plus. apply Qplus_lt_r. reflexivity. }
  lia.
Qed.


End JsFacts.

(** ** The cognitive router *)

Module CognitiveRouterFacts.
Import CognitiveRouter.

Lemma assess_score (task : Task) :
  complexityScore (assessTaskComplexity task)
  = descriptionPoints (Js.strlen (description task))
    + dependencyPoints (Js.arrlen (dependencies task))
    + notesPoints (match notes task with Some n => Js.strlen n | None => 0 end)
    + (if hasTemporalContext task then 10 else 0).
Proof.
  unfold assessTaskComplexity.
  destruct (hasTemporalContext task); simpl;
    match goal with |- context [levelOfScore ?x] => destruct (levelOfScore x) end;
    simpl; lia.
Qed.

(** Pick the disjunct that the arithmetic context settles. *)
Ltac branch :=
  first [ split; [reflexivity | lia] | split; [lia | reflexivity]
        | left; branch | right; branch ].

Lemma levelOfScore_cases (s : Z) :
  (levelOfScore s = LOW /\ s <= 25)
  \/ (levelOfScore s = MEDIUM /\ 25 < s <= 50)
  \/ (levelOfScore s = HIGH /\ 50 < s <= 75)
  \/ (levelOfScore s = VERY_HIGH /\ 75 < s).
Proof.
  unfold levelOfScore.
  destruct (Z.leb_spec s 25); [branch|].
  destruct (Z.leb_spec s 50); [branch|].
  destruct (Z.leb_spec s 75); branch.
Qed.

Lemma descriptionPoints_cases (n : Z) :
  (n < 500 /\ descriptionPoints n = 10)
  \/ (500 <= n < 1000 /\ descriptionPoints n = 30)
  \/ (1000 <= n /\ descriptionPoints n = 40).
Proof.
  unfold descriptionPoints, supabaseThreshold, graphitiThreshold,
    TaskComplexityThresholds.DESCRIPTION_LENGTH.MEDIUM,
    TaskComplexityThresholds.DESCRIPTION_LENGTH.HIGH.
  destruct (Z.ltb_spec n 500); [branch|].
  destruct (Z.ltb_spec n 1000); branch.
Qed.

Lemma dependencyPoints_cases (n : Z) :
  (n < 2 /\ dependencyPoints n = 5)
  \/ (2 <= n < 5 /\ dependencyPoints n = 15)
  \/ (5 <= n /\ dependencyPoints n = 30).
Proof.
  unfold dependencyPoints, dependencyThresholdMedium, dependencyThresholdHigh,
    TaskComplexityThresholds.DEPENDENCIES_COUNT.MEDIUM,
    TaskComplexityThresholds.DEPENDENCIES_COUNT.HIGH.
  destruct (Z.ltb_spec n 2); [branch|].
  destruct (Z.ltb_spec n 5); branch.
Qed.

Lemma notesPoints_cases (n : Z) :
  (500 < n /\ notesPoints n = 20)
  \/ (200 < n <= 500 /\ notesPoints n = 10)
  \/ (n <= 200 /\ notesPoints n = 0).
Proof.
  unfold notesPoints, TaskComplexityThresholds.NOTES_LENGTH.MEDIUM,
    TaskComplexityThresholds.NOTES_LENGTH.HIGH.
  destruct (Z.ltb_spec 500 n); [branch|].
  destruct (Z.ltb_spec 200 n); branch.
Qed.

(** A temporal keyword written in the description is detected. *)
Lemma description_keyword_detected (task : Task) (keyword : string) :
  In keyword temporalKeywords ->
  Js.includes (description task) keyword = true ->
  hasTemporalContext task = true.
Proof.
  intros Hin Hinc. unfold hasTemporalContext.
  apply existsb_exists. exists keyword. split; [exact Hin|].
  apply orb_true_iff. left.
  apply JsFacts.includes_toLowerCase in Hinc.
  replace (Js.toLowerCase keyword) with keyword in Hinc; [exact Hinc|].
  simpl in Hin.
  repeat (destruct Hin as [<-|Hin]; [reflexivity|]). destruct Hin.
Qed.

(** What [assessTaskComplexity] returns, field by field. *)
Lemma assess_shape (task : Task) :
  let a := assessTaskComplexity task in
  level a = levelOfScore (complexityScore a)
  /\ match level a with
     | LOW =>
         systemRecommendation a = SYSTEM_1 /\ mcpServerTarget a = supabase
         /\ episodicMemoryRequired a = false
     | MEDIUM =>
         systemRecommendation a = HYBRID /\ mcpServerTarget a = hybrid
         /\ episodicMemoryRequired a = false
     | HIGH | VERY_HIGH =>
         systemRecommendation a = SYSTEM_2 /\ mcpServerTarget a = graphiti
         /\ episodicMemoryRequired a = true
     end
  /\ (level a = HIGH \/ level a = VERY_HIGH ->
      (In temporalLine (routingJustification a)
       <-> hasTemporalContext task = true))
  /\ temporalContextRequired a = hasTemporalContext task.
Proof.
  unfold assessTaskComplexity. cbv zeta.
  set (sc := if hasTemporalContext task then _ else _). clearbody sc.
  destruct (levelOfScore sc) eqn:E;
    cbn [level complexityScore systemRecommendation mcpServerTarget
         episodicMemoryRequired routingJustification temporalContextRequired];
    rewrite ?E; repeat split; try (intros [?|?]; discriminate).
  all: unfold temporalLine; destruct (hasTemporalContext task); simpl;
    intuition (try discriminate; auto).
Qed.

(** C4. The level of an assessment is read off its score at the cut points
    25, 50 and 75, and the level alone fixes the routing: LOW goes to
    SYSTEM_1 / supabase without episodic memory, MEDIUM to HYBRID / hybrid,
    HIGH and VERY_HIGH to SYSTEM_2 / graphiti with episodic memory; in the
    last case the temporal-context line is in the justification exactly when
    a temporal keyword was detected, and then temporalContextRequired holds. *)
Theorem assess_level_and_routing (task : Task) :
  let a := assessTaskComplexity task in
  let s := complexityScore a in
  (level a = LOW <-> s <= 25)
  /\ (level a = MEDIUM <-> 25 < s <= 50)
  /\ (level a = HIGH <-> 50 < s <= 75)
  /\ (level a = VERY_HIGH <-> 75 < s)
  /\ match level a with
     | LOW =>
         systemRecommendation a = SYSTEM_1 /\ mcpServerTarget a = supabase
         /\ episodicMemoryRequired a = false
     | MEDIUM =>
         systemRecommendation a = HYBRID /\ mcpServerTarget a = hybrid
         /\ episodicMemoryRequired a = false
     | HIGH | VERY_HIGH =>
         systemRecommendation a = SYSTEM_2 /\ mcpServerTarget a = graphiti
         /\ episodicMemoryRequired a = true
         /\ (In temporalLine (routingJustification a)
             <-> hasTemporalContext task = true)
         /\ (hasTemporalContext task = true -> temporalContextRequired a = true)
     end.
Proof.
  cbv zeta.
  destruct (assess_shape task) as (Hlv & Hroute & Hline & Htc).
  destruct (levelOfScore_cases (complexityScore (assessTaskComplexity task)))
    as [[E H]|[[E H]|[[E H]|[E H]]]];
    rewrite <- Hlv in E; rewrite E in Hroute |- *;
    (split; [|split; [|split; [|split]]]);
    try (split; intros; first [lia | reflexivity | discriminate]).
  - exact Hroute.
  - exact Hroute.
  - destruct Hroute as (-> & -> & ->). rewrite Hline by (now left).
    repeat split; auto; congruence.
  - destruct Hroute as (-> & -> & ->). rewrite Hline by (now right).
    repeat split; auto; congruence.
Qed.

(** C5. A task whose description has 343 characters and holds "temporal",
    "coordination" and "architecture", with no dependencies, scores 25 plus
    the notes points, so between 25 and 45: its level is LOW or MEDIUM, never
    HIGH, it is not sent to graphiti and episodic memory is not required;
    only temporalContextRequired is set. *)
Theorem scenario_B_stays_below_high (task : Task) :
  String.length (description task) = 343%nat ->
  Js.includes (description task) "temporal" = true ->
  Js.includes (description task) "coordination" = true ->
  Js.includes (description task) "architecture" = true ->
  dependencies task = [] ->
  let a := assessTaskComplexity task in
  25 <= complexityScore a <= 45
  /\ (level a = LOW \/ level a = MEDIUM)
  /\ mcpServerTarget a <> graphiti
  /\ episodicMemoryRequired a = false
  /\ temporalContextRequired a = true.
Proof.
  intros Hlen Htemporal _ _ Hdeps a.
  assert (Ht : hasTemporalContext task = true).
  { apply (description_keyword_detected task "temporal"); [simpl; auto|exact Htemporal]. }
  assert (Hs : 25 <= complexityScore a <= 45).
  { subst a. rewrite assess_score, Ht, Hdeps.
    destruct (notesPoints_cases
                (match notes task with Some n => Js.strlen n | None => 0 end))
      as [[_ ->]|[[_ ->]|[_ ->]]];
      unfold Js.strlen; rewrite Hlen; vm_compute; split; discriminate. }
  destruct (assess_shape task) as (Hlv & Hroute & _ & Htc). fold a in Hlv, Hroute, Htc.
  assert (Hlow : level a = LOW \/ level a = MEDIUM).
  { rewrite Hlv.
    destruct (levelOfScore_cases (complexityScore a))
      as [[E H]|[[E H]|[[E H]|[E H]]]]; auto; lia. }
  split; [exact Hs|]. split; [exact Hlow|].
  rewrite Htc.
  destruct Hlow as [E|E]; rewrite E in Hroute;
    destruct Hroute as (_ & -> & ->); repeat split; try discriminate; exact Ht.
Qed.

Lemma scenario_B_witness :
  let a := assessTaskComplexity scenarioB in
  25 <= complexityScore a <= 45
  /\ (level a = LOW \/ level a = MEDIUM)
  /\ mcpServerTarget a <> graphiti
  /\ episodicMemoryRequired a = false
  /\ temporalContextRequired a = true.
Proof.
  apply (scenario_B_stays_below_high scenarioB); reflexivity.
Defined.

(** On that task the router answers score 25, LOW, SYSTEM_1, supabase. *)
Example scenario_B_evaluated :
  let a := assessTaskComplexity scenarioB in
  complexityScore a = 25 /\ level a = LOW
  /\ systemRecommendation a = SYSTEM_1 /\ mcpServerTarget a = supabase
  /\ episodicMemoryRequired a = false /\ temporalContextRequired a = true.
Proof. vm_compute. repeat split. Qed.

End CognitiveRouterFacts.

(** ** Anti-obfuscation: arithmetic of the incentives and the risk level *)

Module AntiObfuscationFacts.
Import AntiObfuscation.

Lemma Qltb_lt (x y : Q) : Qltb x y = true <-> (x < y)%Q.
Proof.
  unfold Qltb. rewrite negb_true_iff, <- not_true_iff_false, Qle_bool_iff.
  split; [apply Qnot_le_lt|apply Qlt_not_le].
Qed.

Lemma Qltb_ge (x y : Q) : Qltb x y = false <-> (y <= x)%Q.
Proof.
  unfold Qltb. rewrite negb_false_iff. apply Qle_bool_iff.
Qed.

(** The score of [validateTaskEvidence] is 100 less some of 20, 15 and 10. *)
Lemma evidence_score_values (task : Task) (summary : string)
    (config : AntiObfuscationConfig) :
  In (score (validateTaskEvidence task summary config))
     [100; 80; 85; 65; 90; 70; 75; 55].
Proof.
  unfold validateTaskEvidence. cbv zeta.
  destruct (Qltb _ (3 # 10));
    destruct (verificationCriteria task) as [criteria|];
    destruct (implementationGuide task) as [guide|];
    repeat match goal with
      | |- context [if ?b then _ else _] => destruct b
      end; simpl; tauto.
Qed.

Lemma evidence_score_bounds (task : Task) (summary : string)
    (config : AntiObfuscationConfig) :
  55 <= score (validateTaskEvidence task summary config) <= 100.
Proof.
  pose proof (evidence_score_values task summary config) as H. simpl in H.
  intuition lia.
Qed.

(** C2. The risk returned by [performAntiObfuscationValidation] is HIGH
    exactly when detectInconsistencies found at least 3 patterns or the
    evidence score is below 50; otherwise MEDIUM exactly when it found at
    least 1 pattern or the evidence score is below the configured threshold;
    otherwise LOW. *)
Theorem manipulation_risk_classification (task : Task) (summary : string)
    (baseScore : Q) (config : AntiObfuscationConfig) :
  let r := performAntiObfuscationValidation task summary baseScore config in
  let n := Js.arrlen (detectInconsistencies summary config) in
  let e := score (validateTaskEvidence task summary config) in
  let high := 3 <= n \/ e < 50 in
  let medium := 1 <= n \/ (inject_Z e < evidenceThreshold config)%Q in
  (manipulationRisk r = RISK_HIGH <-> high)
  /\ (manipulationRisk r = RISK_MEDIUM <-> ~ high /\ medium)
  /\ (manipulationRisk r = RISK_LOW <-> ~ high /\ ~ medium).
Proof.
  cbv zeta. unfold performAntiObfuscationValidation. cbv zeta.
  cbn [manipulationRisk].
  set (n := Js.arrlen (detectInconsistencies summary config)).
  set (e := score (validateTaskEvidence task summary config)).
  destruct (Z.leb_spec 3 n) as [Hn3|Hn3]; cbn [orb].
  { repeat split; intros; try discriminate; tauto. }
  destruct (Z.ltb_spec e 50) as [He|He].
  { repeat split; intros; try discriminate; tauto. }
  destruct (Z.leb_spec 1 n) as [Hn1|Hn1]; cbn [orb].
  { repeat split; intros; try discriminate; intuition lia. }
  destruct (Qltb (inject_Z e) (evidenceThreshold config)) eqn:Ht.
  - apply Qltb_lt in Ht.
    repeat split; intros; try discriminate; intuition lia.
  - apply Qltb_ge, Qle_not_lt in Ht.
    repeat split; intros; try discriminate; intuition lia.
Qed.

(** C8. The evidence score is at least 55: at most 20 + 15 + 10 points are
    ever taken from 100.  Hence the test "evidence score below 50" in
    [performAntiObfuscationValidation] is never true, and the risk is HIGH
    only when at least 3 suspicious patterns were detected. *)
Theorem evidence_score_at_least_55 (task : Task) (summary : string)
    (baseScore : Q) (config : AntiObfuscationConfig) :
  let e := score (validateTaskEvidence task summary config) in
  let r := performAntiObfuscationValidation task summary baseScore config in
  55 <= e <= 100
  /\ (e <? 50) = false
  /\ evidenceConsistency r = e
  /\ (manipulationRisk r = RISK_HIGH <->
      3 <= Js.arrlen (detectInconsistencies summary config)).
Proof.
  cbv zeta.
  pose proof (evidence_score_bounds task summary config) as Hb.
  split; [exact Hb|]. split; [apply Z.ltb_ge; lia|]. split; [reflexivity|].
  unfold performAntiObfuscationValidation. cbv zeta. cbn [manipulationRisk].
  replace (score (validateTaskEvidence task summary config) <? 50) with false
    by (symmetry; apply Z.ltb_ge; lia).
  destruct (Z.leb_spec 3 (Js.arrlen (detectInconsistencies summary config)));
    cbn [orb]; [tauto|].
  split; [|lia].
  repeat match goal with
    | |- context [if ?b then _ else _] => destruct b
    end; discriminate.
Qed.



(** The value of [adjustedScore] before [Math.round]. *)
Lemma applyHonestIncentives_unrounded (baseScore evidenceScore : Q)
    (patterns : list string) (config : AntiObfuscationConfig) :
  adjustedScore (applyHonestIncentives baseScore evidenceScore patterns config)
  = Js.mathRound
      (Reference.honestAdjustment (evidenceThreshold config) baseScore
         evidenceScore (Js.arrlen patterns)).
Proof.
  unfold applyHonestIncentives, Reference.honestAdjustment. cbv zeta.
  rewrite (Z.mul_comm 4).
  destruct (Qle_bool (evidenceThreshold config) evidenceScore);
    destruct (0 <? Js.arrlen patterns); reflexivity.
Qed.



End AntiObfuscationFacts.

(** ** Evidence validation against its reference *)

Module EvidenceFacts.
Import AntiObfuscation.

Lemma arrayIncludes_In (l : list string) (x : string) :
  Js.arrayIncludes l x = true <-> In x l.
Proof.
  unfold Js.arrayIncludes. rewrite existsb_exists. split.
  - intros (y & Hin & Heq). apply String.eqb_eq in Heq. now subst.
  - intros Hin. exists x. split; [exact Hin|apply String.eqb_refl].
Qed.

(** [new Set(words)] keeps every word once. *)
Lemma dedupeInto_spec (seen words : list string) :
  NoDup seen ->
  NoDup (Js.dedupeInto seen words)
  /\ forall x, In x (Js.dedupeInto seen words) <-> In x seen \/ In x words.
Proof.
  revert seen. induction words as [|w ws IH]; intros seen Hnd; simpl.
  - split; [exact Hnd|tauto].
  - destruct (Js.arrayIncludes seen w) eqn:E.
    + apply arrayIncludes_In in E. destruct (IH seen Hnd) as [H1 H2].
      split; [exact H1|]. intros x. rewrite H2. intuition (subst; auto).
    + assert (Hw : ~ In w seen).
      { intros Hin. apply arrayIncludes_In in Hin. congruence. }
      assert (Hnd' : NoDup (seen ++ [w])).
      { apply NoDup_app; repeat split; auto.
        - intros x Hx. rewrite list_elem_of_In in Hx.
          intros Hxw. apply list_elem_of_In in Hxw as [<-|[]]. contradiction.
        - apply NoDup_singleton. }
      destruct (IH _ Hnd') as [H1 H2]. split; [exact H1|].
      intros x. rewrite H2, in_app_iff. simpl. tauto.
Qed.

Lemma dedupe_NoDup (words : list string) : NoDup (Js.dedupe words).
Proof. apply dedupeInto_spec. constructor. Qed.

Lemma dedupe_In (words : list string) (x : string) :
  In x (Js.dedupe words) <-> In x words.
Proof.
  unfold Js.dedupe. destruct (dedupeInto_spec [] words (NoDup_nil_2 (A := string))) as [_ H].
  rewrite H. simpl. tauto.
Qed.

(** What [replace(/[^\w\s]/g, ' ')] leaves is a blank exactly where the text
    has no word character. *)
Lemma replaced_isSpace (c : ascii) :
  Js.isSpace (if Js.isWordChar c || Js.isSpace c then c else " "%char)
  = negb (Js.isWordChar c).
Proof.
  destruct c as [[] [] [] [] [] [] [] []]; reflexivity.
Qed.

Lemma replaced_word (c : ascii) :
  Js.isWordChar c = true ->
  (if Js.isWordChar c || Js.isSpace c then c else " "%char) = c.
Proof. now intros ->. Qed.

Lemma words_nonempty (c : ascii) (rest : string) :
  Js.isWordChar c = true -> Reference.words (String c rest) <> [].
Proof.
  intros Hc. simpl. rewrite Hc.
  destruct rest as [|d rest']; [discriminate|].
  destruct (Js.isWordChar d); [|discriminate].
  destruct (Reference.words (String d rest')); discriminate.
Qed.

Lemma append_assoc (a b c : string) : (a +:+ b) +:+ c = a +:+ (b +:+ c).
Proof.
  induction a as [|x a IH]; [reflexivity|].
  change (String x ((a +:+ b) +:+ c) = String x (a +:+ (b +:+ c))).
  now rewrite IH.
Qed.

Lemma append_nonempty (a : string) (c : ascii) :
  String.eqb (a +:+ String c EmptyString) EmptyString = false.
Proof. now destruct a. Qed.

(** Reading on after a word character. *)
Lemma wordsAfter_step (cur : string) (c : ascii) (rest : string) :
  Js.isWordChar c = true ->
  Reference.wordsAfter (cur +:+ String c EmptyString) rest
  = Reference.wordsAfter cur (String c rest).
Proof.
  intros Hc. unfold Reference.wordsAfter at 2. rewrite Hc.
  change (Reference.words (String c rest))
    with (if Js.isWordChar c then
            match rest with
            | String d _ =>
                if Js.isWordChar d then
                  match Reference.words rest with
                  | w :: ws => String c w :: ws
                  | [] => [String c EmptyString]
                  end
                else String c EmptyString :: Reference.words rest
            | EmptyString => [String c EmptyString]
            end
          else Reference.words rest).
  rewrite Hc. unfold Reference.wordsAfter.
  destruct rest as [|d rest'].
  - now rewrite append_nonempty.
  - destruct (Js.isWordChar d) eqn:Hd.
    + pose proof (words_nonempty d rest' Hd) as Hne.
      destruct (Reference.words (String d rest')) as [|w ws]; [contradiction|].
      now rewrite append_assoc.
    + now rewrite append_nonempty.
Qed.

Lemma wordsAfter_empty (text : string) :
  Reference.wordsAfter EmptyString text = Reference.words text.
Proof.
  unfold Reference.wordsAfter. destruct text as [|d rest]; [reflexivity|].
  destruct (Js.isWordChar d) eqn:Hd; [|reflexivity].
  pose proof (words_nonempty d rest Hd) as Hne.
  now destruct (Reference.words (String d rest)).
Qed.

(** The non-empty pieces of the split are the words. *)
Lemma splitRuns_words (text cur : string) (inSep : bool) :
  (inSep = true -> cur = EmptyString) ->
  List.filter (fun piece => negb (String.eqb piece EmptyString))
              (Js.splitRuns Js.isSpace (replacePunctuation text) cur inSep)
  = Reference.wordsAfter cur text.
Proof.
  revert cur inSep. induction text as [|c rest IH]; intros cur inSep Hinv.
  - simpl. now destruct (String.eqb cur EmptyString).
  - cbn [replacePunctuation Js.splitRuns]. rewrite replaced_isSpace.
    destruct (Js.isWordChar c) eqn:Hc; cbn [negb].
    + cbn [orb]. rewrite IH by discriminate. now apply wordsAfter_step.
    + assert (Hrest : List.filter (fun piece => negb (String.eqb piece EmptyString))
                        (Js.splitRuns Js.isSpace (replacePunctuation rest)
                                      EmptyString true)
                      = Reference.words rest).
      { rewrite IH by reflexivity. apply wordsAfter_empty. }
      unfold Reference.wordsAfter. rewrite Hc.
      change (Reference.words (String c rest))
        with (if Js.isWordChar c then
                match rest with
                | String d _ =>
                    if Js.isWordChar d then
                      match Reference.words rest with
                      | w :: ws => String c w :: ws
                      | [] => [String c EmptyString]
                      end
                    else String c EmptyString :: Reference.words rest
                | EmptyString => [String c EmptyString]
                end
              else Reference.words rest).
      rewrite Hc.
      destruct inSep.
      * rewrite (Hinv eq_refl). exact Hrest.
      * cbn [List.filter]. rewrite Hrest.
        now destruct (String.eqb cur EmptyString).
Qed.

Lemma split_words (text : string) :
  List.filter (fun piece => negb (String.eqb piece EmptyString))
              (Js.split Js.isSpace (replacePunctuation text))
  = Reference.words text.
Proof.
  unfold Js.split. rewrite splitRuns_words by discriminate.
  apply wordsAfter_empty.
Qed.

(** The array of [extractKeywords] lists the reference keyword set without
    repetition. *)
Lemma extractKeywords_set (text : string) :
  list_to_set (extractKeywords text) = Reference.keywordSet text.
Proof.
  apply set_eq. intros x.
  unfold extractKeywords, Reference.keywordSet, Reference.tokens. cbv zeta.
  rewrite <- split_words.
  rewrite !elem_of_list_to_set, !list_elem_of_In, dedupe_In, !filter_In.
  assert (Heq : (2 <? Js.strlen x) = negb (Js.strlen x <=? 2)).
  { destruct (Z.ltb_spec 2 (Js.strlen x)), (Z.leb_spec (Js.strlen x) 2);
      simpl; try reflexivity; lia. }
  rewrite Heq.
  assert (Hlong : negb (Js.strlen x <=? 2) = true ->
                  negb (String.eqb x EmptyString) = true).
  { destruct x; [discriminate|reflexivity]. }
  destruct (negb (Js.strlen x <=? 2)); simpl; [|tauto].
  specialize (Hlong eq_refl). rewrite Hlong. tauto.
Qed.

Lemma extractKeywords_length (text : string) :
  List.length (extractKeywords text) = size (Reference.keywordSet text).
Proof.
  rewrite <- extractKeywords_set. symmetry. apply size_list_to_set.
  apply dedupe_NoDup.
Qed.

Lemma NoDup_filter_bool {A} (f : A -> bool) (l : list A) :
  NoDup l -> NoDup (List.filter f l).
Proof.
  induction 1 as [|x l Hx Hnd IH]; simpl; [constructor|].
  destruct (f x); [|exact IH].
  constructor; [|exact IH].
  rewrite list_elem_of_In, filter_In. rewrite list_elem_of_In in Hx. tauto.
Qed.

Lemma common_length (required summary : string) :
  List.length (List.filter (Js.arrayIncludes (extractKeywords summary))
                           (extractKeywords required))
  = size (Reference.keywordSet required ∩ Reference.keywordSet summary).
Proof.
  rewrite <- !extractKeywords_set.
  rewrite <- (size_list_to_set (C := gset string)).
  2:{ apply NoDup_filter_bool, dedupe_NoDup. }
  f_equal. apply set_eq. intros x.
  rewrite elem_of_intersection, !elem_of_list_to_set, !list_elem_of_In, filter_In.
  now rewrite arrayIncludes_In.
Qed.

(** The code's ratio is the reference coverage. *)
Lemma alignment_coverage (required summary : string) :
  (alignment (extractKeywords required) (extractKeywords summary)
   == Reference.coverage (Reference.keywordSet required)
        (Reference.keywordSet summary))%Q.
Proof.
  unfold alignment, Reference.coverage, Js.arrlen.
  rewrite common_length, extractKeywords_length.
  destruct (decide (size (Reference.keywordSet required) = 0%nat)) as [E|E].
  - assert (H0 : size (Reference.keywordSet required ∩ Reference.keywordSet summary)
                 = 0%nat).
    { apply size_empty_iff. apply size_empty_iff in E.
      intros x. rewrite elem_of_intersection, (E x), elem_of_empty. tauto. }
    rewrite H0, E. reflexivity.
  - rewrite Z.max_l by lia. reflexivity.
Qed.

Lemma Qltb_comp (x y t : Q) : (x == y)%Q -> Qltb x t = Qltb y t.
Proof.
  intros H. unfold Qltb. f_equal.
  destruct (Qle_bool t x) eqn:E1, (Qle_bool t y) eqn:E2; try reflexivity.
  - apply Qle_bool_iff in E1. rewrite H in E1. apply Qle_bool_iff in E1. congruence.
  - apply Qle_bool_iff in E2. rewrite <- H in E2. apply Qle_bool_iff in E2. congruence.
Qed.

Lemma alignment_below (required summary : string) (t : Q) :
  Qltb (alignment (extractKeywords required) (extractKeywords summary)) t
  = Qltb (Reference.coverage (Reference.keywordSet required)
            (Reference.keywordSet summary)) t.
Proof. apply Qltb_comp, alignment_coverage. Qed.

(** C6, as amended.  [validateTaskEvidence] returns the reference score in
    which the verificationCriteria and implementationGuide checks apply only
    to a field that is present and not the empty string: 100, less 20 when
    under 0.3 of the description keywords are in the summary, less 15 when
    under 0.4 of the criteria keywords are, less 10 when under 0.3 of the
    guide keywords are; the description issue is recorded exactly when its
    penalty applies, and the score is never below 0. *)
Theorem validateTaskEvidence_refines_reference (task : Task) (summary : string)
    (config : AntiObfuscationConfig) :
  let result := validateTaskEvidence task summary config in
  score result = Reference.evidenceScore Reference.fieldNonEmpty task summary
  /\ (In "摘要與任務描述關聯性不足" (issues result)
      <-> Reference.descriptionIssueRecorded task summary = true)
  /\ 0 <= score result.
Proof.
  cbv zeta.
  unfold validateTaskEvidence, Reference.evidenceScore, Reference.fieldPenalty,
    Reference.descriptionIssueRecorded, Reference.fieldPresent,
    Reference.fieldNonEmpty, Js.truthy.
  cbv zeta. rewrite alignment_below.
  destruct (Qltb (Reference.coverage (Reference.keywordSet (description task)) _) _);
    destruct (verificationCriteria task) as [criteria|];
    destruct (implementationGuide task) as [guide|];
    rewrite ?alignment_below;
    repeat match goal with
      | |- context [String.eqb ?a ?b] => destruct (String.eqb a b)
      | |- context [Qltb ?a ?b] => destruct (Qltb a b)
      end;
    cbn; (split; [reflexivity|split; [|lia]]);
    intuition (try discriminate; auto).
Qed.

(** C6, as stated, fails: verification criteria that are present but empty
    are skipped by [validateTaskEvidence], which scores 100, while the
    reference that checks every present field finds no criteria keyword in
    the summary and scores 85. *)
Lemma empty_criteria_not_checked :
  score (validateTaskEvidence emptyCriteriaTask emptyCriteriaSummary
           DEFAULT_ANTI_OBFUSCATION_CONFIG) = 100
  /\ Reference.evidenceScore Reference.fieldPresent emptyCriteriaTask
       emptyCriteriaSummary = 85
  /\ score (validateTaskEvidence emptyCriteriaTask emptyCriteriaSummary
              DEFAULT_ANTI_OBFUSCATION_CONFIG)
     <> Reference.evidenceScore Reference.fieldPresent emptyCriteriaTask
          emptyCriteriaSummary.
Proof.
  assert (H1 : score (validateTaskEvidence emptyCriteriaTask emptyCriteriaSummary
                        DEFAULT_ANTI_OBFUSCATION_CONFIG) = 100) by reflexivity.
  assert (H2 : Reference.evidenceScore Reference.fieldPresent emptyCriteriaTask
                 emptyCriteriaSummary = 85) by (vm_compute; reflexivity).
  rewrite H1, H2. repeat split. discriminate.
Qed.

End EvidenceFacts.

(** ** Monotonicity of the adjusted score *)

Module MonotonicityFacts.
Import AntiObfuscation.

Lemma Qle_bool_false (x y : Q) : Qle_bool x y = false <-> (y < x)%Q.
Proof.
  rewrite <- not_true_iff_false, Qle_bool_iff.
  split; [apply Qnot_le_lt|apply Qlt_not_le].
Qed.

(** More evidence never lowers the value after the evidence step. *)
Lemma evidence_step_mono (threshold baseScore e e' : Q) :
  (e' <= e)%Q ->
  ((if Qle_bool threshold e'
    then baseScore + Qmin 5 ((e' - threshold) / 6)
    else baseScore - Qmin 15 ((threshold - e') / 3))
   <= (if Qle_bool threshold e
       then baseScore + Qmin 5 ((e - threshold) / 6)
       else baseScore - Qmin 15 ((threshold - e) / 3)))%Q.
Proof.
  intros Hle.
  destruct (Qle_bool threshold e') eqn:E'; destruct (Qle_bool threshold e) eqn:E.
  - apply Qplus_le_r. apply Q.min_le_compat_l.
    apply Qmult_le_compat_r; [lra|]. apply Qinv_le_0_compat. lra.
  - apply Qle_bool_iff in E'. apply Qle_bool_false in E. lra.
  - apply Qle_bool_false in E'. apply Qle_bool_iff in E.
    assert (H1 : (0 <= Qmin 15 ((threshold - e') / 3))%Q).
    { apply Q.min_glb; [lra|]. apply Qle_shift_div_l; lra. }
    assert (H2 : (0 <= Qmin 5 ((e - threshold) / 6))%Q).
    { apply Q.min_glb; [lra|]. apply Qle_shift_div_l; lra. }
    lra.
  - assert (H : (Qmin 15 ((threshold - e) / 3) <= Qmin 15 ((threshold - e') / 3))%Q).
    { apply Q.min_le_compat_l.
      apply Qmult_le_compat_r; [lra|]. apply Qinv_le_0_compat. lra. }
    lra.
Qed.

(** More patterns never raise the value after the pattern step. *)
Lemma pattern_step_mono (x x' : Q) (n n' : Z) :
  (x' <= x)%Q -> 0 <= n <= n' ->
  ((if 0 <? n' then x' - inject_Z (Z.min 20 (4 * n')) else x' + 2)
   <= (if 0 <? n then x - inject_Z (Z.min 20 (4 * n)) else x + 2))%Q.
Proof.
  intros Hx Hn.
  destruct (Z.ltb_spec 0 n'); destruct (Z.ltb_spec 0 n); try lia.
  - assert (H1 : (inject_Z (Z.min 20 (4 * n)) <= inject_Z (Z.min 20 (4 * n')))%Q).
    { rewrite <- Zle_Qle. lia. }
    lra.
  - assert (H1 : (0 <= inject_Z (Z.min 20 (4 * n')))%Q).
    { change 0%Q with (inject_Z 0). rewrite <- Zle_Qle. lia. }
    lra.
  - lra.
Qed.

Lemma clamp_mono (x y : Q) :
  (x <= y)%Q -> (Qmax 0 (Qmin 100 x) <= Qmax 0 (Qmin 100 y))%Q.
Proof.
  intros H. apply Q.max_le_compat_l, Q.min_le_compat_l, H.
Qed.

Lemma honestAdjustment_mono (threshold baseScore e e' : Q) (n n' : Z) :
  (e' <= e)%Q -> 0 <= n <= n' ->
  (Reference.honestAdjustment threshold baseScore e' n'
   <= Reference.honestAdjustment threshold baseScore e n)%Q.
Proof.
  intros He Hn. unfold Reference.honestAdjustment. cbv zeta.
  apply clamp_mono, pattern_step_mono; [|exact Hn].
  now apply evidence_step_mono.
Qed.

(** [applyHonestIncentives] is monotone: less evidence and more patterns never
    give a higher adjusted score. *)
Lemma applyHonestIncentives_mono (baseScore e e' : Q) (patterns patterns' : list string)
    (config : AntiObfuscationConfig) :
  (e' <= e)%Q -> (List.length patterns <= List.length patterns')%nat ->
  adjustedScore (applyHonestIncentives baseScore e' patterns' config)
  <= adjustedScore (applyHonestIncentives baseScore e patterns config).
Proof.
  intros He Hn.
  rewrite !AntiObfuscationFacts.applyHonestIncentives_unrounded.
  apply JsFacts.mathRound_mono, honestAdjustment_mono; [exact He|].
  unfold Js.arrlen. lia.
Qed.

End MonotonicityFacts.

(** ** How many patterns a longer summary has *)

Module PatternFacts.
Import AntiObfuscation.

(** Splitting a text that goes on: the pieces closed so far stay, and the
    split resumes from the open piece. *)
Lemma splitRuns_app (sep : ascii -> bool) (s x : string) :
  forall cur inSep, exists init open inSep',
    Js.splitRuns sep s cur inSep = (init ++ [open])%list
    /\ Js.splitRuns sep (s +:+ x) cur inSep
       = (init ++ Js.splitRuns sep x open inSep')%list.
Proof.
  induction s as [|c s IH]; intros cur inSep; simpl.
  - exists [], cur, inSep. split; reflexivity.
  - destruct (sep c).
    + destruct (IH EmptyString true) as (init & open & b & H1 & H2).
      destruct inSep.
      * exists init, open, b. now split.
      * exists (cur :: init), open, b. rewrite H1, H2. now split.
    + apply IH.
Qed.

(** Writing one count changes the number of flagged phrases by 0 or 1. *)
Lemma mapSet_flagged (m : list (string * Z)) (k : string) (v : Z) :
  v = match mapGet m k with Some n => n | None => 0 end + 1 ->
  (List.length (flagRepeated m) <= List.length (flagRepeated (mapSet m k v))
   <= List.length (flagRepeated m) + 1)%nat.
Proof.
  induction m as [|[k' v'] m IH]; simpl; intros Hv.
  - subst v. simpl. lia.
  - destruct (String.eqb k' k) eqn:E; simpl.
    + subst v. rewrite !length_app.
      destruct (Z.ltb_spec 3 v'), (Z.ltb_spec 3 (v' + 1));
        destruct (10 <? Js.strlen k'); simpl; lia.
    + specialize (IH Hv). rewrite !length_app. lia.
Qed.

Lemma countStep_flagged (m : list (string * Z)) (phrase : string) :
  (List.length (flagRepeated m) <= List.length (flagRepeated (countStep m phrase))
   <= List.length (flagRepeated m) + 1)%nat.
Proof. unfold countStep. now apply mapSet_flagged. Qed.

Lemma count_more_flagged (phrases : list string) (m : list (string * Z)) :
  (List.length (flagRepeated m)
   <= List.length (flagRepeated (fold_left countStep phrases m)))%nat.
Proof.
  revert m. induction phrases as [|p ps IH]; intros m; simpl; [lia|].
  etransitivity; [apply (countStep_flagged m p)|apply IH].
Qed.

(** Text appended to a summary un-flags at most one repeated phrase. *)
Lemma repeatedPhrases_app (s x : string) :
  (List.length (repeatedPhrases s)
   <= List.length (repeatedPhrases (s +:+ x)) + 1)%nat.
Proof.
  unfold repeatedPhrases, phrasesOf, Js.split.
  destruct (splitRuns_app isTerminator s x EmptyString false)
    as (init & open & b & -> & ->).
  rewrite !List.filter_app. unfold countPhrases. rewrite !fold_left_app.
  set (m := fold_left countStep (List.filter _ init) []).
  pose proof (count_more_flagged
                (List.filter (fun p => 0 <? Js.strlen (Js.trim p))
                             (Js.splitRuns isTerminator x open b)) m) as Hmore.
  simpl. destruct (0 <? Js.strlen (Js.trim open)); simpl.
  - pose proof (countStep_flagged m open). lia.
  - lia.
Qed.

(** A keyword found in a text is found in any text that includes all that
    text includes. *)
Lemma keywordHits_mono (t t' : string) (keywords : list string) :
  (forall sub, Js.includes t sub = true -> Js.includes t' sub = true) ->
  (List.length (keywordHits t keywords) <= List.length (keywordHits t' keywords))%nat.
Proof.
  intros Hinc. induction keywords as [|k ks IH]; simpl; [lia|].
  rewrite !length_app.
  destruct (Js.includes t (Js.toLowerCase k)) eqn:E.
  - rewrite (Hinc _ E). simpl. lia.
  - destruct (Js.includes t' (Js.toLowerCase k)); simpl; lia.
Qed.

Lemma keywordHits_more (t t' : string) (keywords : list string) (keyword : string) :
  (forall sub, Js.includes t sub = true -> Js.includes t' sub = true) ->
  In keyword keywords ->
  Js.includes t (Js.toLowerCase keyword) = false ->
  Js.includes t' (Js.toLowerCase keyword) = true ->
  (List.length (keywordHits t keywords) + 1
   <= List.length (keywordHits t' keywords))%nat.
Proof.
  intros Hinc Hin Hnot Hyes.
  induction keywords as [|k ks IH]; simpl; [destruct Hin|].
  rewrite !length_app.
  destruct Hin as [->|Hin].
  - rewrite Hnot, Hyes. pose proof (keywordHits_mono t t' ks Hinc). simpl. lia.
  - specialize (IH Hin).
    destruct (Js.includes t (Js.toLowerCase k)) eqn:E.
    + rewrite (Hinc _ E). simpl. lia.
    + destruct (Js.includes t' (Js.toLowerCase k)); simpl; lia.
Qed.

Lemma contradictions_mono (t t' : string) :
  (forall sub, Js.includes t sub = true -> Js.includes t' sub = true) ->
  (List.length (contradictions t) <= List.length (contradictions t'))%nat.
Proof.
  intros Hinc. unfold contradictions.
  induction contradictoryPairs as [|[positive negative] pairs IH]; simpl; [lia|].
  rewrite !length_app.
  destruct (Js.includes t positive) eqn:E1; simpl.
  - rewrite (Hinc _ E1). simpl.
    destruct (Js.includes t negative) eqn:E2.
    + rewrite (Hinc _ E2). simpl. lia.
    + destruct (Js.includes t' negative); simpl; lia.
  - destruct (Js.includes t' positive && Js.includes t' negative); simpl; lia.
Qed.

Lemma prefix_refl (s : string) : String.prefix s s = true.
Proof.
  induction s as [|c s IH]; simpl; [reflexivity|].
  destruct (Ascii.ascii_dec c c); [exact IH|contradiction].
Qed.

Lemma includes_refl (s : string) : Js.includes s s = true.
Proof.
  destruct s as [|c s]; [reflexivity|].
  change (Js.includes (String c s) (String c s))
    with (String.prefix (String c s) (String c s) || Js.includes s (String c s)).
  now rewrite prefix_refl.
Qed.

(** A summary with one new suspicious keyword has at least as many detected
    patterns. *)
Lemma detect_addKeyword (summary keyword : string) (config : AntiObfuscationConfig) :
  In keyword (suspiciousPatternKeywords config) ->
  Js.includes (Js.toLowerCase summary) (Js.toLowerCase keyword) = false ->
  (List.length (detectInconsistencies summary config)
   <= List.length (detectInconsistencies (Reference.addKeyword summary keyword) config))%nat.
Proof.
  intros Hin Hnew. unfold detectInconsistencies, Reference.addKeyword. cbv zeta.
  rewrite !length_app.
  assert (Hinc : forall sub,
            Js.includes (Js.toLowerCase summary) sub = true ->
            Js.includes (Js.toLowerCase (summary +:+ " " +:+ keyword)) sub = true).
  { intros sub H. rewrite JsFacts.toLowerCase_app. now apply JsFacts.includes_app_l. }
  assert (Hyes : Js.includes (Js.toLowerCase (summary +:+ " " +:+ keyword))
                             (Js.toLowerCase keyword) = true).
  { rewrite !JsFacts.toLowerCase_app. do 2 apply JsFacts.includes_app_r.
    apply includes_refl. }
  pose proof (keywordHits_more _ _ _ _ Hinc Hin Hnew Hyes).
  pose proof (contradictions_mono _ _ Hinc).
  pose proof (repeatedPhrases_app summary (" " +:+ keyword)).
  lia.
Qed.

(** C7, as amended.  Let a keyword of the configured list not occur yet
    (whatever the case) in a summary, and append it after a blank.  If the
    evidence score of the longer summary is not above that of the shorter
    one, then the adjusted score that [performAntiObfuscationValidation]
    computes for the longer summary is not above the one for the shorter. *)
Theorem new_keyword_never_raises_score (task : Task) (baseScore : Q)
    (config : AntiObfuscationConfig) (summary keyword : string) :
  In keyword (suspiciousPatternKeywords config) ->
  Js.includes (Js.toLowerCase summary) (Js.toLowerCase keyword) = false ->
  score (validateTaskEvidence task (Reference.addKeyword summary keyword) config)
  <= score (validateTaskEvidence task summary config) ->
  adjustedScore (incentiveResultOf task (Reference.addKeyword summary keyword)
                   baseScore config)
  <= adjustedScore (incentiveResultOf task summary baseScore config).
Proof.
  intros Hin Hnew Hev. unfold incentiveResultOf. cbv zeta.
  apply MonotonicityFacts.applyHonestIncentives_mono.
  - now rewrite <- Zle_Qle.
  - now apply detect_addKeyword.
Qed.

Lemma new_keyword_witness :
  adjustedScore (incentiveResultOf uploadsTask
                   (Reference.addKeyword uploadsSummary "mock") 80
                   DEFAULT_ANTI_OBFUSCATION_CONFIG)
  <= adjustedScore (incentiveResultOf uploadsTask uploadsSummary 80
                      DEFAULT_ANTI_OBFUSCATION_CONFIG).
Proof.
  apply (new_keyword_never_raises_score uploadsTask 80
           DEFAULT_ANTI_OBFUSCATION_CONFIG uploadsSummary "mock").
  - simpl. tauto.
  - reflexivity.
  - vm_compute. discriminate.
Defined.

(** C7, as stated, fails twice over.  Appending "incomplete" to a summary
    that shares no word with the task brings the evidence score from 55 to
    100 and the adjusted score from 77 to 81.  Appending "mock" to a summary
    that already says "mock" breaks its four-fold sentence, leaves one pattern
    of two, and brings the adjusted score from 67 to 71. *)
Lemma more_keywords_can_raise_score :
  let config := DEFAULT_ANTI_OBFUSCATION_CONFIG in
  (In "incomplete" (suspiciousPatternKeywords config)
   /\ adjustedScore (incentiveResultOf uploadsTask uploadsSummary 80 config) = 77
   /\ adjustedScore (incentiveResultOf uploadsTask
                       (Reference.addKeyword uploadsSummary "incomplete") 80 config) = 81
   /\ ~ (adjustedScore (incentiveResultOf uploadsTask
                          (Reference.addKeyword uploadsSummary "incomplete") 80 config)
         <= adjustedScore (incentiveResultOf uploadsTask uploadsSummary 80 config)))
  /\ (In "mock" (suspiciousPatternKeywords config)
      /\ adjustedScore (incentiveResultOf uploadsTask repeatedSummary 80 config) = 67
      /\ adjustedScore (incentiveResultOf uploadsTask
                          (Reference.addKeyword repeatedSummary "mock") 80 config) = 71
      /\ ~ (adjustedScore (incentiveResultOf uploadsTask
                             (Reference.addKeyword repeatedSummary "mock") 80 config)
            <= adjustedScore (incentiveResultOf uploadsTask repeatedSummary 80 config))).
Proof.
  cbv zeta.
  assert (A1 : adjustedScore (incentiveResultOf uploadsTask uploadsSummary 80
                                DEFAULT_ANTI_OBFUSCATION_CONFIG) = 77)
    by (vm_compute; reflexivity).
  assert (A2 : adjustedScore (incentiveResultOf uploadsTask
                                (Reference.addKeyword uploadsSummary "incomplete") 80
                                DEFAULT_ANTI_OBFUSCATION_CONFIG) = 81)
    by (vm_compute; reflexivity).
  assert (B1 : adjustedScore (incentiveResultOf uploadsTask repeatedSummary 80
                                DEFAULT_ANTI_OBFUSCATION_CONFIG) = 67)
    by (vm_compute; reflexivity).
  assert (B2 : adjustedScore (incentiveResultOf uploadsTask
                                (Reference.addKeyword repeatedSummary "mock") 80
                                DEFAULT_ANTI_OBFUSCATION_CONFIG) = 71)
    by (vm_compute; reflexivity).
  rewrite A1, A2, B1, B2.
  repeat split; try (simpl; tauto); lia.
Qed.

End PatternFacts.

(** ** The debate-protocol configuration *)

Module DebateProtocolFacts.
Import DebateProtocol.

Section WithPrinter.

Variable numberToString : Q -> string.







Lemma arrlen_zero {A} (l : list A) : (Js.arrlen l =? 0) = true <-> l = [].
Proof.
  unfold Js.arrlen. rewrite Z.eqb_eq. destruct l; simpl; split; try easy; lia.
Qed.

(** [validate] returns whenever the weight loop does, keeps the loop's
    errors, and reports a valid configuration only when the loop found
    nothing. *)
Lemma validate_after_loop (config : DebateProtocolConfig) (errs : list string) :
  checkWeights numberToString (entries (intensitySettings config)) [] = Returned errs ->
  exists validation,
    validate numberToString config = Returned validation
    /\ (forall e, In e errs -> In e (errors validation))
    /\ (isValid validation = true <-> errors validation = [])
    /\ (errors validation = [] -> errs = []).
Proof.
  intros Hloop. unfold validate. rewrite Hloop.
  destruct (confidenceThresholds (scoring config)) as [lo me hi].
  eexists. split; [reflexivity|]. cbn [errors isValid].
  split; [|split; [apply arrlen_zero|]].
  - intros e He.
    repeat match goal with
      | |- context [if ?b then _ else _] => destruct b
      end; repeat (apply in_or_app; left); exact He.
  - repeat match goal with
      | |- context [if ?b then _ else _] => destruct b
      end; intros H;
      repeat (apply app_eq_nil in H; destruct H as [H ?]); try discriminate;
      exact H.
Qed.

Lemma validate_throws_with_loop (config : DebateProtocolConfig) (e : string) :
  checkWeights numberToString (entries (intensitySettings config)) [] = Threw e ->
  validate numberToString config = Threw e.
Proof. intros H. unfold validate. now rewrite H. Qed.


(** An accepted update installs the merged configuration, which passed the
    weight loop without error. *)
Lemma updateConfig_accepted (updates : ConfigUpdate) (this this' : DebateConfigLoader)
    (r : UpdateResult) :
  updateConfig numberToString updates this = (Returned r, this') ->
  success r = true ->
  config this' = mergeConfig (config this) updates
  /\ checkWeights numberToString
       (entries (intensitySettings (mergeConfig (config this) updates))) []
     = Returned [].
Proof.
  unfold updateConfig.
  destruct (checkWeights numberToString
              (entries (intensitySettings (mergeConfig (config this) updates))) [])
    as [errs|e] eqn:Hloop.
  - destruct (validate_after_loop _ _ Hloop) as (validation & -> & _ & Hvalid & Hnil).
    destruct (isValid validation) eqn:Ev.
    + intros [= <- <-] _. split; [reflexivity|].
      f_equal. apply Hnil, Hvalid. reflexivity.
    + intros [= <- <-]. discriminate.
  - rewrite (validate_throws_with_loop _ _ Hloop). discriminate.
Qed.

End WithPrinter.



(** C10. When an update is accepted, a profile named in its
    intensitySettings is stored as the very object supplied, the profiles it
    does not name keep their previous objects, and a section the update
    leaves out keeps its previous value.  So an accepted update that supplies
    only the weights of the light profile leaves that profile without
    incentives and without processing, all else being as before. *)
Theorem accepted_profile_replaces_whole (numberToString : Q -> string)
    (updates : ConfigUpdate) (this this' : DebateConfigLoader)
    (r : UpdateResult) (named : IntensitySettingsUpdate) :
  updateConfig numberToString updates this = (Returned r, this') ->
  success r = true ->
  intensitySettings' updates = Some named ->
  let before := getConfig this in
  let after := getConfig this' in
  light (intensitySettings after) = spread (light (intensitySettings before)) (light' named)
  /\ moderate (intensitySettings after)
     = spread (moderate (intensitySettings before)) (moderate' named)
  /\ rigorous (intensitySettings after)
     = spread (rigorous (intensitySettings before)) (rigorous' named)
  /\ (forall supplied, light' named = Some supplied ->
        light (intensitySettings after) = supplied)
  /\ (forall supplied, moderate' named = Some supplied ->
        moderate (intensitySettings after) = supplied)
  /\ (forall supplied, rigorous' named = Some supplied ->
        rigorous (intensitySettings after) = supplied)
  /\ (antiObfuscation' updates = None -> antiObfuscation after = antiObfuscation before)
  /\ (performance' updates = None -> performance after = performance before)
  /\ (scoring' updates = None -> scoring after = scoring before)
  /\ (forall w, updates = onlyLightWeights w ->
        after = {| intensitySettings :=
                     {| light := {| weights := Some w; incentives := None;
                                    processing := None |};
                        moderate := moderate (intensitySettings before);
                        rigorous := rigorous (intensitySettings before) |};
                   antiObfuscation := antiObfuscation before;
                   performance := performance before;
                   scoring := scoring before |}).
Proof.
  intros Hupd Hsucc Hnamed. cbv zeta.
  destruct (updateConfig_accepted numberToString _ _ _ _ Hupd Hsucc) as (Hcfg & _).
  unfold getConfig. rewrite Hcfg. unfold mergeConfig. cbn.
  rewrite Hnamed. cbn.
  repeat split.
  - now intros supplied ->.
  - now intros supplied ->.
  - now intros supplied ->.
  - now intros ->.
  - now intros ->.
  - now intros ->.
  - intros w ->. injection Hnamed as <-. reflexivity.
Qed.

(** The light weights 0.5, 0.2, 0.3 of the usage guide, supplied alone, are
    accepted on the default configuration: the light profile then has neither
    incentives nor processing. *)
Lemma only_weights_witness :
  let w := {| prover := 5 # 10; estimator := 2 # 10; synthesis := 3 # 10 |} in
  let this' := snd (updateConfig showFloor (onlyLightWeights w) newLoader) in
  fst (updateConfig showFloor (onlyLightWeights w) newLoader)
  = Returned {| success := true; updateErrors := [] |}
  /\ light (intensitySettings (getConfig this'))
     = {| weights := Some w; incentives := None; processing := None |}
  /\ incentives (light (intensitySettings (getConfig this'))) = None
  /\ processing (light (intensitySettings (getConfig this'))) = None
  /\ moderate (intensitySettings (getConfig this'))
     = moderate (intensitySettings DEFAULT_DEBATE_CONFIG).
Proof.
  intros w this'.
  assert (Hupd : updateConfig showFloor (onlyLightWeights w) newLoader
                 = (Returned {| success := true; updateErrors := [] |}, this')).
  { reflexivity. }
  pose proof (accepted_profile_replaces_whole showFloor (onlyLightWeights w)
                newLoader this' _ _ Hupd eq_refl eq_refl)
    as (_ & Hmod & _ & Hlight & _).
  specialize (Hlight _ eq_refl).
  split; [now rewrite Hupd|]. split; [exact Hlight|].
  split; [now rewrite Hlight|]. split; [now rewrite Hlight|]. exact Hmod.
Defined.

End DebateProtocolFacts.

(** ** The task store *)

Module TaskModelFacts.
Import TaskModel.

Section WithClock.

Variable now : Z.

Lemma reviveDates_other (task : TaskObject) (field : string) :
  field <> "completedAt" -> field <> "updatedAt" -> field <> "createdAt" ->
  reviveDates now task !! field = task !! field.
Proof.
  intros H1 H2 H3. unfold reviveDates.
  rewrite !lookup_insert_ne by congruence. reflexivity.
Qed.

Lemma findIndex_fmap {A B} (f : A -> B) (pred : B -> bool) (l : list A) :
  findIndex pred (f <$> l) = findIndex (fun x => pred (f x)) l.
Proof.
  induction l as [|x l IH]; [reflexivity|].
  change (findIndex pred (f <$> x :: l))
    with (if pred (f x) then Some O else S <$> findIndex pred (f <$> l)).
  rewrite IH. reflexivity.
Qed.

Lemma findIndex_ext {A} (p q : A -> bool) (l : list A) :
  (forall x, p x = q x) -> findIndex p l = findIndex q l.
Proof.
  intros H. induction l as [|x l IH]; simpl; [reflexivity|].
  rewrite H, IH. reflexivity.
Qed.

(** [readTasks] does not move a task nor touch its id. *)
Lemma findIndex_readTasks (taskId : string) (file : Store) :
  findIndex (fun task => strictEqString (task !! "id") taskId) (readTasks now file)
  = findIndex (fun task => strictEqString (task !! "id") taskId) file.
Proof.
  unfold readTasks. rewrite findIndex_fmap. apply findIndex_ext.
  intros task. now rewrite reviveDates_other.
Qed.

Lemma keys_spec (o : TaskObject) (field : string) :
  In field (keys o) <-> is_Some (o !! field).
Proof.
  unfold keys. rewrite <- list_elem_of_In, list_elem_of_fmap. split.
  - intros [[k v] [-> H]]. apply elem_of_map_to_list in H. now exists v.
  - intros [v H]. exists (field, v). split; [reflexivity|].
    now apply elem_of_map_to_list.
Qed.

Lemma allowed_spec (field : string) :
  Js.arrayIncludes allowedFields field = true
  <-> field = "summary" \/ field = "relatedFiles".
Proof.
  unfold Js.arrayIncludes, allowedFields. simpl.
  rewrite !orb_true_iff, !String.eqb_eq. intuition discriminate.
Qed.

(** The list of disallowed fields is non-empty exactly when the update has a
    key other than summary and relatedFiles. *)
Lemma disallowed_spec (updates : TaskObject) :
  (0 <? Js.arrlen
          (List.filter (fun field => negb (Js.arrayIncludes allowedFields field))
                       (keys updates))) = true
  <-> exists field, is_Some (updates !! field)
                    /\ field <> "summary" /\ field <> "relatedFiles".
Proof.
  rewrite Z.ltb_lt. unfold Js.arrlen. split.
  - intros H.
    destruct (List.filter _ (keys updates)) as [|field rest] eqn:E; [simpl in H; lia|].
    assert (Hin : In field (List.filter
                     (fun field => negb (Js.arrayIncludes allowedFields field))
                     (keys updates))) by (rewrite E; now left).
    apply filter_In in Hin as [Hk Hd]. exists field.
    split; [now apply keys_spec|].
    apply negb_true_iff in Hd.
    split; intros ->; discriminate Hd.
  - intros (field & Hk & H1 & H2).
    assert (Hin : In field (List.filter
                     (fun field => negb (Js.arrayIncludes allowedFields field))
                     (keys updates))).
    { apply filter_In. split; [now apply keys_spec|].
      apply negb_true_iff, not_true_iff_false. rewrite allowed_spec. tauto. }
    destruct (List.filter _ (keys updates)); [destruct Hin|simpl; lia].
Qed.

End WithClock.

(** C9. Let the task that [updateTask] finds for an id be stored with status
    completed.  An update with any key other than summary and relatedFiles
    returns null and leaves the file as it was.  An update whose keys are
    among summary and relatedFiles is applied: the returned task is the stored
    one overwritten by the update (and by the new updatedAt), it is written at
    the same place in the file, it holds the update's values, and it is still
    completed. *)
Theorem completed_task_is_protected (now : Z) (taskId : string)
    (updates : TaskObject) (file : Store) (taskIndex : nat) (stored : TaskObject) :
  findIndex (fun task => strictEqString (task !! "id") taskId) file = Some taskIndex ->
  file !! taskIndex = Some stored ->
  stored !! "status" = Some (JString "completed") ->
  ((exists field, is_Some (updates !! field)
                  /\ field <> "summary" /\ field <> "relatedFiles") ->
   updateTask now taskId updates file = (None, file))
  /\ ((forall field, is_Some (updates !! field) ->
         field = "summary" \/ field = "relatedFiles") ->
      let merged := <["updatedAt" := JDate now]> (updates ∪ reviveDates now stored) in
      updateTask now taskId updates file
      = (Some merged, writeTasks (<[taskIndex := merged]> (readTasks now file)))
      /\ (forall field, is_Some (updates !! field) ->
            merged !! field = updates !! field)
      /\ merged !! "status" = Some (JString "completed")
      /\ merged !! "id" = stored !! "id").
Proof.
  intros Hfind Hlook Hstatus.
  assert (Hread : readTasks now file !! taskIndex = Some (reviveDates now stored)).
  { unfold readTasks. now rewrite list_lookup_fmap, Hlook. }
  assert (Hcompleted :
            strictEqString (reviveDates now stored !! "status")
                           (statusString COMPLETED) = true).
  { rewrite reviveDates_other by discriminate. now rewrite Hstatus. }
  split.
  - intros Hdis. unfold updateTask.
    rewrite findIndex_readTasks, Hfind, Hread, Hcompleted.
    apply disallowed_spec in Hdis. now rewrite Hdis.
  - intros Hallowed. cbv zeta.
    assert (Hnone : (0 <? Js.arrlen
              (List.filter (fun field => negb (Js.arrayIncludes allowedFields field))
                           (keys updates))) = false).
    { apply not_true_iff_false. rewrite disallowed_spec.
      intros (field & Hk & H1 & H2). destruct (Hallowed field Hk); contradiction. }
    split; [|split; [|split]].
    + unfold updateTask.
      rewrite findIndex_readTasks, Hfind, Hread, Hcompleted, Hnone. reflexivity.
    + intros field Hk.
      destruct (Hallowed field Hk) as [->| ->];
        rewrite lookup_insert_ne by discriminate; now apply lookup_union_l'.
    + rewrite lookup_insert_ne by discriminate.
      rewrite lookup_union_r.
      * rewrite reviveDates_other by discriminate. exact Hstatus.
      * destruct (updates !! "status") eqn:E; [|reflexivity].
        destruct (Hallowed "status" (ex_intro _ _ E)); discriminate.
    + rewrite lookup_insert_ne by discriminate.
      rewrite lookup_union_r.
      * now rewrite reviveDates_other by discriminate.
      * destruct (updates !! "id") eqn:E; [|reflexivity].
        destruct (Hallowed "id" (ex_intro _ _ E)); discriminate.
Qed.

Lemma completed_task_witness :
  updateTask 1000 "t1" renameUpdate [completedExample] = (None, [completedExample])
  /\ (let merged :=
        <["updatedAt" := JDate 1000]> (summaryUpdate ∪ reviveDates 1000 completedExample) in
      updateTask 1000 "t1" summaryUpdate [completedExample]
      = (Some merged, writeTasks (<[0%nat := merged]> (readTasks 1000 [completedExample])))
      /\ merged !! "summary" = Some (JString "Report written and reviewed")
      /\ merged !! "status" = Some (JString "completed")).
Proof.
  split.
  - apply (completed_task_is_protected 1000 "t1" renameUpdate [completedExample]
             0%nat completedExample); try reflexivity.
    exists "name". split; [now eexists|]. split; discriminate.
  - destruct (completed_task_is_protected 1000 "t1" summaryUpdate [completedExample]
                0%nat completedExample eq_refl eq_refl eq_refl) as [_ H].
    assert (Hkeys : forall field, is_Some (summaryUpdate !! field) ->
                      field = "summary" \/ field = "relatedFiles").
    { intros field [v Hv]. unfold summaryUpdate in Hv.
      apply lookup_singleton_Some in Hv as [<- _]. now left. }
    destruct (H Hkeys) as (Hupd & Happlied & Hstatus & _).
    split; [exact Hupd|]. split; [|exact Hstatus].
    rewrite (Happlied "summary") by now eexists. reflexivity.
Defined.

End TaskModelFacts.

(** ** Keywords and evidence: further properties *)

Module KeywordFacts.
Import AntiObfuscation.

Lemma lowered_not_upper (c : ascii) : Js.isUpper (Js.toLowerCaseChar c) = false.
Proof. destruct c as [[] [] [] [] [] [] [] []]; reflexivity. Qed.

Lemma words_allChars (p : ascii -> bool) (text : string) :
  allChars (fun c => negb (Js.isWordChar c) || p c) text = true ->
  forall w, In w (Reference.words text) ->
    allChars (fun c => Js.isWordChar c && p c) w = true.
Proof.
  induction text as [|c rest IH]; [intros _ w []|].
  intros Hall w. simpl in Hall. apply andb_true_iff in Hall as [Hc Hrest].
  specialize (IH Hrest).
  change (Reference.words (String c rest))
    with (if Js.isWordChar c then
            match rest with
            | String d _ =>
                if Js.isWordChar d then
                  match Reference.words rest with
                  | w :: ws => String c w :: ws
                  | [] => [String c EmptyString]
                  end
                else String c EmptyString :: Reference.words rest
            | EmptyString => [String c EmptyString]
            end
          else Reference.words rest).
  destruct (Js.isWordChar c) eqn:Ec; [|apply IH].
  simpl in Hc.
  assert (Hone : allChars (fun c => Js.isWordChar c && p c) (String c EmptyString) = true).
  { simpl. now rewrite Ec, Hc. }
  destruct rest as [|d rest'].
  - intros [<-|[]]. exact Hone.
  - destruct (Js.isWordChar d).
    + destruct (Reference.words (String d rest')) as [|w0 ws].
      * intros [<-|[]]. exact Hone.
      * intros [<-|Hin].
        -- simpl. rewrite Ec, Hc. simpl. apply IH. now left.
        -- apply IH. now right.
    + intros [<-|Hin]; [exact Hone|now apply IH].
Qed.

Lemma toLowerCase_no_upper (text : string) :
  allChars (fun c => negb (Js.isWordChar c) || negb (Js.isUpper c))
           (Js.toLowerCase text) = true.
Proof.
  induction text as [|c rest IH]; [reflexivity|].
  simpl. rewrite lowered_not_upper, IH. now rewrite orb_true_r.
Qed.

Lemma extractKeywords_In (text k : string) :
  In k (extractKeywords text)
  <-> In k (Reference.words (Js.toLowerCase text))
      /\ 2 < Js.strlen k /\ isCommonWord k = false.
Proof.
  unfold extractKeywords. cbv zeta.
  rewrite EvidenceFacts.dedupe_In, filter_In, andb_true_iff, Z.ltb_lt, negb_true_iff.
  rewrite <- EvidenceFacts.split_words, filter_In, negb_true_iff.
  split.
  - intros (Hin & Hlen & Hc). repeat split; auto.
    destruct k; [unfold Js.strlen in Hlen; simpl in Hlen; lia|reflexivity].
  - intros ((Hin & _) & Hlen & Hc). auto.
Qed.

(** X1. The keywords of a text come without repetition; each is longer than
    two characters, is no stopword and is made of the characters a-z, 0-9
    and underscore. *)
Theorem extractKeywords_wellformed (text : string) :
  NoDup (extractKeywords text)
  /\ forall k, In k (extractKeywords text) ->
       2 < Js.strlen k /\ isCommonWord k = false
       /\ allChars isLowerWordChar k = true.
Proof.
  split; [apply EvidenceFacts.dedupe_NoDup|].
  intros k Hk. apply extractKeywords_In in Hk as (Hw & Hlen & Hc).
  repeat split; auto.
  apply (words_allChars (fun c => negb (Js.isUpper c)) (Js.toLowerCase text)).
  - apply toLowerCase_no_upper.
  - exact Hw.
Qed.

(** The score of [validateTaskEvidence], one penalty per failed check. *)
Lemma validate_penalties (task : Task) (summary : string)
    (config : AntiObfuscationConfig) :
  let S := extractKeywords summary in
  let result := validateTaskEvidence task summary config in
  score result
  = 100
    - (if Qltb (alignment (extractKeywords (description task)) S) (3 # 10)
       then 20 else 0)
    - (match verificationCriteria task with
       | Some c =>
           if Js.truthy (Some c) && Qltb (alignment (extractKeywords c) S) (4 # 10)
           then 15 else 0
       | None => 0
       end)
    - (match implementationGuide task with
       | Some g =>
           if Js.truthy (Some g) && Qltb (alignment (extractKeywords g) S) (3 # 10)
           then 10 else 0
       | None => 0
       end)
  /\ (issues result = [] <-> score result = 100).
Proof.
  cbv zeta. unfold validateTaskEvidence. cbv zeta.
  destruct (Qltb (alignment (extractKeywords (description task)) _) _);
    destruct (verificationCriteria task) as [c|];
    destruct (implementationGuide task) as [g|];
    repeat match goal with
      | |- context [Js.truthy ?o] => destruct (Js.truthy o)
      | |- context [Qltb ?a ?b] => destruct (Qltb a b)
      end;
    cbn; (split; [reflexivity|split; intros H; (discriminate H || reflexivity)]).
Qed.

Lemma filter_length_mono {A} (f g : A -> bool) (l : list A) :
  (forall x, f x = true -> g x = true) ->
  (List.length (List.filter f l) <= List.length (List.filter g l))%nat.
Proof.
  intros H. induction l as [|x l IH]; simpl; [lia|].
  destruct (f x) eqn:E.
  - rewrite (H _ E). simpl. lia.
  - destruct (g x); simpl; lia.
Qed.

(** The more keywords the summary has, the higher each alignment. *)
Lemma alignment_mono (required S S' : list string) :
  (forall k, In k S -> In k S') ->
  (alignment required S <= alignment required S')%Q.
Proof.
  intros Hsub. unfold alignment.
  apply Qmult_le_compat_r.
  - rewrite <- Zle_Qle. unfold Js.arrlen. apply inj_le.
    apply filter_length_mono. intros k.
    rewrite !EvidenceFacts.arrayIncludes_In. auto.
  - apply Qinv_le_0_compat. change 0%Q with (inject_Z 0).
    rewrite <- Zle_Qle. lia.
Qed.

Lemma below_mono (required S S' : list string) (t : Q) :
  (forall k, In k S -> In k S') ->
  Qltb (alignment required S') t = true -> Qltb (alignment required S) t = true.
Proof.
  intros Hsub. rewrite !AntiObfuscationFacts.Qltb_lt.
  intros H. eapply Qle_lt_trans; [apply alignment_mono, Hsub|exact H].
Qed.

Lemma words_cons (c : ascii) (rest : string) :
  Reference.words (String c rest)
  = if Js.isWordChar c then
      match rest with
      | String d _ =>
          if Js.isWordChar d then
            match Reference.words rest with
            | w :: ws => String c w :: ws
            | [] => [String c EmptyString]
            end
          else String c EmptyString :: Reference.words rest
      | EmptyString => [String c EmptyString]
      end
    else Reference.words rest.
Proof. reflexivity. Qed.

(** Words on both sides of a character that is not a word character. *)
Lemma words_app_sep (a : string) (c : ascii) (b : string) :
  Js.isWordChar c = false ->
  Reference.words (a +:+ String c b) = (Reference.words a ++ Reference.words b)%list.
Proof.
  intros Hc. induction a as [|x a IH].
  - change (EmptyString +:+ String c b) with (String c b).
    rewrite words_cons, Hc. reflexivity.
  - change (String x a +:+ String c b) with (String x (a +:+ String c b)).
    rewrite (words_cons x (a +:+ String c b)), (words_cons x a), IH.
    destruct (Js.isWordChar x); [|reflexivity].
    destruct a as [|d a'].
    + change (EmptyString +:+ String c b) with (String c b). cbv match.
      now rewrite Hc.
    + change (String d a' +:+ String c b) with (String d (a' +:+ String c b)).
      cbv match.
      destruct (Js.isWordChar d) eqn:Hd; [|reflexivity].
      pose proof (EvidenceFacts.words_nonempty d a' Hd) as Hne.
      destruct (Reference.words (String d a')); [contradiction|reflexivity].
Qed.

(** A summary that goes on after a blank keeps all its keywords. *)
Lemma extractKeywords_app (summary more k : string) :
  In k (extractKeywords summary) ->
  In k (extractKeywords (summary +:+ " " +:+ more)).
Proof.
  rewrite !extractKeywords_In. intros (Hw & Hrest). split; [|exact Hrest].
  rewrite JsFacts.toLowerCase_app.
  change (Js.toLowerCase (" " +:+ more)) with (String " " (Js.toLowerCase more)).
  rewrite words_app_sep by reflexivity. apply in_or_app. now left.
Qed.

Lemma penalty_le (g b b' : bool) (p : Z) :
  0 <= p -> (b' = true -> b = true) ->
  (if g && b' then p else 0) <= (if g && b then p else 0).
Proof.
  intros Hp H. destruct g, b'; simpl; try lia.
  - rewrite (H eq_refl). lia.
  - destruct b; lia.
Qed.

(** X2. Text appended to a summary after a blank never lowers the evidence
    score. *)
Theorem longer_summary_keeps_evidence (task : Task) (summary more : string)
    (config : AntiObfuscationConfig) :
  score (validateTaskEvidence task summary config)
  <= score (validateTaskEvidence task (summary +:+ " " +:+ more) config).
Proof.
  destruct (validate_penalties task summary config) as [-> _].
  destruct (validate_penalties task (summary +:+ " " +:+ more) config) as [-> _].
  pose proof (fun required t =>
                below_mono required (extractKeywords summary)
                  (extractKeywords (summary +:+ " " +:+ more)) t
                  (extractKeywords_app summary more)) as Hb.
  pose proof (penalty_le true _ _ 20 ltac:(lia)
                (Hb (extractKeywords (description task)) (3 # 10))) as H1.
  cbn [andb] in H1.
  assert (H2 :
    match verificationCriteria task with
    | Some c =>
        if Js.truthy (Some c)
           && Qltb (alignment (extractKeywords c)
                      (extractKeywords (summary +:+ " " +:+ more))) (4 # 10)
        then 15 else 0
    | None => 0
    end
    <= match verificationCriteria task with
       | Some c =>
           if Js.truthy (Some c)
              && Qltb (alignment (extractKeywords c) (extractKeywords summary)) (4 # 10)
           then 15 else 0
       | None => 0
       end).
  { destruct (verificationCriteria task) as [c|]; [|lia].
    apply penalty_le; [lia|apply Hb]. }
  assert (H3 :
    match implementationGuide task with
    | Some g =>
        if Js.truthy (Some g)
           && Qltb (alignment (extractKeywords g)
                      (extractKeywords (summary +:+ " " +:+ more))) (3 # 10)
        then 10 else 0
    | None => 0
    end
    <= match implementationGuide task with
       | Some g =>
           if Js.truthy (Some g)
              && Qltb (alignment (extractKeywords g) (extractKeywords summary)) (3 # 10)
           then 10 else 0
       | None => 0
       end).
  { destruct (implementationGuide task) as [g|]; [|lia].
    apply penalty_le; [lia|apply Hb]. }
  lia.
Qed.

Lemma alignment_none_below (required S : list string) (t : Q) :
  (0 < t)%Q ->
  (forall k, In k required -> ~ In k S) ->
  Qltb (alignment required S) t = true.
Proof.
  intros Ht Hnone. apply AntiObfuscationFacts.Qltb_lt. unfold alignment.
  assert (E : List.filter (Js.arrayIncludes S) required = []).
  { induction required as [|x l IH]; [reflexivity|]. simpl.
    destruct (Js.arrayIncludes S x) eqn:Ex.
    - apply EvidenceFacts.arrayIncludes_In in Ex.
      exfalso. apply (Hnone x); [now left|exact Ex].
    - apply IH. intros k Hk. apply Hnone. now right. }
  rewrite E. unfold Js.arrlen at 1. simpl.
  unfold Qdiv. rewrite Qmult_0_l. exact Ht.
Qed.

(** X3. A description without any keyword (only stopwords and words of one
    or two characters) costs 20 points whatever the summary says: the score is
    at most 80 and the description issue is recorded. *)
Theorem keywordless_description_penalised (task : Task) (summary : string)
    (config : AntiObfuscationConfig) :
  extractKeywords (description task) = [] ->
  score (validateTaskEvidence task summary config) <= 80
  /\ In "摘要與任務描述關聯性不足"
        (issues (validateTaskEvidence task summary config)).
Proof.
  intros Hnone.
  assert (Hb : Qltb (alignment (extractKeywords (description task))
                       (extractKeywords summary)) (3 # 10) = true).
  { rewrite Hnone. apply alignment_none_below; [reflexivity|intros k []]. }
  split.
  - destruct (validate_penalties task summary config) as [-> _]. rewrite Hb.
    destruct (verificationCriteria task); destruct (implementationGuide task);
      repeat match goal with
        | |- context [if ?b then _ else _] => destruct b
        end; lia.
  - unfold validateTaskEvidence. cbv zeta. rewrite Hb.
    destruct (verificationCriteria task); destruct (implementationGuide task);
      repeat match goal with
        | |- context [if ?b then _ else _] => destruct b
        end; exact (or_introl eq_refl).
Qed.

Lemma keywordless_witness :
  score (validateTaskEvidence
           {| id := "t"; name := "n"; description := "Do it as is";
              notes := None; status := IN_PROGRESS; dependencies := [];
              createdAt := 0; updatedAt := 0; summary := None;
              analysisResult := None; implementationGuide := None;
              verificationCriteria := None |}
           "Do it as is" DEFAULT_ANTI_OBFUSCATION_CONFIG) <= 80
  /\ In "摘要與任務描述關聯性不足"
        (issues (validateTaskEvidence
           {| id := "t"; name := "n"; description := "Do it as is";
              notes := None; status := IN_PROGRESS; dependencies := [];
              createdAt := 0; updatedAt := 0; summary := None;
              analysisResult := None; implementationGuide := None;
              verificationCriteria := None |}
           "Do it as is" DEFAULT_ANTI_OBFUSCATION_CONFIG)).
Proof.
  refine (keywordless_description_penalised _ _ _ _).
  vm_compute. reflexivity.
Defined.

End KeywordFacts.

(** ** Suspicious patterns, risk and incentives: further properties *)

Module RiskFacts.
Import AntiObfuscation.

Lemma keywordHits_In (t keyword : string) (keywords : list string) :
  In keyword keywords ->
  Js.includes t (Js.toLowerCase keyword) = true ->
  In ("包含可疑關鍵字: " +:+ keyword) (keywordHits t keywords).
Proof.
  intros Hin Hinc. unfold keywordHits. apply in_flat_map.
  exists keyword. split; [exact Hin|]. rewrite Hinc. now left.
Qed.

Lemma keywordHits_length (t : string) (keywords : list string) :
  List.length (keywordHits t keywords)
  = List.length
      (List.filter (fun k => Js.includes t (Js.toLowerCase k)) keywords).
Proof.
  induction keywords as [|k ks IH]; [reflexivity|].
  simpl. rewrite length_app, IH.
  now destruct (Js.includes t (Js.toLowerCase k)).
Qed.

(** The number of configured keywords that occur in a summary. *)
Lemma detect_at_least_hits (summary : string) (config : AntiObfuscationConfig) :
  Js.arrlen
    (List.filter
       (fun k => Js.includes (Js.toLowerCase summary) (Js.toLowerCase k))
       (suspiciousPatternKeywords config))
  <= Js.arrlen (detectInconsistencies summary config).
Proof.
  unfold detectInconsistencies, Js.arrlen. cbv zeta.
  rewrite !length_app, keywordHits_length. lia.
Qed.

(** X4. A configured keyword that occurs in the summary, whatever the letter
    case on either side, is reported as a suspicious pattern; the risk is then
    not LOW.  When at least three configured keywords occur, the risk is
    HIGH. *)
Theorem configured_keyword_is_flagged (task : Task) (summary : string)
    (baseScore : Q) (config : AntiObfuscationConfig) :
  let r := performAntiObfuscationValidation task summary baseScore config in
  let occurs k := Js.includes (Js.toLowerCase summary) (Js.toLowerCase k) in
  (forall keyword,
     In keyword (suspiciousPatternKeywords config) -> occurs keyword = true ->
     In ("包含可疑關鍵字: " +:+ keyword) (suspiciousPatterns r)
     /\ manipulationRisk r <> RISK_LOW)
  /\ (3 <= Js.arrlen (List.filter occurs (suspiciousPatternKeywords config)) ->
      manipulationRisk r = RISK_HIGH).
Proof.
  cbv zeta. split.
  - intros keyword Hin Hocc.
    assert (Hhit : In ("包含可疑關鍵字: " +:+ keyword)
                      (detectInconsistencies summary config)).
    { unfold detectInconsistencies. cbv zeta. apply in_or_app. left.
      now apply keywordHits_In. }
    split.
    + unfold performAntiObfuscationValidation. cbv zeta.
      cbn [suspiciousPatterns]. apply in_or_app. now left.
    + unfold performAntiObfuscationValidation. cbv zeta. cbn [manipulationRisk].
      assert (Hn : 1 <= Js.arrlen (detectInconsistencies summary config)).
      { unfold Js.arrlen.
        destruct (detectInconsistencies summary config); [destruct Hhit|].
        simpl. lia. }
      apply Z.leb_le in Hn. rewrite Hn. cbn [orb].
      now destruct (_ || _).
  - intros H3. pose proof (detect_at_least_hits summary config) as Hle.
    unfold performAntiObfuscationValidation. cbv zeta. cbn [manipulationRisk].
    assert (Hn : (3 <=? Js.arrlen (detectInconsistencies summary config)) = true)
      by (apply Z.leb_le; lia).
    now rewrite Hn.
Qed.

Lemma configured_keyword_witness :
  let r := performAntiObfuscationValidation echoTask
             "Login is a MOCK with fake data and a todo list" 90
             DEFAULT_ANTI_OBFUSCATION_CONFIG in
  (In ("包含可疑關鍵字: " +:+ "mock") (suspiciousPatterns r)
   /\ manipulationRisk r <> RISK_LOW)
  /\ manipulationRisk r = RISK_HIGH.
Proof.
  pose proof (configured_keyword_is_flagged echoTask
                "Login is a MOCK with fake data and a todo list" 90
                DEFAULT_ANTI_OBFUSCATION_CONFIG) as [Hone Hthree].
  split.
  - apply Hone; [vm_compute; tauto|vm_compute; reflexivity].
  - apply Hthree. vm_compute. discriminate.
Defined.




(** With the evidence at the threshold or above and no pattern, the value
    before rounding is the base plus 2 at least, or 100. *)
Lemma honest_path_floor (threshold x e : Q) :
  Qle_bool threshold e = true ->
  (Qmin 100 (x + 2) <= Reference.honestAdjustment threshold x e 0)%Q.
Proof.
  intros E. unfold Reference.honestAdjustment. cbv zeta. rewrite E.
  change (0 <? 0) with false. cbv iota.
  eapply Qle_trans; [|apply Q.le_max_r].
  apply Q.min_le_compat_l.
  assert (0 <= Qmin 5 ((e - threshold) / 6))%Q; [|lra].
  apply Qle_bool_iff in E.
  apply Q.min_glb; [lra|]. apply Qle_shift_div_l; lra.
Qed.

(** Rounding a value that is the base plus 2 at least, or 100, does not go
    below a base of at most 100. *)
Lemma mathRound_above (x y : Q) :
  (x <= 100)%Q -> (Qmin 100 (x + 2) <= y)%Q ->
  (x <= inject_Z (Js.mathRound y))%Q.
Proof.
  intros Hx Hy.
  destruct (Q.min_spec 100 (x + 2)) as [[_ E]|[_ E]]; rewrite E in Hy.
  - apply JsFacts.mathRound_mono in Hy.
    change 100%Q with (inject_Z 100) in Hy at 1.
    rewrite JsFacts.mathRound_inject in Hy.
    apply Qle_trans with (inject_Z 100); [exact Hx|]. now rewrite <- Zle_Qle.
  - pose proof (Qlt_floor (y + (1 # 2))) as H. rewrite inject_Z_plus in H.
    unfold Js.mathRound. change (inject_Z 1) with 1%Q in H. lra.
Qed.



End RiskFacts.

(** ** The verdict of the validation: further properties *)

Module VerdictFacts.
Import AntiObfuscation.

(** X6. A LOW risk verdict on a base score of at most 100 means that no
    pattern was detected and the evidence reached the threshold, and it
    always carries the three truthfulness indicators, in this order, before
    the two lines of the incentive analysis. *)
Theorem low_risk_carries_all_indicators (task : Task) (summary : string)
    (baseScore : Q) (config : AntiObfuscationConfig) :
  (baseScore <= 100)%Q ->
  let r := performAntiObfuscationValidation task summary baseScore config in
  manipulationRisk r = RISK_LOW ->
  detectInconsistencies summary config = []
  /\ (evidenceThreshold config <= inject_Z (evidenceConsistency r))%Q
  /\ truthfulnessIndicators r
     = (["證據一致性達標"; "無可疑模式"; "誠實激勵評分提升"]
        ++ incentiveAnalysis (incentiveResultOf task summary baseScore config))%list
  /\ List.length (incentiveAnalysis (incentiveResultOf task summary baseScore config))
     = 2%nat.
Proof.
  intros Hbase. cbv zeta.
  unfold performAntiObfuscationValidation, incentiveResultOf. cbv zeta.
  cbn [manipulationRisk evidenceConsistency truthfulnessIndicators].
  set (e := score (validateTaskEvidence task summary config)).
  set (patterns := detectInconsistencies summary config).
  destruct (Z.leb_spec 3 (Js.arrlen patterns)) as [H3|H3]; cbn [orb].
  { destruct (e <? 50); discriminate. }
  destruct (e <? 50); [discriminate|].
  destruct (Z.leb_spec 1 (Js.arrlen patterns)) as [H1|H1]; cbn [orb];
    [discriminate|].
  destruct (Qltb (inject_Z e) (evidenceThreshold config)) eqn:Ht; [discriminate|].
  intros _.
  assert (Hnil : patterns = []).
  { destruct patterns; [reflexivity|]. unfold Js.arrlen in H1. simpl in H1. lia. }
  apply AntiObfuscationFacts.Qltb_ge in Ht.
  pose proof Ht as Hb. apply Qle_bool_iff in Hb.
  split; [exact Hnil|]. split; [exact Ht|].
  rewrite Hb. rewrite Hnil.
  change (Js.arrlen (@nil string) =? 0) with true. cbv iota.
  assert (Hq : Qle_bool baseScore
                 (inject_Z (adjustedScore
                    (applyHonestIncentives baseScore (inject_Z e) [] config)))
               = true).
  { apply Qle_bool_iff.
    rewrite AntiObfuscationFacts.applyHonestIncentives_unrounded.
    apply RiskFacts.mathRound_above; [exact Hbase|].
    now apply RiskFacts.honest_path_floor. }
  rewrite Hq. split; [reflexivity|].
  unfold applyHonestIncentives. cbv zeta. rewrite Hb. reflexivity.
Qed.

Lemma low_risk_witness :
  truthfulnessIndicators
    (performAntiObfuscationValidation echoTask echoSummary 90
       DEFAULT_ANTI_OBFUSCATION_CONFIG)
  = (["證據一致性達標"; "無可疑模式"; "誠實激勵評分提升"]
     ++ incentiveAnalysis
          (incentiveResultOf echoTask echoSummary 90
             DEFAULT_ANTI_OBFUSCATION_CONFIG))%list.
Proof.
  refine (proj1 (proj2 (proj2
    (low_risk_carries_all_indicators echoTask echoSummary 90
       DEFAULT_ANTI_OBFUSCATION_CONFIG _ _)))).
  - discriminate.
  - vm_compute. reflexivity.
Defined.

End VerdictFacts.

(** ** Letter case of the summary *)

Module CaseFacts.
Import AntiObfuscation.

Lemma toLowerCase_idem (s : string) :
  Js.toLowerCase (Js.toLowerCase s) = Js.toLowerCase s.
Proof.
  induction s as [|c s IH]; [reflexivity|]. simpl. rewrite IH. f_equal.
  unfold Js.toLowerCaseChar at 1. now rewrite KeywordFacts.lowered_not_upper.
Qed.

Lemma isSpace_lower (c : ascii) : Js.isSpace (Js.toLowerCaseChar c) = Js.isSpace c.
Proof. destruct c as [[] [] [] [] [] [] [] []]; reflexivity. Qed.

Lemma isTerminator_lower (c : ascii) :
  isTerminator (Js.toLowerCaseChar c) = isTerminator c.
Proof. destruct c as [[] [] [] [] [] [] [] []]; reflexivity. Qed.

Lemma trimStart_lower (s : string) :
  Js.trimStart (Js.toLowerCase s) = Js.toLowerCase (Js.trimStart s).
Proof.
  induction s as [|c s IH]; [reflexivity|]. simpl.
  rewrite isSpace_lower. destruct (Js.isSpace c); [exact IH|reflexivity].
Qed.

Lemma trimEnd_lower (s : string) :
  Js.trimEnd (Js.toLowerCase s) = Js.toLowerCase (Js.trimEnd s).
Proof.
  induction s as [|c s IH]; [reflexivity|]. simpl.
  rewrite IH, isSpace_lower.
  destruct (Js.trimEnd s); simpl; [destruct (Js.isSpace c)|]; reflexivity.
Qed.

Lemma trim_lower (s : string) :
  Js.trim (Js.toLowerCase s) = Js.toLowerCase (Js.trim s).
Proof. unfold Js.trim. now rewrite trimStart_lower, trimEnd_lower. Qed.

Lemma strlen_lower (s : string) : Js.strlen (Js.toLowerCase s) = Js.strlen s.
Proof.
  unfold Js.strlen. f_equal. induction s as [|c s IH]; simpl; congruence.
Qed.

Lemma splitRuns_lower (sep : ascii -> bool) (s cur : string) (inSep : bool) :
  (forall c, sep (Js.toLowerCaseChar c) = sep c) ->
  Js.splitRuns sep (Js.toLowerCase s) (Js.toLowerCase cur) inSep
  = List.map Js.toLowerCase (Js.splitRuns sep s cur inSep).
Proof.
  intros Hsep. revert cur inSep.
  induction s as [|c s IH]; intros cur inSep; [reflexivity|].
  simpl. rewrite Hsep. destruct (sep c).
  - destruct inSep; simpl; now rewrite <- (IH EmptyString).
  - rewrite <- IH. now rewrite JsFacts.toLowerCase_app.
Qed.

(** The normalised form of a phrase ignores its letter case. *)
Lemma countStep_lower (m : list (string * Z)) (p : string) :
  countStep m (Js.toLowerCase p) = countStep m p.
Proof.
  unfold countStep. cbv zeta. now rewrite trim_lower, toLowerCase_idem.
Qed.

Lemma countPhrases_lower (phrases : list string) (m : list (string * Z)) :
  fold_left countStep (List.map Js.toLowerCase phrases) m
  = fold_left countStep phrases m.
Proof.
  revert m. induction phrases as [|p ps IH]; intros m; [reflexivity|].
  simpl. now rewrite countStep_lower, IH.
Qed.

Lemma filter_map_lower (f : string -> bool) (l : list string) :
  (forall p, f (Js.toLowerCase p) = f p) ->
  List.filter f (List.map Js.toLowerCase l)
  = List.map Js.toLowerCase (List.filter f l).
Proof.
  intros Hf. induction l as [|p l IH]; [reflexivity|].
  simpl. rewrite Hf. destruct (f p); simpl; now rewrite IH.
Qed.

Lemma repeatedPhrases_lower (text : string) :
  repeatedPhrases (Js.toLowerCase text) = repeatedPhrases text.
Proof.
  unfold repeatedPhrases, countPhrases, phrasesOf, Js.split.
  change EmptyString with (Js.toLowerCase EmptyString) at 1.
  rewrite splitRuns_lower by apply isTerminator_lower.
  rewrite filter_map_lower.
  - now rewrite countPhrases_lower.
  - intros p. now rewrite trim_lower, strlen_lower.
Qed.

Lemma extractKeywords_lower (text : string) :
  extractKeywords (Js.toLowerCase text) = extractKeywords text.
Proof. unfold extractKeywords. now rewrite toLowerCase_idem. Qed.

Lemma detectInconsistencies_lower (text : string) (config : AntiObfuscationConfig) :
  detectInconsistencies (Js.toLowerCase text) config
  = detectInconsistencies text config.
Proof.
  unfold detectInconsistencies. cbv zeta.
  now rewrite toLowerCase_idem, repeatedPhrases_lower.
Qed.

Lemma validation_lower (task : Task) (summary : string) (baseScore : Q)
    (config : AntiObfuscationConfig) :
  performAntiObfuscationValidation task (Js.toLowerCase summary) baseScore config
  = performAntiObfuscationValidation task summary baseScore config.
Proof.
  unfold performAntiObfuscationValidation, validateTaskEvidence. cbv zeta.
  now rewrite detectInconsistencies_lower, extractKeywords_lower.
Qed.

(** X7. The verdict does not depend on the letter case of the summary: two
    summaries that differ only in the case of their letters get the same
    evidence score, the same patterns, the same risk and the same
    indicators. *)
Theorem verdict_ignores_letter_case (task : Task) (summary summary' : string)
    (baseScore : Q) (config : AntiObfuscationConfig) :
  Js.toLowerCase summary = Js.toLowerCase summary' ->
  performAntiObfuscationValidation task summary baseScore config
  = performAntiObfuscationValidation task summary' baseScore config.
Proof.
  intros H.
  rewrite <- (validation_lower task summary), <- (validation_lower task summary').
  now rewrite H.
Qed.

Lemma letter_case_witness :
  performAntiObfuscationValidation echoTask "IMPLEMENT Secure LOGIN. Mock data!" 90
    DEFAULT_ANTI_OBFUSCATION_CONFIG
  = performAntiObfuscationValidation echoTask "implement secure Login. MOCK DATA!" 90
      DEFAULT_ANTI_OBFUSCATION_CONFIG.
Proof.
  refine (verdict_ignores_letter_case echoTask _ _ 90
            DEFAULT_ANTI_OBFUSCATION_CONFIG _).
  vm_compute. reflexivity.
Defined.

End CaseFacts.

(** ** Summaries without keywords *)

Module EmptySummaryFacts.
Import AntiObfuscation.

(** X8. A summary without any keyword (empty, or made of stopwords and of
    words of one or two characters) is charged for every check that applies:
    20 points for the description, 15 when the task has non-empty verification
    criteria, 10 when it has a non-empty implementation guide. *)
Theorem keywordless_summary_takes_every_penalty (task : Task) (summary : string)
    (config : AntiObfuscationConfig) :
  extractKeywords summary = [] ->
  score (validateTaskEvidence task summary config)
  = 80 - (if Js.truthy (verificationCriteria task) then 15 else 0)
       - (if Js.truthy (implementationGuide task) then 10 else 0).
Proof.
  intros Hnone.
  destruct (KeywordFacts.validate_penalties task summary config) as [-> _].
  rewrite Hnone.
  assert (Hb : forall required t, (0 < t)%Q ->
                 Qltb (alignment required []) t = true).
  { intros required t Ht. apply KeywordFacts.alignment_none_below; [exact Ht|].
    intros k _ []. }
  rewrite !Hb by reflexivity.
  destruct (verificationCriteria task) as [c|];
    destruct (implementationGuide task) as [g|];
    rewrite ?Hb by reflexivity; rewrite ?andb_true_r;
    change (Js.truthy None) with false;
    repeat match goal with
      | |- context [Js.truthy (Some ?s)] => destruct (Js.truthy (Some s))
      end; reflexivity.
Qed.

Lemma keywordless_summary_witness :
  score (validateTaskEvidence echoTask "It is as it was, so be it" 
           DEFAULT_ANTI_OBFUSCATION_CONFIG) = 80 - 15 - 10.
Proof.
  refine (keywordless_summary_takes_every_penalty echoTask _
            DEFAULT_ANTI_OBFUSCATION_CONFIG _).
  vm_compute. reflexivity.
Defined.

End EmptySummaryFacts.

(** ** The verify-task tool: scoring *)

Module VerifyToolFacts.
Import VerifyTool.








Lemma profileAt_selected (config : DebateProtocol.DebateProtocolConfig)
    (intensity : option DebateIntensity) :
  let lowered :=
    option_map (fun i => Js.toLowerCase (intensityName i)) intensity in
  profileAt (DebateProtocol.intensitySettings config)
            (if Js.truthy lowered then default EmptyString lowered else "moderate")
  = Some (selectedProfile config intensity).
Proof. destruct intensity as [[]|]; reflexivity. Qed.

(** The result of [calculateDebateScore] when no debate is requested. *)
Lemma score_without_debate (config : DebateProtocol.DebateProtocolConfig)
    (task : Task) (summary : string) (baseScore : Q)
    (params : option DebateParams) :
  debateRequested params = false ->
  calculateDebateScore config task summary baseScore params
  = let result :=
      AntiObfuscation.performAntiObfuscationValidation task summary baseScore
        (VerifyTask.antiObfuscationConfigOf config) in
    Returned {| finalScore := applyAntiObfuscationAdjustment baseScore result;
                debateBreakdown := None;
                antiObfuscationResult := Some result |}.
Proof.
  unfold debateRequested, calculateDebateScore. cbv zeta.
  destruct params as [p|]; [|reflexivity].
  destruct (enableDebateProtocol p); [|reflexivity]. cbn [negb andb].
  destruct (proverScore' p); [|reflexivity].
  destruct (estimatorScore' p); [|reflexivity].
  rewrite !bool_decide_eq_true_2 by eauto. discriminate.
Qed.




(** X11. [calculateDebateScore] throws exactly when a debate is requested
    (the protocol enabled and both scores supplied) and the profile of the
    requested intensity, the moderate one when none is named, lacks its
    weights or its incentives; in every other case it returns. *)
Theorem debate_scoring_throws_iff (config : DebateProtocol.DebateProtocolConfig)
    (task : Task) (summary : string) (baseScore : Q)
    (params : option DebateParams) :
  let profile := selectedProfile config (requestedIntensity params) in
  (exists e, calculateDebateScore config task summary baseScore params = Threw e)
  <-> debateRequested params = true
      /\ (DebateProtocol.weights profile = None
          \/ DebateProtocol.incentives profile = None).
Proof.
  cbv zeta. destruct (debateRequested params) eqn:Hd.
  - unfold calculateDebateScore. cbv zeta. unfold debateRequested in Hd.
    destruct params as [p|]; [|discriminate Hd]. cbn [requestedIntensity].
    destruct (enableDebateProtocol p); [|discriminate Hd]. cbn [negb].
    destruct (proverScore' p) as [ps|];
      [|rewrite bool_decide_eq_false_2 in Hd by (intros [? ?]; discriminate);
        discriminate Hd].
    destruct (estimatorScore' p) as [es|];
      [|rewrite bool_decide_eq_false_2 in Hd by (intros [? ?]; discriminate);
        rewrite andb_false_r in Hd; discriminate Hd].
    rewrite profileAt_selected.
    destruct (DebateProtocol.incentives (selectedProfile config (debateIntensity p)))
      as [inc|];
      destruct (DebateProtocol.weights (selectedProfile config (debateIntensity p)))
        as [w|]; split;
      try (intros [e He]; discriminate He);
      try (intros [_ [H|H]]; discriminate H);
      try (intros _; eauto).
  - rewrite score_without_debate by exact Hd. cbv zeta. split.
    + intros [e He]. discriminate He.
    + intros [H _]. discriminate H.
Qed.

Lemma debate_scoring_throws_witness :
  exists e,
    calculateDebateScore
      (DebateProtocol.getConfig
         (snd (DebateProtocol.updateConfig showFloor
                 (onlyLightWeights
                    {| DebateProtocol.prover := 5 # 10;
                       DebateProtocol.estimator := 3 # 10;
                       DebateProtocol.synthesis := 2 # 10 |})
                 DebateProtocol.newLoader)))
      echoTask echoSummary 90 (Some lightDebate)
    = Threw e.
Proof.
  apply (proj2 (debate_scoring_throws_iff _ echoTask echoSummary 90
                  (Some lightDebate))).
  split; [reflexivity|]. right. vm_compute. reflexivity.
Defined.

Lemma confidence_score_cases (finalScore : Z) (debateResult : DebateResult) :
  exists delta,
    -25 <= delta <= 8
    /\ (forall result, antiObfuscationResult debateResult = Some result ->
          manipulationRisk result = RISK_HIGH -> delta <= -10)
    /\ calculateCompletionConfidence finalScore debateResult
       = (if 90 <=? finalScore + delta then CONFIDENCE_HIGH
          else if 75 <=? finalScore + delta then CONFIDENCE_MEDIUM
          else CONFIDENCE_LOW).
Proof.
  unfold calculateCompletionConfidence. cbv zeta.
  set (d1 := match debateBreakdown debateResult with
             | Some breakdown => _
             | None => finalScore
             end).
  assert (H1 : exists a, -10 <= a <= 5 /\ d1 = finalScore + a).
  { subst d1. destruct (debateBreakdown debateResult) as [b|].
    - destruct (_ && _); [exists 5; lia|].
      destruct (_ || _); [exists (-10); lia|exists 0; lia].
    - exists 0. lia. }
  destruct H1 as (a & Ha & ->).
  assert (Hpick : forall d,
            (if 90 <=? finalScore + a + d then CONFIDENCE_HIGH
             else if 75 <=? finalScore + a + d then CONFIDENCE_MEDIUM
             else CONFIDENCE_LOW)
            = (if 90 <=? finalScore + (a + d) then CONFIDENCE_HIGH
               else if 75 <=? finalScore + (a + d) then CONFIDENCE_MEDIUM
               else CONFIDENCE_LOW)).
  { intros d. now rewrite Z.add_assoc. }
  destruct (antiObfuscationResult debateResult) as [result|].
  - destruct (manipulationRisk result) eqn:Hrisk; cbn [riskEqb andb orb].
    + destruct (80 <? _).
      * exists (a + 3). repeat split; try lia; try apply Hpick.
        intros ? [= <-]. congruence.
      * destruct (_ <? 50).
        -- exists (a + -15). repeat split; try lia; apply (Hpick (-15)).
        -- exists (a + 0). repeat split; try lia.
           ++ intros ? [= <-]. congruence.
           ++ rewrite <- Hpick. now rewrite Z.add_0_r.
    + destruct (_ <? 50).
      * exists (a + -15). repeat split; try lia; apply (Hpick (-15)).
      * exists (a + 0). repeat split; try lia.
        -- intros ? [= <-]. congruence.
        -- rewrite <- Hpick. now rewrite Z.add_0_r.
    + exists (a + -15). repeat split; try lia; apply (Hpick (-15)).
  - exists (a + 0). repeat split; try lia.
    + intros ? [=].
    + rewrite <- Hpick. now rewrite Z.add_0_r.
Qed.

(** X12. The completion confidence is HIGH only for a final score of 82 or
    more, and under HIGH manipulation risk only for 100 or more; it is LOW for
    every final score below 67 and never LOW for a final score of 100 or
    more. *)
Theorem confidence_needs_score (finalScore : Z) (debateResult : DebateResult) :
  let confidence := calculateCompletionConfidence finalScore debateResult in
  (confidence = CONFIDENCE_HIGH -> 82 <= finalScore)
  /\ (confidence = CONFIDENCE_HIGH ->
      forall result, antiObfuscationResult debateResult = Some result ->
        manipulationRisk result = RISK_HIGH -> 100 <= finalScore)
  /\ (finalScore < 67 -> confidence = CONFIDENCE_LOW)
  /\ (100 <= finalScore -> confidence <> CONFIDENCE_LOW).
Proof.
  cbv zeta.
  destruct (confidence_score_cases finalScore debateResult)
    as (delta & Hd & Hhigh & ->).
  destruct (Z.leb_spec 90 (finalScore + delta));
    destruct (Z.leb_spec 75 (finalScore + delta));
    repeat split; intros; try discriminate; try lia; try reflexivity.
  all: try (specialize (Hhigh _ ltac:(eassumption) ltac:(eassumption)); lia).
Qed.

Lemma confidence_witness :
  calculateCompletionConfidence 95
    {| finalScore := 95; debateBreakdown := None; antiObfuscationResult := None |}
  = CONFIDENCE_HIGH
  /\ 82 <= 95.
Proof.
  split; [reflexivity|].
  refine (proj1 (confidence_needs_score 95
            {| finalScore := 95; debateBreakdown := None;
               antiObfuscationResult := None |}) _).
  reflexivity.
Defined.

End VerifyToolFacts.

(** ** The configuration loader: further properties *)

Module LoaderFacts.
Import DebateProtocol.

Section WithPrinter.
Variable numberToString : Q -> string.



Lemma Qltb_false (x y : Q) : AntiObfuscation.Qltb x y = false <-> (y <= x)%Q.
Proof.
  unfold AntiObfuscation.Qltb. rewrite negb_false_iff. apply Qle_bool_iff.
Qed.




Lemma spread_idem {A} (base : A) (update : option A) :
  spread (spread base update) update = spread base update.
Proof. now destruct update. Qed.

Lemma mergeConfig_idem (base : DebateProtocolConfig) (updates : ConfigUpdate) :
  mergeConfig (mergeConfig base updates) updates = mergeConfig base updates.
Proof.
  unfold mergeConfig. cbv zeta. cbn [intensitySettings antiObfuscation performance scoring].
  destruct (intensitySettings' updates) as [i|];
    destruct (antiObfuscation' updates) as [a|];
    destruct (performance' updates) as [p|];
    destruct (scoring' updates) as [s|];
    cbn; now rewrite ?spread_idem.
Qed.



(** X15. An update that was accepted is accepted again when it is applied a
    second time, and the second application changes nothing. *)
Theorem accepted_update_is_idempotent (updates : ConfigUpdate)
    (this this' : DebateConfigLoader) (r : UpdateResult) :
  updateConfig numberToString updates this = (Returned r, this') ->
  success r = true ->
  updateConfig numberToString updates this' = (Returned r, this').
Proof.
  unfold updateConfig. cbv zeta.
  destruct (validate numberToString (mergeConfig (config this) updates))
    as [v|e] eqn:Hv; [|discriminate].
  destruct (isValid v) eqn:Hvalid.
  - intros [= <- <-] _. cbn [config]. rewrite mergeConfig_idem, Hv, Hvalid.
    reflexivity.
  - intros [= <- <-]. discriminate.
Qed.

End WithPrinter.



Lemma idempotent_witness :
  updateConfig showFloor raiseThreshold
    (snd (updateConfig showFloor raiseThreshold newLoader))
  = (Returned {| success := true; updateErrors := [] |},
     snd (updateConfig showFloor raiseThreshold newLoader)).
Proof.
  apply (accepted_update_is_idempotent showFloor raiseThreshold newLoader);
    reflexivity.
Defined.

End LoaderFacts.

(** ** The cognitive router: further properties *)

Module RoutingFacts.
Import CognitiveRouter.

Lemma target_of_level (task : Task) :
  let a := assessTaskComplexity task in
  (mcpServerTarget a = supabase <-> complexityScore a <= 25)
  /\ (mcpServerTarget a = graphiti <-> 50 < complexityScore a)
  /\ (level a = VERY_HIGH <-> 75 < complexityScore a).
Proof.
  cbv zeta.
  destruct (CognitiveRouterFacts.assess_shape task) as (Hlv & Hroute & _ & _).
  destruct (CognitiveRouterFacts.levelOfScore_cases
              (complexityScore (assessTaskComplexity task)))
    as [[E H]|[[E H]|[[E H]|[E H]]]];
    rewrite <- Hlv in E; rewrite E in Hroute |- *;
    destruct Hroute as (_ & -> & _);
    repeat split; intros; try discriminate; try lia; reflexivity.
Qed.

(** X16. The complexity score lies between 15 and 100.  A task is routed to
    supabase exactly when its description is shorter than 500 characters and
    either it has fewer than 2 dependencies and notes of at most 200
    characters, or no temporal keyword occurs and it has fewer than 2
    dependencies with notes of at most 500 characters or fewer than 5
    dependencies with notes of at most 200 characters.  The level VERY_HIGH
    needs a description of 500 characters at least and 2 dependencies at
    least. *)
Theorem supabase_routing_iff (task : Task) :
  let a := assessTaskComplexity task in
  let d := Js.strlen (description task) in
  let n := Js.arrlen (dependencies task) in
  let l := match notes task with Some s => Js.strlen s | None => 0 end in
  15 <= complexityScore a <= 100
  /\ (mcpServerTarget a = supabase
      <-> d < 500
          /\ ((n < 2 /\ l <= 200)
              \/ (hasTemporalContext task = false
                  /\ ((n < 2 /\ l <= 500) \/ (n < 5 /\ l <= 200)))))
  /\ (level a = VERY_HIGH -> 500 <= d /\ 2 <= n).
Proof.
  cbv zeta.
  destruct (target_of_level task) as (-> & _ & ->).
  rewrite CognitiveRouterFacts.assess_score.
  destruct (CognitiveRouterFacts.descriptionPoints_cases
              (Js.strlen (description task))) as [[Hd ->]|[[Hd ->]|[Hd ->]]];
    destruct (CognitiveRouterFacts.dependencyPoints_cases
                (Js.arrlen (dependencies task))) as [[Hn ->]|[[Hn ->]|[Hn ->]]];
    destruct (CognitiveRouterFacts.notesPoints_cases
                (match notes task with Some s => Js.strlen s | None => 0 end))
      as [[Hl ->]|[[Hl ->]|[Hl ->]]];
    destruct (hasTemporalContext task);
    (split; [lia|split; [split|lia]]);
    intuition (try lia; try discriminate).
Qed.

Lemma strlen_app (s t : string) : Js.strlen (s +:+ t) = Js.strlen s + Js.strlen t.
Proof.
  unfold Js.strlen. rewrite <- Nat2Z.inj_add. f_equal.
  induction s as [|c s IH]; [reflexivity|].
  change (String c s +:+ t) with (String c (s +:+ t)). simpl. now rewrite IH.
Qed.

Lemma strlen_nonneg (s : string) : 0 <= Js.strlen s.
Proof. unfold Js.strlen. lia. Qed.

Lemma descriptionPoints_mono (m n : Z) :
  m <= n -> descriptionPoints m <= descriptionPoints n.
Proof.
  intros H.
  destruct (CognitiveRouterFacts.descriptionPoints_cases m) as [[? ->]|[[? ->]|[? ->]]];
    destruct (CognitiveRouterFacts.descriptionPoints_cases n) as [[? ->]|[[? ->]|[? ->]]];
    lia.
Qed.

Lemma dependencyPoints_mono (m n : Z) :
  m <= n -> dependencyPoints m <= dependencyPoints n.
Proof.
  intros H.
  destruct (CognitiveRouterFacts.dependencyPoints_cases m) as [[? ->]|[[? ->]|[? ->]]];
    destruct (CognitiveRouterFacts.dependencyPoints_cases n) as [[? ->]|[[? ->]|[? ->]]];
    lia.
Qed.

Lemma notesPoints_mono (m n : Z) : m <= n -> notesPoints m <= notesPoints n.
Proof.
  intros H.
  destruct (CognitiveRouterFacts.notesPoints_cases m) as [[? ->]|[[? ->]|[? ->]]];
    destruct (CognitiveRouterFacts.notesPoints_cases n) as [[? ->]|[[? ->]|[? ->]]];
    lia.
Qed.

Lemma truthy_app (n more : string) :
  Js.truthy (Some n) = true -> Js.truthy (Some (n +:+ more)) = true.
Proof. destruct n; [discriminate|reflexivity]. Qed.

(** A temporal keyword found in a task is found in its extension. *)
Lemma hasTemporalContext_extend (task : Task) (moreDescription moreNotes : string)
    (moreDependencies : list TaskDependency) :
  hasTemporalContext task = true ->
  hasTemporalContext (extendTask task moreDescription moreNotes moreDependencies)
  = true.
Proof.
  unfold hasTemporalContext. rewrite !existsb_exists.
  intros (keyword & Hin & H). exists keyword. split; [exact Hin|].
  cbn [extendTask description notes].
  apply orb_true_iff in H as [H|H]; apply orb_true_iff.
  - left. rewrite JsFacts.toLowerCase_app. now apply JsFacts.includes_app_l.
  - right. destruct (notes task) as [n|]; [|discriminate H].
    apply andb_true_iff in H as [Ht Hi]. apply andb_true_iff. split.
    + now apply truthy_app.
    + rewrite JsFacts.toLowerCase_app. now apply JsFacts.includes_app_l.
Qed.

(** X17. Appending text to the description or to the notes of a task, or
    adding dependencies, never lowers its complexity score: a task routed to
    graphiti stays there, and a task routed to supabase afterwards was routed
    to supabase before. *)
Theorem extending_a_task_never_lowers_score (task : Task)
    (moreDescription moreNotes : string) (moreDependencies : list TaskDependency) :
  let a := assessTaskComplexity task in
  let a' := assessTaskComplexity
              (extendTask task moreDescription moreNotes moreDependencies) in
  complexityScore a <= complexityScore a'
  /\ (mcpServerTarget a = graphiti -> mcpServerTarget a' = graphiti)
  /\ (mcpServerTarget a' = supabase -> mcpServerTarget a = supabase).
Proof.
  cbv zeta.
  assert (Hscore : complexityScore (assessTaskComplexity task)
                   <= complexityScore
                        (assessTaskComplexity
                           (extendTask task moreDescription moreNotes
                              moreDependencies))).
  { rewrite !CognitiveRouterFacts.assess_score.
    cbn [extendTask description notes dependencies].
    assert (H1 := descriptionPoints_mono (Js.strlen (description task))
                    (Js.strlen (description task +:+ moreDescription))).
    rewrite strlen_app in H1. specialize (H1 ltac:(pose proof (strlen_nonneg moreDescription); lia)).
    rewrite strlen_app.
    assert (H2 : dependencyPoints (Js.arrlen (dependencies task))
                 <= dependencyPoints
                      (Js.arrlen (dependencies task ++ moreDependencies)%list)).
    { apply dependencyPoints_mono. unfold Js.arrlen. rewrite length_app. lia. }
    assert (H3 : notesPoints (match notes task with
                              | Some n => Js.strlen n
                              | None => 0
                              end)
                 <= notesPoints
                      (match (match notes task with
                              | Some n => Some (n +:+ moreNotes)
                              | None => Some moreNotes
                              end) with
                       | Some n => Js.strlen n
                       | None => 0
                       end)).
    { apply notesPoints_mono. destruct (notes task) as [n|].
      - rewrite strlen_app. pose proof (strlen_nonneg moreNotes). lia.
      - apply strlen_nonneg. }
    pose proof (hasTemporalContext_extend task moreDescription moreNotes
                  moreDependencies) as H4.
    cbn [extendTask] in H4.
    destruct (hasTemporalContext task).
    - rewrite (H4 eq_refl). lia.
    - destruct (hasTemporalContext _); lia. }
  split; [exact Hscore|].
  destruct (target_of_level task) as (-> & -> & _).
  destruct (target_of_level
              (extendTask task moreDescription moreNotes moreDependencies))
    as (-> & -> & _).
  lia.
Qed.

End RoutingFacts.

(** ** The operations on the task store *)

Module TaskStoreFacts.
Import TaskModel TaskStore.

Lemma find_findIndex_None {A} (pred : A -> bool) (l : list A) :
  List.find pred l = None <-> findIndex pred l = None.
Proof.
  induction l as [|x l IH]; simpl; [tauto|].
  destruct (pred x); [split; discriminate|].
  rewrite IH. destruct (findIndex pred l); simpl; split; congruence.
Qed.

Lemma find_findIndex_Some {A} (pred : A -> bool) (l : list A) (x : A) :
  List.find pred l = Some x
  <-> exists i, findIndex pred l = Some i /\ l !! i = Some x.
Proof.
  induction l as [|y l IH]; simpl.
  - split; [discriminate|intros (i & H & _); discriminate].
  - destruct (pred y).
    + split.
      * intros [= <-]. now exists O.
      * intros (i & [= <-] & H). exact H.
    + rewrite IH. split.
      * intros (i & -> & H). now exists (S i).
      * intros (i & H & Hl). destruct (findIndex pred l) as [j|]; [|discriminate H].
        injection H as <-. now exists j.
Qed.

Section WithClock.

Variable now : Z.
Variable show : option JsValue -> string.

(** What [updateTask] does once the task is found. *)
Lemma updateTask_found (taskId : string) (updates : TaskObject) (file : Store)
    (stored : TaskObject) :
  getTaskById now taskId file = Some stored ->
  exists taskIndex,
    findIndex (fun task => strictEqString (task !! "id") taskId) (readTasks now file)
    = Some taskIndex
    /\ readTasks now file !! taskIndex = Some stored
    /\ updateTask now taskId updates file
       = if strictEqString (stored !! "status") (statusString COMPLETED)
            && (0 <? Js.arrlen
                       (List.filter
                          (fun field => negb (Js.arrayIncludes allowedFields field))
                          (keys updates)))
         then (None, file)
         else (Some (<["updatedAt" := JDate now]> (updates ∪ stored)),
               writeTasks (<[taskIndex := <["updatedAt" := JDate now]> (updates ∪ stored)]>
                             (readTasks now file))).
Proof.
  intros Hfind. apply find_findIndex_Some in Hfind as (i & Hi & Hl).
  exists i. split; [exact Hi|]. split; [exact Hl|].
  unfold updateTask. cbv zeta. now rewrite Hi, Hl.
Qed.

Lemma updateTask_missing (taskId : string) (updates : TaskObject) (file : Store) :
  getTaskById now taskId file = None ->
  updateTask now taskId updates file = (None, file).
Proof.
  intros H. apply find_findIndex_None in H.
  unfold updateTask. cbv zeta. now rewrite H.
Qed.

(** X18. When no stored task has the id, every operation answers with null
    or with a failure and leaves the file exactly as it was. *)
Theorem unknown_id_changes_nothing (taskId : string) (file : Store) :
  getTaskById now taskId file = None ->
  (forall updates, updateTask now taskId updates file = (None, file))
  /\ (forall status, updateTaskStatus now taskId status file = (None, file))
  /\ (forall summary, updateTaskSummary now taskId summary file = (None, file))
  /\ (forall summary metadata,
        updateTaskWithDebateResults now taskId summary metadata file = (None, file))
  /\ (forall updates,
        updateTaskContent now taskId updates file
        = ({| success := false; message := "找不到指定任務"; task := None |}, file))
  /\ (forall relatedFiles,
        updateTaskRelatedFiles now taskId relatedFiles file
        = ({| success := false; message := "找不到指定任務"; task := None |}, file))
  /\ deleteTask now show taskId file
     = (Returned {| success := false; message := "找不到指定任務"; task := None |},
        file).
Proof.
  intros H. pose proof (updateTask_missing taskId) as Hu.
  repeat split; intros;
    try (unfold updateTaskStatus, updateTaskSummary, updateTaskWithDebateResults;
         cbv zeta; now apply Hu).
  - unfold updateTaskContent. now rewrite H.
  - unfold updateTaskRelatedFiles. now rewrite H.
  - unfold deleteTask. cbv zeta. apply find_findIndex_None in H. now rewrite H.
Qed.

Lemma completed_rejects (taskId : string) (updates : TaskObject) (file : Store)
    (stored : TaskObject) (field : string) :
  getTaskById now taskId file = Some stored ->
  stored !! "status" = Some (JString "completed") ->
  is_Some (updates !! field) -> field <> "summary" -> field <> "relatedFiles" ->
  updateTask now taskId updates file = (None, file).
Proof.
  intros Hfind Hstatus Hfield H1 H2.
  destruct (updateTask_found taskId updates file stored Hfind) as (i & _ & _ & ->).
  rewrite Hstatus. cbn [strictEqString statusString]. rewrite String.eqb_refl.
  rewrite (proj2 (TaskModelFacts.disallowed_spec updates)); [reflexivity|].
  exists field. auto.
Qed.

Lemma status_update_refused (taskId : string) (file : Store) (stored : TaskObject)
    (status : TaskStatus) :
  getTaskById now taskId file = Some stored ->
  stored !! "status" = Some (JString "completed") ->
  updateTaskStatus now taskId status file = (None, file).
Proof.
  intros Hfind Hstatus. unfold updateTaskStatus. cbv zeta.
  apply (completed_rejects taskId _ file stored "status" Hfind Hstatus);
    [|discriminate|discriminate].
  destruct status; [| |rewrite lookup_insert_ne by discriminate|];
    rewrite lookup_singleton; eauto.
Qed.

(** X19. A task stored as completed is frozen: a change of status (to any
    status), completion metadata, debate results, a change of content, new
    related files through [updateTaskRelatedFiles] and a deletion are all
    refused, and the file stays exactly as it was. *)
Theorem completed_task_is_frozen (taskId : string) (file : Store)
    (stored : TaskObject) :
  getTaskById now taskId file = Some stored ->
  stored !! "status" = Some (JString "completed") ->
  (forall status, updateTaskStatus now taskId status file = (None, file))
  /\ (forall metadata,
        updateTaskCompletionMetadata now taskId metadata file = (None, file))
  /\ (forall summary metadata,
        updateTaskWithDebateResults now taskId summary metadata file = (None, file))
  /\ (forall updates,
        updateTaskContent now taskId updates file
        = ({| success := false; message := "無法更新已完成的任務"; task := None |},
           file))
  /\ (forall relatedFiles,
        updateTaskRelatedFiles now taskId relatedFiles file
        = ({| success := false; message := "無法更新已完成的任務"; task := None |},
           file))
  /\ deleteTask now show taskId file
     = (Returned {| success := false; message := "無法刪除已完成的任務";
                    task := None |}, file).
Proof.
  intros Hfind Hstatus.
  assert (Hc : strictEqString (stored !! "status") (statusString COMPLETED) = true).
  { now rewrite Hstatus. }
  split; [|split; [|split; [|split; [|split]]]].
  - intros status. now apply (status_update_refused taskId file stored).
  - intros metadata. unfold updateTaskCompletionMetadata.
    apply (completed_rejects taskId _ file stored "completionMetadata" Hfind Hstatus);
      [|discriminate|discriminate].
    rewrite lookup_singleton. eauto.
  - intros summary metadata. unfold updateTaskWithDebateResults.
    apply (completed_rejects taskId _ file stored "status" Hfind Hstatus);
      [|discriminate|discriminate].
    rewrite lookup_insert. eauto.
  - intros updates. unfold updateTaskContent. now rewrite Hfind, Hc.
  - intros relatedFiles. unfold updateTaskRelatedFiles. now rewrite Hfind, Hc.
  - unfold deleteTask. cbv zeta.
    apply find_findIndex_Some in Hfind as (i & -> & ->). now rewrite Hc.
Qed.

End WithClock.

Lemma stringify_lookup (o : TaskObject) (key : string) (v : JsValue) :
  o !! key = Some v -> isUndefined v = false -> stringifyTask o !! key = Some v.
Proof.
  intros Hl Hv. unfold stringifyTask. apply map_lookup_filter_Some. now split.
Qed.

Lemma stringify_strictEq (o : TaskObject) (key s : string) :
  strictEqString (stringifyTask o !! key) s = strictEqString (o !! key) s.
Proof.
  destruct (o !! key) as [v|] eqn:E.
  - destruct (isUndefined v) eqn:Ev.
    + destruct v; try discriminate Ev.
      destruct (stringifyTask o !! key) as [w|] eqn:Ew; [|reflexivity].
      apply map_lookup_filter_Some in Ew as [Ew Hw]. cbn in Hw. congruence.
    + now rewrite (stringify_lookup o key v E Ev).
  - destruct (stringifyTask o !! key) as [w|] eqn:Ew; [|reflexivity].
    apply map_lookup_filter_Some in Ew as [Ew _]. congruence.
Qed.

Lemma findIndex_insert {A} (pred : A -> bool) (l : list A) (i : nat) (x : A) :
  findIndex pred l = Some i -> pred x = true ->
  findIndex pred (<[i := x]> l) = Some i.
Proof.
  revert i. induction l as [|y l IH]; intros i; simpl; [discriminate|].
  destruct (pred y) eqn:Ey.
  - intros [= <-] Hx. simpl. now rewrite Hx.
  - destruct (findIndex pred l) as [j|] eqn:Ej; [|discriminate].
    intros [= <-] Hx. simpl. rewrite Ey, (IH j eq_refl Hx). reflexivity.
Qed.

Lemma findIndex_lt {A} (pred : A -> bool) (l : list A) (i : nat) :
  findIndex pred l = Some i -> (i < List.length l)%nat.
Proof.
  revert i. induction l as [|y l IH]; intros i; simpl; [discriminate|].
  destruct (pred y); [intros [= <-]; lia|].
  destruct (findIndex pred l) as [j|]; [|discriminate].
  intros [= <-]. specialize (IH j eq_refl). lia.
Qed.

(** The task that an update wrote is found again under its id, as written
    (dates apart). *)
Lemma written_task_found (now now' : Z) (taskId : string) (file : Store)
    (taskIndex : nat) (written : TaskObject) :
  findIndex (fun task => strictEqString (task !! "id") taskId) (readTasks now file)
  = Some taskIndex ->
  strictEqString (written !! "id") taskId = true ->
  getTaskById now' taskId
    (writeTasks (<[taskIndex := written]> (readTasks now file)))
  = Some (reviveDates now' (stringifyTask written)).
Proof.
  intros Hi Hid. unfold getTaskById. apply find_findIndex_Some.
  exists taskIndex. split.
  - rewrite TaskModelFacts.findIndex_readTasks. unfold writeTasks.
    rewrite TaskModelFacts.findIndex_fmap.
    rewrite (TaskModelFacts.findIndex_ext _
               (fun task => strictEqString (task !! "id") taskId))
      by (intros x; apply stringify_strictEq).
    now apply findIndex_insert.
  - unfold readTasks at 1, writeTasks. rewrite !list_lookup_fmap.
    rewrite list_lookup_insert_eq by (eapply findIndex_lt; exact Hi).
    reflexivity.
Qed.

(** X20. When [updateTaskWithDebateResults] has stored its results, the task
    is stored as completed with the summary given, and the call of
    [updateTaskStatus] that the verify tool makes next, like any later change
    of status, is refused and leaves the file as it is. *)
Theorem status_update_after_results_is_refused (now now' : Z) (taskId : string)
    (summary : string) (metadata : JsValue) (file file' : Store)
    (updated : TaskObject) :
  updateTaskWithDebateResults now taskId summary metadata file
  = (Some updated, file') ->
  (exists stored,
     getTaskById now' taskId file' = Some stored
     /\ stored !! "status" = Some (JString "completed")
     /\ stored !! "summary" = Some (JString summary))
  /\ (forall status, updateTaskStatus now' taskId status file' = (None, file')).
Proof.
  unfold updateTaskWithDebateResults.
  set (updates := <["status" := _]> _).
  unfold updateTask. cbv zeta.
  destruct (findIndex _ (readTasks now file)) as [i|] eqn:Hi; [|discriminate].
  destruct (readTasks now file !! i) as [stored|] eqn:Hl; [|discriminate].
  destruct (_ && _); [discriminate|].
  intros [= <- <-].
  assert (Hid : strictEqString
                  ((<["updatedAt" := JDate now]> (updates ∪ stored)) !! "id") taskId
                = true).
  { rewrite lookup_insert_ne by discriminate.
    assert (Hnone : updates !! "id" = None) by reflexivity.
    rewrite (lookup_union_r _ _ _ Hnone).
    assert (Hp : List.find (fun task => strictEqString (task !! "id") taskId)
                   (readTasks now file) = Some stored).
    { apply find_findIndex_Some. eauto. }
    apply find_some in Hp as [_ Hp]. exact Hp. }
  pose proof (written_task_found now now' taskId file i _ Hi Hid) as Hfound.
  assert (Hstatus : reviveDates now'
                      (stringifyTask (<["updatedAt" := JDate now]> (updates ∪ stored)))
                    !! "status" = Some (JString "completed")).
  { rewrite TaskModelFacts.reviveDates_other by discriminate.
    apply stringify_lookup; [|reflexivity].
    rewrite lookup_insert_ne by discriminate.
    apply lookup_union_Some_l. reflexivity. }
  split.
  - eexists. split; [exact Hfound|]. split; [exact Hstatus|].
    rewrite TaskModelFacts.reviveDates_other by discriminate.
    apply stringify_lookup; [|reflexivity].
    rewrite lookup_insert_ne by discriminate.
    apply lookup_union_Some_l. reflexivity.
  - intros status. exact (status_update_refused now' taskId _ _ status Hfound Hstatus).
Qed.

Lemma status_after_results_witness :
  updateTaskStatus 40 "t2" COMPLETED
    (snd (updateTaskWithDebateResults 30 "t2" "Done" JNull
            [completedExample; inProgressExample]))
  = (None,
     snd (updateTaskWithDebateResults 30 "t2" "Done" JNull
            [completedExample; inProgressExample])).
Proof.
  pose proof (eq_refl :
    match fst (updateTaskWithDebateResults 30 "t2" "Done" JNull
                 [completedExample; inProgressExample]) with
    | Some _ => true
    | None => false
    end = true) as Hsome.
  destruct (updateTaskWithDebateResults 30 "t2" "Done" JNull
              [completedExample; inProgressExample]) as [[updated|] file'] eqn:E.
  - cbn [snd].
    exact (proj2 (status_update_after_results_is_refused 30 40 "t2" "Done" JNull
                    _ file' updated E) COMPLETED).
  - discriminate Hsome.
Defined.

Lemma completed_frozen_witness :
  updateTaskStatus 30 "t1" IN_PROGRESS [completedExample] = (None, [completedExample]).
Proof.
  refine (proj1 (completed_task_is_frozen 30 (fun _ => EmptyString) "t1"
                   [completedExample] (reviveDates 30 completedExample) _ _)
                IN_PROGRESS).
  - reflexivity.
  - reflexivity.
Defined.

Lemma unknown_id_witness :
  updateTaskStatus 30 "t2" COMPLETED [completedExample] = (None, [completedExample]).
Proof.
  refine (proj1 (proj2 (unknown_id_changes_nothing 30 (fun _ => EmptyString)
                          "t2" [completedExample] _)) COMPLETED).
  reflexivity.
Defined.

End TaskStoreFacts.

(** ** Changing the content of a task, deleting a task *)

Module TaskContentFacts.
Import TaskModel TaskStore.

Lemma keys_empty (o : TaskObject) : (Js.arrlen (keys o) =? 0) = true <-> o = ∅.
Proof.
  rewrite DebateProtocolFacts.arrlen_zero. unfold keys. split.
  - intros H. apply fmap_nil_inv in H. now apply map_to_list_empty_iff.
  - intros ->. now rewrite map_to_list_empty.
Qed.

Lemma assign_lookup (key : string) (value : option JsValue) (o : TaskObject)
    (field : string) :
  assign key value o !! field
  = if String.eqb key field
    then match value with Some v => Some v | None => o !! field end
    else o !! field.
Proof.
  unfold assign. destruct (String.eqb_spec key field) as [->|Hne].
  - destruct value; [apply lookup_insert_eq|reflexivity].
  - destruct value; [now apply lookup_insert_ne|reflexivity].
Qed.

Lemma updateObjOf_empty (updates : ContentUpdates) :
  updateObjOf updates = ∅ <-> noContent updates.
Proof.
  unfold noContent, updateObjOf. split.
  - intros H.
    assert (Hl : forall field, updateObjOf updates !! field = None).
    { intros field. unfold updateObjOf. rewrite H. apply lookup_empty. }
    pose proof (Hl "name") as H1. pose proof (Hl "description") as H2.
    pose proof (Hl "notes") as H3. pose proof (Hl "relatedFiles") as H4.
    pose proof (Hl "dependencies") as H5.
    pose proof (Hl "implementationGuide") as H6.
    pose proof (Hl "verificationCriteria") as H7.
    unfold updateObjOf in H1, H2, H3, H4, H5, H6, H7.
    rewrite !assign_lookup in H1, H2, H3, H4, H5, H6, H7.
    cbn in H1, H2, H3, H4, H5, H6, H7.
    destruct (name' updates); [discriminate H1|].
    destruct (description' updates); [discriminate H2|].
    destruct (notes' updates); [discriminate H3|].
    destruct (relatedFiles' updates); [discriminate H4|].
    destruct (dependencies' updates); [discriminate H5|].
    destruct (implementationGuide' updates); [discriminate H6|].
    destruct (verificationCriteria' updates); [discriminate H7|].
    repeat split.
  - intros (-> & -> & -> & -> & -> & -> & ->). reflexivity.
Qed.

Lemma updateObjOf_other (updates : ContentUpdates) (field : string) :
  ~ In field contentFields -> updateObjOf updates !! field = None.
Proof.
  intros Hnot. unfold updateObjOf. rewrite !assign_lookup.
  repeat match goal with
    | |- context [String.eqb ?k field] =>
        destruct (String.eqb_spec k field) as [<-|_];
        [exfalso; apply Hnot; cbn; tauto|]
    end.
  apply lookup_empty.
Qed.

Section WithClock.

Variable now : Z.
Variable show : option JsValue -> string.

(** X21. For a stored task that is not completed, [updateTaskContent]
    always succeeds.  With no content supplied it returns the task as read
    and leaves the file untouched; otherwise the returned task carries the
    new time of update and the name supplied, if any, and every field that is
    no content field is as it was. *)
Theorem content_update_of_open_task (taskId : string) (updates : ContentUpdates)
    (file : Store) (found : TaskObject) :
  getTaskById now taskId file = Some found ->
  strictEqString (found !! "status") (statusString COMPLETED) = false ->
  let result := fst (updateTaskContent now taskId updates file) in
  let file' := snd (updateTaskContent now taskId updates file) in
  success result = true
  /\ (noContent updates -> task result = Some found /\ file' = file)
  /\ (~ noContent updates ->
      exists updated,
        task result = Some updated
        /\ updated !! "updatedAt" = Some (JDate now)
        /\ (forall newName, name' updates = Some newName ->
              updated !! "name" = Some (JString newName))
        /\ (forall field, ~ In field contentFields -> field <> "updatedAt" ->
              updated !! field = found !! field)).
Proof.
  intros Hfind Hopen. cbv zeta. unfold updateTaskContent. rewrite Hfind, Hopen.
  cbv zeta. fold (updateObjOf updates).
  destruct (Js.arrlen (keys (updateObjOf updates)) =? 0) eqn:Hk.
  - apply keys_empty, updateObjOf_empty in Hk. cbn [fst snd success task].
    split; [reflexivity|]. split; [auto|]. intros Hn. contradiction.
  - assert (Hn : ~ noContent updates).
    { intros H. apply updateObjOf_empty, keys_empty in H. congruence. }
    destruct (TaskStoreFacts.updateTask_found now taskId (updateObjOf updates)
                file found Hfind) as (i & _ & _ & ->).
    rewrite Hopen. cbn [andb fst snd success task].
    split; [reflexivity|]. split; [intros H; contradiction|]. intros _.
    eexists. split; [reflexivity|]. split; [apply lookup_insert_eq|]. split.
    + intros newName Hname. rewrite lookup_insert_ne by discriminate.
      apply lookup_union_Some_l. unfold updateObjOf. rewrite !assign_lookup.
      cbn. now rewrite Hname.
    + intros field Hf Hu. rewrite lookup_insert_ne by congruence.
      apply lookup_union_r. now apply updateObjOf_other.
Qed.

Lemma dependentsOf_none (allTasks : list TaskObject) (taskId : string) :
  dependentsOf allTasks taskId = Returned [] ->
  forall task, In task allTasks -> dependsOn task taskId = Returned false.
Proof.
  induction allTasks as [|t rest IH]; simpl; [intros _ ? []|].
  destruct (dependsOn t taskId) as [depends|e] eqn:Ed; [|discriminate].
  destruct (dependentsOf rest taskId) as [found|e]; [|discriminate].
  destruct depends; [discriminate|].
  intros [= ->] task [<-|Hin]; [exact Ed|now apply IH].
Qed.

Lemma dependsOn_stringify (task : TaskObject) (taskId : string) (depends : bool) :
  dependsOn task taskId = Returned depends ->
  dependsOn (stringifyTask task) taskId = Returned depends.
Proof.
  unfold dependsOn.
  destruct (task !! "dependencies") as [v|] eqn:E; [|discriminate].
  destruct v; try discriminate.
  now rewrite (TaskStoreFacts.stringify_lookup task "dependencies" _ E eq_refl).
Qed.

(** X22. When [deleteTask] succeeds, the task removed is the first one
    stored under the id and was not completed, the file holds one task fewer,
    and no task left in the file depends on the id.  In every other case the
    file is left exactly as it was. *)
Theorem delete_leaves_no_dependent (taskId : string) (file : Store) :
  let outcome := fst (deleteTask now show taskId file) in
  let file' := snd (deleteTask now show taskId file) in
  (forall r, outcome = Returned r -> success r = true ->
     (exists taskIndex removed,
        findIndex (fun task => strictEqString (task !! "id") taskId)
                  (readTasks now file) = Some taskIndex
        /\ readTasks now file !! taskIndex = Some removed
        /\ strictEqString (removed !! "status") (statusString COMPLETED) = false
        /\ file' = writeTasks (delete taskIndex (readTasks now file)))
     /\ (List.length file' + 1 = List.length file)%nat
     /\ (forall task, In task file' -> dependsOn task taskId = Returned false))
  /\ ((forall r, outcome = Returned r -> success r = false) -> file' = file).
Proof.
  cbv zeta. unfold deleteTask. cbv zeta.
  destruct (findIndex _ (readTasks now file)) as [i|] eqn:Hi;
    [|split; [intros r [= <-]; discriminate|reflexivity]].
  destruct (readTasks now file !! i) as [stored|] eqn:Hl;
    [|split; [intros r [= <-]; discriminate|reflexivity]].
  destruct (strictEqString (stored !! "status") (statusString COMPLETED)) eqn:Hc;
    [split; [intros r [= <-]; discriminate|reflexivity]|].
  destruct (dependentsOf (delete i (readTasks now file)) taskId)
    as [dependentTasks|e] eqn:Hd;
    [|split; [intros r H; discriminate H|reflexivity]].
  destruct (0 <? Js.arrlen dependentTasks) eqn:Hn;
    [split; [intros r [= <-]; discriminate|reflexivity]|].
  cbn [fst snd]. split.
  - intros r _ _.
    assert (Hnil : dependentTasks = []).
    { apply Z.ltb_ge in Hn. unfold Js.arrlen in Hn.
      destruct dependentTasks; [reflexivity|simpl in Hn; lia]. }
    subst dependentTasks. split; [|split].
    + exists i, stored. auto.
    + unfold writeTasks. rewrite length_fmap.
      pose proof (TaskStoreFacts.findIndex_lt _ _ _ Hi) as Hlt.
      rewrite length_delete by (now rewrite Hl).
      unfold readTasks in Hlt |- *. rewrite length_fmap in Hlt |- *. lia.
    + intros task Hin. unfold writeTasks in Hin.
      rewrite <- list_elem_of_In in Hin. apply list_elem_of_fmap in Hin as (t & -> & Ht).
      apply dependsOn_stringify.
      apply (dependentsOf_none _ _ Hd). now apply list_elem_of_In.
  - intros H. specialize (H _ eq_refl). discriminate H.
Qed.

End WithClock.

Lemma delete_witness :
  (List.length (snd (deleteTask 30 (fun _ => EmptyString) "t3"
                       [inProgressExample; pendingExample])) + 1
   = List.length [inProgressExample; pendingExample])%nat.
Proof.
  refine (proj1 (proj2 (proj1 (delete_leaves_no_dependent 30 (fun _ => EmptyString)
                                 "t3" [inProgressExample; pendingExample])
                          {| success := true; message := "任務刪除成功";
                             task := None |} _ _))).
  - reflexivity.
  - reflexivity.
Defined.

Lemma content_update_witness :
  success (fst (updateTaskContent 30 "t2" (renameTo "Check the report")
                  [completedExample; inProgressExample])) = true.
Proof.
  refine (proj1 (content_update_of_open_task 30 "t2" (renameTo "Check the report")
                   [completedExample; inProgressExample]
                   (reviveDates 30 inProgressExample) _ _)).
  - reflexivity.
  - reflexivity.
Defined.

End TaskContentFacts.

(** ** The queries on the stored tasks *)

Module TaskQueriesFacts.
Import TaskQueries.

Lemma statusEqb_spec (a b : TaskStatus) : statusEqb a b = true <-> a = b.
Proof. destruct a, b; simpl; split; congruence. Qed.

Section Stored.

Variable tasks : list Task.

Lemma blocked_list (deps : list TaskDependency) (acc : list string) :
  fold_left (blockStep tasks) deps acc
  = (acc ++ List.map taskId (List.filter (unmet tasks) deps))%list.
Proof.
  revert acc. induction deps as [|dep deps IH]; intros acc; simpl.
  - now rewrite app_nil_r.
  - rewrite IH. unfold blockStep, unmet, getTaskById. cbv zeta.
    destruct (List.find _ tasks) as [d|].
    + destruct (negb (statusEqb (status d) COMPLETED)); simpl;
        [now rewrite <- app_assoc|reflexivity].
    + simpl. now rewrite <- app_assoc.
Qed.

Lemma unmet_false (dep : TaskDependency) :
  unmet tasks dep = false
  <-> exists d, getTaskById tasks (taskId dep) = Some d /\ status d = COMPLETED.
Proof.
  unfold unmet. destruct (getTaskById tasks (taskId dep)) as [d|].
  - rewrite negb_false_iff, statusEqb_spec. split.
    + intros H. now exists d.
    + intros (d' & [= <-] & H). exact H.
  - split; [discriminate|intros (d & H & _); discriminate].
Qed.

Lemma filter_nil_iff {A} (f : A -> bool) (l : list A) :
  List.filter f l = [] <-> forall x, In x l -> f x = false.
Proof.
  induction l as [|y l IH]; simpl; [tauto|].
  destruct (f y) eqn:E.
  - split; [discriminate|]. intros H. specialize (H y (or_introl eq_refl)). congruence.
  - rewrite IH. split.
    + intros H x [<-|Hin]; auto.
    + intros H x Hin. apply H. now right.
Qed.

(** X24. For a stored task, [canExecuteTask] answers yes exactly when the
    task is not completed and every dependency names a stored task that is
    completed; then nothing is reported as blocking.  Otherwise, when
    dependencies were examined, [blockedBy] lists the ids of the
    dependencies that are missing or not completed, in order.  A task that
    depends on itself, or on an id that no task has, can never be executed. *)
Theorem executable_iff_dependencies_completed (wanted : string) (task : Task) :
  getTaskById tasks wanted = Some task ->
  let r := canExecuteTask tasks wanted in
  (canExecute r = true
   <-> status task <> COMPLETED
       /\ forall dep, In dep (dependencies task) ->
            exists d, getTaskById tasks (taskId dep) = Some d
                      /\ status d = COMPLETED)
  /\ (canExecute r = true -> blockedBy r = None)
  /\ (forall ids, blockedBy r = Some ids ->
        ids <> []
        /\ ids = List.map taskId (List.filter (unmet tasks) (dependencies task)))
  /\ (In {| taskId := wanted |} (dependencies task) -> canExecute r = false)
  /\ (forall dep, In dep (dependencies task) ->
        getTaskById tasks (taskId dep) = None -> canExecute r = false).
Proof.
  intros Hfind. cbv zeta. unfold canExecuteTask. rewrite Hfind.
  destruct (statusEqb (status task) COMPLETED) eqn:Hc.
  { apply statusEqb_spec in Hc. cbn [canExecute blockedBy].
    split; [split; [discriminate|intros [H _]; contradiction]|].
    split; [reflexivity|]. split; [discriminate|]. split; reflexivity. }
  assert (Hopen : status task <> COMPLETED).
  { intros H. apply statusEqb_spec in H. congruence. }
  destruct (dependencies task) as [|dep0 deps] eqn:Hdeps.
  { cbn. split; [split; [intros _; split; [exact Hopen|intros ? []]|reflexivity]|].
    split; [reflexivity|]. split; [discriminate|]. split; [intros []|intros ? []]. }
  change (Js.arrlen (dep0 :: deps) =? 0) with false. cbv iota zeta.
  rewrite blocked_list. cbn [app].
  set (blocked := List.filter (unmet tasks) (dep0 :: deps)).
  assert (Hlen : forall l : list string, (Js.arrlen l =? 0) = true <-> l = [])
    by (intros l; apply DebateProtocolFacts.arrlen_zero).
  assert (Hmap : List.map taskId blocked = [] <-> blocked = []).
  { destruct blocked; simpl; split; congruence. }
  cbn [canExecute blockedBy].
  split; [|split; [|split; [|split]]].
  - rewrite Hlen, Hmap. unfold blocked. rewrite filter_nil_iff. split.
    + intros H. split; [exact Hopen|]. intros dep Hin. apply unmet_false. auto.
    + intros [_ H] dep Hin. apply unmet_false. auto.
  - rewrite Hlen. intros ->. reflexivity.
  - intros ids. destruct (Z.ltb_spec 0 (Js.arrlen (List.map taskId blocked)));
      [|discriminate].
    intros [= <-]. split; [|reflexivity].
    intros E. rewrite E in H. unfold Js.arrlen in H. simpl in H. lia.
  - intros Hself. apply not_true_iff_false. rewrite Hlen, Hmap.
    unfold blocked. rewrite filter_nil_iff. intros H.
    specialize (H _ Hself). apply unmet_false in H as (d & Hd & Hs).
    cbn [taskId] in Hd. congruence.
  - intros dep Hin Hnone. apply not_true_iff_false. rewrite Hlen, Hmap.
    unfold blocked. rewrite filter_nil_iff. intros H.
    specialize (H _ Hin). apply unmet_false in H as (d & Hd & _). congruence.
Qed.

(** X23. For a stored task, [assessTaskComplexity] returns the highest of
    the three levels that the length of the description, the number of
    dependencies and the length of the notes each ask for, together with
    between 2 and 6 recommendations. *)
Theorem assessed_level_is_highest_demand (wanted : string) (task : Task) :
  getTaskById tasks wanted = Some task ->
  exists a,
    assessTaskComplexity tasks wanted = Some a
    /\ levelRank (level a)
       = Z.max (levelRank
                  (levelFor TaskComplexityThresholds.DESCRIPTION_LENGTH.MEDIUM
                            TaskComplexityThresholds.DESCRIPTION_LENGTH.HIGH
                            TaskComplexityThresholds.DESCRIPTION_LENGTH.VERY_HIGH
                            (Js.strlen (description task))))
           (Z.max (levelRank
                     (levelFor TaskComplexityThresholds.DEPENDENCIES_COUNT.MEDIUM
                               TaskComplexityThresholds.DEPENDENCIES_COUNT.HIGH
                               TaskComplexityThresholds.DEPENDENCIES_COUNT.VERY_HIGH
                               (Js.arrlen (dependencies task))))
                  (levelRank
                     (levelFor TaskComplexityThresholds.NOTES_LENGTH.MEDIUM
                               TaskComplexityThresholds.NOTES_LENGTH.HIGH
                               TaskComplexityThresholds.NOTES_LENGTH.VERY_HIGH
                               (match notes task with
                                | Some n => Js.strlen n
                                | None => 0
                                end))))
    /\ 2 <= Js.arrlen (recommendations a) <= 6.
Proof.
  intros Hfind. unfold assessTaskComplexity. rewrite Hfind. cbv zeta.
  eexists. split; [reflexivity|]. cbn [level recommendations].
  assert (Hn : match notes task with
               | Some n => if Js.truthy (Some n) then Js.strlen n else 0
               | None => 0
               end
               = match notes task with Some n => Js.strlen n | None => 0 end).
  { destruct (notes task) as [[|c n]|]; reflexivity. }
  rewrite Hn. clear Hn.
  set (d := Js.strlen (description task)).
  set (n := Js.arrlen (dependencies task)).
  set (l := match notes task with Some s => Js.strlen s | None => 0 end).
  clearbody d n l.
  unfold levelFor,
    TaskComplexityThresholds.DESCRIPTION_LENGTH.MEDIUM,
    TaskComplexityThresholds.DESCRIPTION_LENGTH.HIGH,
    TaskComplexityThresholds.DESCRIPTION_LENGTH.VERY_HIGH,
    TaskComplexityThresholds.DEPENDENCIES_COUNT.MEDIUM,
    TaskComplexityThresholds.DEPENDENCIES_COUNT.HIGH,
    TaskComplexityThresholds.DEPENDENCIES_COUNT.VERY_HIGH,
    TaskComplexityThresholds.NOTES_LENGTH.MEDIUM,
    TaskComplexityThresholds.NOTES_LENGTH.HIGH,
    TaskComplexityThresholds.NOTES_LENGTH.VERY_HIGH.
  destruct (Z.leb_spec 2000 d); [|destruct (Z.leb_spec 1000 d);
                                   [|destruct (Z.leb_spec 500 d)]];
    (destruct (Z.leb_spec 10 n); [|destruct (Z.leb_spec 5 n);
                                    [|destruct (Z.leb_spec 2 n)]]);
    (destruct (Z.leb_spec 1000 l); [|destruct (Z.leb_spec 500 l);
                                     [|destruct (Z.leb_spec 200 l)]]);
    do 3 (cbn [levelEqb negb andb]; rewrite ?andb_false_r, ?andb_true_r;
          cbv iota);
    cbn [levelRank];
    (split; [lia|]);
    unfold Js.arrlen;
    repeat match goal with
      | |- context [if ?b then _ else _] => destruct b
      end;
    simpl List.length; lia.
Qed.

End Stored.

Lemma executable_witness :
  canExecute (canExecuteTask typedFile "c") = false.
Proof.
  refine (proj1 (proj2 (proj2 (proj2
            (executable_iff_dependencies_completed typedFile "c"
               (typedTask "c" PENDING ["c"]) _)))) _).
  - reflexivity.
  - now left.
Defined.

Lemma assessed_level_witness :
  exists a, assessTaskComplexity typedFile "b" = Some a
            /\ 2 <= Js.arrlen (recommendations a) <= 6.
Proof.
  destruct (assessed_level_is_highest_demand typedFile "b"
              (typedTask "b" PENDING ["a"]) eq_refl) as (a & Ha & _ & Hr).
  exists a. split; assumption.
Defined.

End TaskQueriesFacts.

(** ** The MCP integration layer *)

Module McpIntegrationFacts.
Import McpIntegration.

Lemma assess_score_bounds (task : Task) :
  15 <= complexityScore (CognitiveRouter.assessTaskComplexity task) <= 100.
Proof.
  rewrite CognitiveRouterFacts.assess_score.
  destruct (CognitiveRouterFacts.descriptionPoints_cases
              (Js.strlen (description task))) as [[_ ->]|[[_ ->]|[_ ->]]];
    destruct (CognitiveRouterFacts.dependencyPoints_cases
                (Js.arrlen (dependencies task))) as [[_ ->]|[[_ ->]|[_ ->]]];
    destruct (CognitiveRouterFacts.notesPoints_cases
                (match notes task with Some n => Js.strlen n | None => 0 end))
      as [[_ ->]|[[_ ->]|[_ ->]]];
    destruct (CognitiveRouter.hasTemporalContext task); lia.
Qed.

(** X25. For the assessment that the cognitive router gives a task,
    [routeOperation] calls supabase for level LOW, always with priority
    medium (the score is never below 15, so priority high is never used) and
    with the table name "tasks" when the operation names none; it calls
    graphiti for the levels HIGH and VERY_HIGH, always with episodic memory
    required, with complexity very_high exactly for VERY_HIGH; and it runs
    the hybrid operation for level MEDIUM. *)
Theorem routed_call_reflects_assessment (task : Task) (operation : MCPOperation) :
  let a := CognitiveRouter.assessTaskComplexity task in
  match routeOperation a operation with
  | callSupabaseMCP type supabaseParams priority =>
      level a = LOW /\ priority = PRIORITY_MEDIUM
      /\ type = McpIntegration.operation operation
      /\ (parameters operation !! "table_name" = None ->
          supabaseParams !! "table_name" = Some (TaskModel.JString "tasks"))
      /\ (forall key value, parameters operation !! key = Some value ->
            supabaseParams !! key = Some value)
  | callGraphitiMCP type graphitiParams complexity requiresEpisodicMemory
                    temporalContext =>
      (level a = HIGH \/ level a = VERY_HIGH)
      /\ (complexity = COMPLEXITY_VERY_HIGH <-> level a = VERY_HIGH)
      /\ requiresEpisodicMemory = true
      /\ temporalContext = CognitiveRouter.hasTemporalContext task
      /\ graphitiParams = parameters operation
  | executeHybridOperation query => level a = MEDIUM
  end.
Proof.
  cbv zeta. unfold routeOperation.
  destruct (CognitiveRouterFacts.assess_shape task) as (Hlv & Hroute & _ & Htc).
  destruct (assess_score_bounds task) as [Hlo _].
  destruct (CognitiveRouterFacts.levelOfScore_cases
              (complexityScore (CognitiveRouter.assessTaskComplexity task)))
    as [[E H]|[[E H]|[[E H]|[E H]]]];
    rewrite <- Hlv in E; rewrite E in Hroute;
    destruct Hroute as (_ & -> & Hep).
  - split; [exact E|]. split.
    + destruct (Z.ltb_spec
                  (complexityScore (CognitiveRouter.assessTaskComplexity task)) 15);
        [lia|reflexivity].
    + split; [reflexivity|]. split.
      * intros Hnone. rewrite lookup_union_r by exact Hnone.
        rewrite lookup_singleton_eq, Hnone. reflexivity.
      * intros key value Hkey. now apply lookup_union_Some_l.
  - exact E.
  - split; [now left|]. split.
    + destruct (Z.ltb_spec 75
                  (complexityScore (CognitiveRouter.assessTaskComplexity task)));
        [lia|]. rewrite E. split; discriminate.
    + auto.
  - split; [now right|]. split.
    + destruct (Z.ltb_spec 75
                  (complexityScore (CognitiveRouter.assessTaskComplexity task)));
        [|lia]. rewrite E. split; reflexivity.
    + auto.
Qed.

Section Retry.

Context {T : Type}.
Variable retryConfig : RetryConfiguration.
Variable operation : nat -> Outcome T.

(** The loop, entered at [attempt] with the rounds that are left up to
    [maxRetries]: it returns the first answer, or throws the error of the
    last attempt. *)
Lemma retryLoop_spec (remaining attempt : nat) (lastError : string)
    (delays : list Q) :
  Z.of_nat attempt + Z.of_nat remaining = maxRetries retryConfig + 1 ->
  (0 < remaining)%nat ->
  (forall k result,
     (attempt <= k)%nat -> Z.of_nat k <= maxRetries retryConfig ->
     (forall j, (attempt <= j < k)%nat -> exists error, operation j = Threw error) ->
     operation k = Returned result ->
     retryLoop retryConfig operation remaining attempt lastError delays
     = (Returned result,
        (delays ++ List.map (delayAfter retryConfig) (seq attempt (k - attempt)))%list))
  /\ ((forall j, (attempt <= j)%nat -> Z.of_nat j <= maxRetries retryConfig ->
         exists error, operation j = Threw error) ->
      exists error,
        operation (Z.to_nat (maxRetries retryConfig)) = Threw error
        /\ retryLoop retryConfig operation remaining attempt lastError delays
           = (Threw error,
              (delays ++ List.map (delayAfter retryConfig)
                           (seq attempt (Z.to_nat (maxRetries retryConfig) - attempt)))%list)).
Proof.
  revert attempt lastError delays.
  induction remaining as [|remaining IH]; intros attempt lastError delays Hsum Hpos;
    [lia|].
  split.
  - intros k result Hk Hmax Hfail Hok. simpl.
    destruct (Nat.eq_dec attempt k) as [->|Hne].
    + rewrite Hok, Nat.sub_diag. simpl. now rewrite app_nil_r.
    + destruct (Hfail attempt ltac:(lia)) as [error ->].
      destruct (Z.eqb_spec (Z.of_nat attempt) (maxRetries retryConfig)); [lia|].
      destruct (IH (S attempt) error (delays ++ [delayAfter retryConfig attempt])%list
                  ltac:(lia) ltac:(lia)) as [Hfirst _].
      rewrite (Hfirst k result) by (auto; try lia; intros j Hj; apply Hfail; lia).
      replace (k - attempt)%nat with (S (k - S attempt)) by lia.
      simpl. now rewrite <- app_assoc.
  - intros Hall. simpl.
    destruct (Hall attempt ltac:(lia) ltac:(lia)) as [error Herr]. rewrite Herr.
    destruct (Z.eqb_spec (Z.of_nat attempt) (maxRetries retryConfig)) as [Heq|Hne].
    + exists error. rewrite <- Heq, Nat2Z.id, Nat.sub_diag. simpl.
      rewrite app_nil_r. auto.
    + destruct (IH (S attempt) error (delays ++ [delayAfter retryConfig attempt])%list
                  ltac:(lia) ltac:(lia)) as [_ Hlast].
      destruct Hlast as (error' & Hop & ->).
      { intros j Hj Hm. apply Hall; lia. }
      exists error'. split; [exact Hop|].
      replace (Z.to_nat (maxRetries retryConfig) - attempt)%nat
        with (S (Z.to_nat (maxRetries retryConfig) - S attempt)) by lia.
      simpl. now rewrite <- app_assoc.
Qed.

Lemma delayAfter_bounded (attempt : nat) :
  (delayAfter retryConfig attempt <= maxDelay retryConfig)%Q.
Proof. apply Q.le_min_r. Qed.

(** X26. With a number of retries that is not negative, [executeWithRetry]
    returns the answer of the first attempt that succeeds among the attempts
    0 to maxRetries, after one delay for each failed attempt before it; when
    all these attempts fail it throws the error of the last one, after
    maxRetries delays.  The delay after attempt k is the base delay times the
    multiplier to the power k, and never more than the maximal delay. *)
Theorem retry_returns_first_success :
  0 <= maxRetries retryConfig ->
  let outcome := fst (executeWithRetry retryConfig operation) in
  let delays := snd (executeWithRetry retryConfig operation) in
  (forall k result,
     Z.of_nat k <= maxRetries retryConfig ->
     (forall j, (j < k)%nat -> exists error, operation j = Threw error) ->
     operation k = Returned result ->
     outcome = Returned result
     /\ delays = List.map (delayAfter retryConfig) (seq 0 k))
  /\ ((forall j, Z.of_nat j <= maxRetries retryConfig ->
         exists error, operation j = Threw error) ->
      exists error,
        operation (Z.to_nat (maxRetries retryConfig)) = Threw error
        /\ outcome = Threw error
        /\ delays = List.map (delayAfter retryConfig)
                             (seq 0 (Z.to_nat (maxRetries retryConfig))))
  /\ (forall d, In d (List.map (delayAfter retryConfig)
                              (seq 0 (Z.to_nat (maxRetries retryConfig)))) ->
        (d <= maxDelay retryConfig)%Q).
Proof.
  intros Hmax. cbv zeta. unfold executeWithRetry.
  destruct (retryLoop_spec (Z.to_nat (maxRetries retryConfig + 1)) 0 "undefined" []
              ltac:(lia) ltac:(lia)) as [Hfirst Hlast].
  split; [|split].
  - intros k result Hk Hfail Hok.
    rewrite (Hfirst k result) by (auto; try lia; intros j Hj; apply Hfail; lia).
    rewrite Nat.sub_0_r. auto.
  - intros Hall. destruct Hlast as (error & Hop & ->).
    { intros j _ Hj. now apply Hall. }
    exists error. rewrite Nat.sub_0_r. auto.
  - intros d Hin. apply in_map_iff in Hin as (k & <- & _).
    apply delayAfter_bounded.
Qed.

End Retry.

Lemma retry_witness :
  fst (executeWithRetry DEFAULT_RETRY_CONFIG failsTwice) = Returned "done"
  /\ snd (executeWithRetry DEFAULT_RETRY_CONFIG failsTwice)
     = List.map (delayAfter DEFAULT_RETRY_CONFIG) (seq 0 2).
Proof.
  refine (proj1 (retry_returns_first_success DEFAULT_RETRY_CONFIG failsTwice _)
                2%nat "done" _ _ _).
  - discriminate.
  - discriminate.
  - intros [|[|j]] Hj; [now exists "timeout"|now exists "busy"|lia].
  - reflexivity.
Defined.

Lemma tl_skipn {A} (k : nat) (l : list A) : List.tl (skipn k l) = skipn (S k) l.
Proof.
  revert l. induction k as [|k IH]; intros l.
  - now destruct l.
  - destruct l as [|x l]; [reflexivity|]. exact (IH l).
Qed.

(** Appending to a window of 100 and dropping the oldest entry when the
    window overflows gives the window of the longer list. *)
Lemma lastN_snoc {A} (l : list A) (x : A) :
  (if 100 <? Js.arrlen (lastN 100 l ++ [x])%list
   then List.tl (lastN 100 l ++ [x])%list
   else (lastN 100 l ++ [x])%list)
  = lastN 100 (l ++ [x])%list.
Proof.
  unfold lastN, Js.arrlen.
  rewrite !length_app, length_skipn. cbn [List.length].
  destruct (Z.ltb_spec 100 (Z.of_nat (List.length l - (List.length l - 100) + 1))).
  - assert (Hl : (100 <= List.length l)%nat) by lia.
    replace (List.length l + 1 - 100)%nat with (S (List.length l - 100)) by lia.
    rewrite skipn_app.
    replace (S (List.length l - 100) - List.length l)%nat with O by lia.
    cbn [skipn]. rewrite <- tl_skipn.
    destruct (skipn (List.length l - 100) l) eqn:E; [|reflexivity].
    apply (f_equal (@List.length A)) in E. rewrite length_skipn in E.
    simpl in E. lia.
  - replace (List.length l - 100)%nat with O by lia.
    replace (List.length l + 1 - 100)%nat with O by lia.
    reflexivity.
Qed.

Lemma timesOf_snoc (operation : string) (events : list (string * Q))
    (event : string * Q) :
  timesOf operation (events ++ [event])%list
  = (timesOf operation events
     ++ (if String.eqb (fst event) operation then [snd event] else []))%list.
Proof.
  unfold timesOf. rewrite List.filter_app, map_app. simpl.
  now destruct (String.eqb (fst event) operation).
Qed.

Lemma recordPerformanceMetric_lookup (operation key : string) (responseTime : Q)
    (performanceMetrics : gmap string (list Q)) :
  recordPerformanceMetric operation responseTime performanceMetrics !! key
  = if String.eqb operation key
    then let window :=
           (default [] (performanceMetrics !! operation) ++ [responseTime])%list in
         Some (if 100 <? Js.arrlen window then List.tl window else window)
    else performanceMetrics !! key.
Proof.
  unfold recordPerformanceMetric. cbv zeta.
  assert (Hd : default []
                 ((if bool_decide (is_Some (performanceMetrics !! operation))
                   then performanceMetrics
                   else <[operation := []]> performanceMetrics) !! operation)
               = default [] (performanceMetrics !! operation)).
  { destruct (performanceMetrics !! operation) as [times|] eqn:E.
    - rewrite bool_decide_eq_true_2 by eauto. now rewrite E.
    - rewrite bool_decide_eq_false_2 by (intros [? ?]; discriminate).
      now rewrite lookup_insert_eq. }
  rewrite Hd.
  destruct (String.eqb_spec operation key) as [->|Hne].
  - now rewrite lookup_insert_eq.
  - rewrite lookup_insert_ne by exact Hne.
    destruct (bool_decide (is_Some (performanceMetrics !! operation)));
      [reflexivity|]. now rewrite lookup_insert_ne by exact Hne.
Qed.

Lemma recordAll_snoc (events : list (string * Q)) (event : string * Q)
    (performanceMetrics : gmap string (list Q)) :
  recordAll (events ++ [event])%list performanceMetrics
  = recordPerformanceMetric (fst event) (snd event)
      (recordAll events performanceMetrics).
Proof. unfold recordAll. now rewrite fold_left_app. Qed.

Lemma lastN_nonempty {A} (l : list A) : l <> [] -> lastN 100 l <> [].
Proof.
  intros Hl E. apply (f_equal (@List.length A)) in E.
  unfold lastN in E. rewrite length_skipn in E. simpl in E.
  destruct l; [contradiction|]. simpl in E. lia.
Qed.

(** X27. After any sequence of calls of [recordPerformanceMetric] on an
    empty map, an operation has an entry exactly when a response time was
    recorded for it, and the entry holds its last 100 response times in the
    order they were recorded: between 1 and 100 values. *)
Theorem metrics_hold_last_hundred (events : list (string * Q)) (operation : string) :
  recordAll events ∅ !! operation = windowOf operation events
  /\ (forall times, recordAll events ∅ !! operation = Some times ->
        1 <= Js.arrlen times <= 100).
Proof.
  assert (Hw : recordAll events ∅ !! operation = windowOf operation events).
  { induction events as [|event events IH] using rev_ind; [reflexivity|].
    rewrite recordAll_snoc, recordPerformanceMetric_lookup.
    unfold windowOf in *. rewrite timesOf_snoc.
    destruct (String.eqb_spec (fst event) operation) as [<-|Hne].
    - cbv zeta. rewrite IH.
      destruct (timesOf (fst event) events) as [|t times] eqn:E.
      + reflexivity.
      + cbn [default from_option Datatypes.id]. rewrite lastN_snoc.
        destruct ((t :: times) ++ [snd event])%list eqn:E'; [|reflexivity].
        destruct times; discriminate E'.
    - rewrite app_nil_r. exact IH. }
  split; [exact Hw|].
  intros times. rewrite Hw. unfold windowOf.
  destruct (timesOf operation events) as [|t rest] eqn:E; [discriminate|].
  intros [= <-]. unfold Js.arrlen, lastN. rewrite length_skipn.
  simpl List.length. lia.
Qed.

End McpIntegrationFacts.

(** ** Reading and writing the file of tasks *)

Module FileFacts.
Import TaskModel TaskStore.

Lemma stringify_lookup_all (o : TaskObject) (key : string) :
  stringifyTask o !! key
  = match o !! key with
    | Some v => if isUndefined v then None else Some v
    | None => None
    end.
Proof.
  destruct (o !! key) as [v|] eqn:E.
  - destruct (isUndefined v) eqn:Ev.
    + destruct (stringifyTask o !! key) as [w|] eqn:Ew; [|reflexivity].
      apply map_lookup_filter_Some in Ew as [Ew Hw]. cbn in Hw. congruence.
    + now apply TaskStoreFacts.stringify_lookup.
  - destruct (stringifyTask o !! key) as [w|] eqn:Ew; [|reflexivity].
    apply map_lookup_filter_Some in Ew as [Ew _]. congruence.
Qed.

(** Reading a well stored task and writing it back gives the same task. *)
Lemma task_round_trip (now : Z) (task : TaskObject) :
  wellStored task -> stringifyTask (reviveDates now task) = task.
Proof.
  intros (Hdef & [c Hc] & [u Hu] & Hdone). apply map_eq. intros key.
  rewrite stringify_lookup_all. unfold reviveDates.
  destruct (String.eqb_spec key "completedAt") as [->|H1].
  { rewrite lookup_insert_eq.
    destruct Hdone as [Hnone|[d Hd]].
    - now rewrite Hnone.
    - now rewrite Hd. }
  rewrite lookup_insert_ne by congruence.
  destruct (String.eqb_spec key "updatedAt") as [->|H2].
  { rewrite lookup_insert_eq, Hu. reflexivity. }
  rewrite lookup_insert_ne by congruence.
  destruct (String.eqb_spec key "createdAt") as [->|H3].
  { rewrite lookup_insert_eq, Hc. reflexivity. }
  rewrite lookup_insert_ne by congruence.
  destruct (task !! key) as [v|] eqn:E; [|reflexivity].
  destruct v; try reflexivity. exfalso. exact (Hdef key E).
Qed.

(** X28. Round trip: for a file whose tasks are well stored (no undefined
    value, the dates of creation and update present, the date of completion
    present or its key missing), writing the tasks that [readTasks] returns
    gives the file back unchanged. *)
Theorem read_write_round_trip (now : Z) (file : Store) :
  Forall wellStored file -> writeTasks (readTasks now file) = file.
Proof.
  intros Hall. unfold writeTasks, readTasks. rewrite <- list_fmap_compose.
  induction Hall as [|task rest Htask _ IH]; [reflexivity|].
  cbn [fmap list_fmap]. cbn [compose]. rewrite (task_round_trip now task Htask).
  f_equal. exact IH.
Qed.

Lemma wellStored_inProgressExample : wellStored inProgressExample.
Proof.
  split; [|split; [|split]].
  - intros key E. unfold inProgressExample in E.
    repeat (apply lookup_insert_Some in E as [[_ E]|[_ E]]; [discriminate E|]).
    discriminate E.
  - exists 10. reflexivity.
  - exists 20. reflexivity.
  - left. reflexivity.
Qed.

Lemma round_trip_witness :
  writeTasks (readTasks 30 [inProgressExample]) = [inProgressExample].
Proof.
  apply (read_write_round_trip 30 [inProgressExample]).
  constructor; [exact wellStored_inProgressExample|constructor].
Defined.



End FileFacts.

(** ** The analyzer of the configuration *)

Module AnalyzerFacts.
Import DebateProtocol DebateConfigAnalyzer.

Lemma Qgtb_true (x y : Q) : Qgtb x y = true <-> (y < x)%Q.
Proof. unfold Qgtb. apply AntiObfuscationFacts.Qltb_lt. Qed.

Lemma Qgtb_false (x y : Q) : Qgtb x y = false <-> (x <= y)%Q.
Proof. unfold Qgtb. apply LoaderFacts.Qltb_false. Qed.

Lemma advice_distinct :
  keywordsAdvice <> timeAdvice /\ recommendationsAdvice <> timeAdvice.
Proof. split; discriminate. Qed.

(** X30. The processing time that [analyzePerformanceImpact] estimates
    depends on two switches and on the number of keywords only: it is one of
    157, 172, 204, 224, 244 and 269 milliseconds.  The memory usage is HIGH
    exactly when both the anti-obfuscation check and the analytics are
    enabled, and LOW exactly when neither is.  The advice about the time
    limit is never given for a limit of 337 ms or more and always for a limit
    of 195 ms or less; at most three recommendations are returned. *)
Theorem estimate_depends_on_switches (config : DebateProtocolConfig) :
  let r := analyzePerformanceImpact config in
  let checks := enabled (antiObfuscation config) in
  let analytics := enableAnalytics (performance config) in
  let limit := maxProcessingTimeMs (performance config) in
  In (estimatedProcessingTime r) [157; 172; 204; 224; 244; 269]
  /\ (memoryUsage r = MEMORY_HIGH <-> checks = true /\ analytics = true)
  /\ (memoryUsage r = MEMORY_LOW <-> checks = false /\ analytics = false)
  /\ ((337 <= limit)%Q -> ~ In timeAdvice (recommendations r))
  /\ ((limit <= 195)%Q -> In timeAdvice (recommendations r))
  /\ Js.arrlen (recommendations r) <= 3.
Proof.
  cbv zeta. unfold analyzePerformanceImpact. cbv zeta.
  destruct advice_distinct as [Hk Hr].
  set (limit := maxProcessingTimeMs (performance config)).
  destruct (enabled (antiObfuscation config));
    [destruct (20 <? Js.arrlen (suspiciousPatternKeywords (antiObfuscation config)))|];
    destruct (enableAnalytics (performance config));
    cbn [estimatedProcessingTime memoryUsage recommendations];
    match goal with
    | |- context [Qgtb ?t (limit * (8 # 10))%Q] =>
        destruct (Qgtb t (limit * (8 # 10))%Q) eqn:Et;
        [apply Qgtb_true in Et|apply Qgtb_false in Et]
    end;
    destruct (Qgtb (maxRecommendations (performance config)) 10);
    (split; [vm_compute; tauto|]);
    (split; [split; [intros H; try discriminate H; auto|intros [? ?]; try discriminate; reflexivity]|]);
    (split; [split; [intros H; try discriminate H; auto|intros [? ?]; try discriminate; reflexivity]|]);
    (split; [intros Hlim Hin|split; [intros Hlim|vm_compute; discriminate]]).
  all: try (repeat (apply in_app_or in Hin as [Hin|Hin]);
            repeat (destruct Hin as [Hin|Hin]; try congruence);
            try contradiction;
            exfalso; revert Et Hlim; vm_compute; intros; nia).
  all: try (repeat (apply in_or_app; first [right; now left | left]); fail).
  all: try (exfalso; revert Et Hlim; unfold Qle, Qlt; cbn; intros; nia).
Qed.

End AnalyzerFacts.
